(** * Node reputation: the audit-outcome state machine of [reputations.Update]

    A shallow embedding of the reputation code of
    [src/multinode/multinodedb/dbx/multinodedb.dbx.go] (lines 1642-2215):
    [Update], [UnsuspendNodeUnknownAudit], [populateUpdateFields],
    [populateUpdateNodeStats], [getNodeStatus] and [updateReputation].

    Data is kept as the Go code has it:
    - [float64] is Rocq's primitive binary64 [float]; Go's [+ * /], [<=] and
      [<] are [PrimFloat]'s operations (IEEE 754, no fused multiply-add);
    - [int64] is [Z] with the two's-complement wrap-around written out;
    - [time.Time] is an instant in nanoseconds, [time.Duration] a number of
      nanoseconds; [*time.Time] is [option Time];
    - the [reputations] table is a finite map from node identifiers to rows;
      a transaction works on a copy that is committed or dropped;
    - [time.Now], which [time.Since] reads, is an explicit argument [wall],
      apart from the [now] the caller passes.

    The generated [dbx] layer, the column defaults of the table, the
    audit-history tracker and [ReputationStatus.Equal] are not in the file;
    they are modelled from the specification and marked so.  The model comes
    first, then the vocabulary of the properties, then the properties.

    The model also covers the other entry points of the reputation code
    ([DisqualifyNode], [SuspendNodeUnknownAudit], [SetNodeStatus], [Get])
    and the runtime support for building SQL statements of the same file
    ([__sqlbundle_flattenSQL], [Rebind], [Render], [__sqlbundle_Render]). *)

From Stdlib Require Import ZArith Bool List Lia PrimFloat FloatAxioms SpecFloat.
From Stdlib Require Strings.Byte Strings.String DecimalString.
From stdpp Require Import base option gmap.

Open Scope Z_scope.

(** ** Machine integers *)

Module Int64.

Definition min_int : Z := - 2 ^ 63.
Definition max_int : Z := 2 ^ 63 - 1.

(** Two's-complement reduction of an integer to 64 bits. *)
Definition wrap (z : Z) : Z := (z + 2 ^ 63) mod 2 ^ 64 - 2 ^ 63.

(** Go's [+] on [int64]. *)
Definition add (x y : Z) : Z := wrap (x + y).

End Int64.

(** ** Time *)

Module GoTime.

(** An instant, in nanoseconds since the Unix epoch. *)
Abbreviation Time := Z (only parsing).

(** [time.Duration]: an [int64] count of nanoseconds. *)
Abbreviation Duration := Z (only parsing).

Definition Hour : Duration := 3600 * 1000000000.

(** [t.Add(d)]. *)
Definition Add (t : Time) (d : Duration) : Time := t + d.

(** [t.Sub(u)]: the difference, saturated to the range of [time.Duration]. *)
Definition Sub (t u : Time) : Duration :=
  Z.max Int64.min_int (Z.min Int64.max_int (t - u)).

(** [t.After(u)]. *)
Definition After (t u : Time) : bool := u <? t.

(** [time.Since(t)] is [time.Now().Sub(t)]: it reads the wall clock, here the
    explicit argument [wall]. *)
Definition Since (wall : Time) (t : Time) : Duration := Sub wall t.

End GoTime.

Import GoTime.

(** ** Requests, rows and statuses *)

(** [storj.NodeID], a 32-byte identifier, as the number its bytes spell. *)
Abbreviation NodeID := N (only parsing).

(** The serialized [internalpb.AuditHistory] of a row. *)
Abbreviation AuditHistoryBytes := (list Byte.byte) (only parsing).

(** [reputation.AuditType] with its four outcomes. *)
Inductive AuditType : Type :=
| AuditSuccess
| AuditFailure
| AuditUnknown
| AuditOffline.

Definition AuditType_eqb (a b : AuditType) : bool :=
  match a, b with
  | AuditSuccess, AuditSuccess
  | AuditFailure, AuditFailure
  | AuditUnknown, AuditUnknown
  | AuditOffline, AuditOffline => true
  | _, _ => false
  end.

(** [reputation.AuditHistoryConfig], the fields the code reads. *)
Module AuditHistoryConfig.
Record t : Type := mk {
  OfflineSuspensionEnabled : bool;
  OfflineThreshold : float;
  OfflineDQEnabled : bool;
  GracePeriod : Duration;
  TrackingPeriod : Duration
}.
End AuditHistoryConfig.

(** [reputation.UpdateRequest]. *)
Module UpdateRequest.
Record t : Type := mk {
  NodeID : N;
  AuditOutcome : AuditType;
  AuditLambda : float;
  AuditWeight : float;
  AuditDQ : float;
  SuspensionGracePeriod : Duration;
  SuspensionDQEnabled : bool;
  AuditsRequiredForVetting : Z;
  AuditHistory : AuditHistoryConfig.t
}.
End UpdateRequest.

(** [reputation.UpdateAuditHistoryResponse]. *)
Module UpdateAuditHistoryResponse.
Record t : Type := mk {
  NewScore : float;
  TrackingPeriodFull : bool
}.
End UpdateAuditHistoryResponse.

(** [dbx.Reputation], one row of the [reputations] table. *)
Module Reputation.
Record t : Type := mk {
  Id : NodeID;
  AuditSuccessCount : Z;
  TotalAuditCount : Z;
  VettedAt : option Time;
  Contained : bool;
  Disqualified : option Time;
  Suspended : option Time;
  UnknownAuditSuspended : option Time;
  OfflineSuspended : option Time;
  UnderReview : option Time;
  OnlineScore : float;
  AuditHistory : AuditHistoryBytes;
  AuditReputationAlpha : float;
  AuditReputationBeta : float;
  UnknownAuditReputationAlpha : float;
  UnknownAuditReputationBeta : float
}.
End Reputation.

(** [overlay.ReputationStatus]. *)
Module ReputationStatus.
Record t : Type := mk {
  Contained : bool;
  Disqualified : option Time;
  UnknownAuditSuspended : option Time;
  OfflineSuspended : option Time;
  VettedAt : option Time
}.

(** The zero value of the struct ([var oldStatus overlay.ReputationStatus]). *)
Definition zero : t := mk false None None None None.

Definition time_ptr_equal (a b : option Time) : bool :=
  match a, b with
  | Some x, Some y => x =? y
  | None, None => true
  | _, _ => false
  end.

(** Modelled from the spec: [overlay.ReputationStatus.Equal] is not part of
    the file; the spec gives [changed = (newStatus ≠ oldStatus)] on the five
    projected fields, so [Equal] compares them field by field. *)
Definition Equal (a b : t) : bool :=
  Bool.eqb (Contained a) (Contained b)
  && time_ptr_equal (Disqualified a) (Disqualified b)
  && time_ptr_equal (UnknownAuditSuspended a) (UnknownAuditSuspended b)
  && time_ptr_equal (OfflineSuspended a) (OfflineSuspended b)
  && time_ptr_equal (VettedAt a) (VettedAt b).
End ReputationStatus.

(** ** Sparse updates *)

Record int64Field : Type := mkInt64Field {
  i_set : bool;
  i_value : Z
}.

Record float64Field : Type := mkFloat64Field {
  f_set : bool;
  f_value : float
}.

Record boolField : Type := mkBoolField {
  b_set : bool;
  b_value : bool
}.

Record timeField : Type := mkTimeField {
  t_set : bool;
  t_isNil : bool;
  t_value : Time
}.

(** Zero values of the field structs, and the three composite literals the
    code writes: [{set: true, value: v}] and [{set: true, isNil: true}]. *)
Definition int64Field_zero : int64Field := mkInt64Field false 0.
Definition timeField_zero : timeField := mkTimeField false false 0.
Definition timeField_value (v : Time) : timeField := mkTimeField true false v.
Definition timeField_nil : timeField := mkTimeField true true 0.

Module updateNodeStats.
Record t : Type := mk {
  NodeID : N;
  VettedAt : timeField;
  TotalAuditCount : int64Field;
  AuditReputationAlpha : float64Field;
  AuditReputationBeta : float64Field;
  Disqualified : timeField;
  UnknownAuditReputationAlpha : float64Field;
  UnknownAuditReputationBeta : float64Field;
  UnknownAuditSuspended : timeField;
  LastContactSuccess : timeField;
  LastContactFailure : timeField;
  AuditSuccessCount : int64Field;
  Contained : boolField;
  OfflineUnderReview : timeField;
  OfflineSuspended : timeField;
  OnlineScore : float64Field
}.

(** Assignments [updateFields.X = v] of the fields the code assigns after the
    composite literal. *)
Definition set_VettedAt (v : timeField) (u : t) : t :=
  mk (NodeID u) v (TotalAuditCount u) (AuditReputationAlpha u)
     (AuditReputationBeta u) (Disqualified u) (UnknownAuditReputationAlpha u)
     (UnknownAuditReputationBeta u) (UnknownAuditSuspended u)
     (LastContactSuccess u) (LastContactFailure u) (AuditSuccessCount u)
     (Contained u) (OfflineUnderReview u) (OfflineSuspended u) (OnlineScore u).

Definition set_Disqualified (v : timeField) (u : t) : t :=
  mk (NodeID u) (VettedAt u) (TotalAuditCount u) (AuditReputationAlpha u)
     (AuditReputationBeta u) v (UnknownAuditReputationAlpha u)
     (UnknownAuditReputationBeta u) (UnknownAuditSuspended u)
     (LastContactSuccess u) (LastContactFailure u) (AuditSuccessCount u)
     (Contained u) (OfflineUnderReview u) (OfflineSuspended u) (OnlineScore u).

Definition set_UnknownAuditSuspended (v : timeField) (u : t) : t :=
  mk (NodeID u) (VettedAt u) (TotalAuditCount u) (AuditReputationAlpha u)
     (AuditReputationBeta u) (Disqualified u) (UnknownAuditReputationAlpha u)
     (UnknownAuditReputationBeta u) v
     (LastContactSuccess u) (LastContactFailure u) (AuditSuccessCount u)
     (Contained u) (OfflineUnderReview u) (OfflineSuspended u) (OnlineScore u).

Definition set_LastContactSuccess (v : timeField) (u : t) : t :=
  mk (NodeID u) (VettedAt u) (TotalAuditCount u) (AuditReputationAlpha u)
     (AuditReputationBeta u) (Disqualified u) (UnknownAuditReputationAlpha u)
     (UnknownAuditReputationBeta u) (UnknownAuditSuspended u)
     v (LastContactFailure u) (AuditSuccessCount u)
     (Contained u) (OfflineUnderReview u) (OfflineSuspended u) (OnlineScore u).

Definition set_LastContactFailure (v : timeField) (u : t) : t :=
  mk (NodeID u) (VettedAt u) (TotalAuditCount u) (AuditReputationAlpha u)
     (AuditReputationBeta u) (Disqualified u) (UnknownAuditReputationAlpha u)
     (UnknownAuditReputationBeta u) (UnknownAuditSuspended u)
     (LastContactSuccess u) v (AuditSuccessCount u)
     (Contained u) (OfflineUnderReview u) (OfflineSuspended u) (OnlineScore u).

Definition set_AuditSuccessCount (v : int64Field) (u : t) : t :=
  mk (NodeID u) (VettedAt u) (TotalAuditCount u) (AuditReputationAlpha u)
     (AuditReputationBeta u) (Disqualified u) (UnknownAuditReputationAlpha u)
     (UnknownAuditReputationBeta u) (UnknownAuditSuspended u)
     (LastContactSuccess u) (LastContactFailure u) v
     (Contained u) (OfflineUnderReview u) (OfflineSuspended u) (OnlineScore u).

Definition set_OfflineUnderReview (v : timeField) (u : t) : t :=
  mk (NodeID u) (VettedAt u) (TotalAuditCount u) (AuditReputationAlpha u)
     (AuditReputationBeta u) (Disqualified u) (UnknownAuditReputationAlpha u)
     (UnknownAuditReputationBeta u) (UnknownAuditSuspended u)
     (LastContactSuccess u) (LastContactFailure u) (AuditSuccessCount u)
     (Contained u) v (OfflineSuspended u) (OnlineScore u).

Definition set_OfflineSuspended (v : timeField) (u : t) : t :=
  mk (NodeID u) (VettedAt u) (TotalAuditCount u) (AuditReputationAlpha u)
     (AuditReputationBeta u) (Disqualified u) (UnknownAuditReputationAlpha u)
     (UnknownAuditReputationBeta u) (UnknownAuditSuspended u)
     (LastContactSuccess u) (LastContactFailure u) (AuditSuccessCount u)
     (Contained u) (OfflineUnderReview u) v (OnlineScore u).
End updateNodeStats.

(** [dbx.Reputation_Update_Fields]: per column, [None] leaves the column
    untouched; for a nullable column [Some None] writes NULL. *)
Module Reputation_Update_Fields.
Record t : Type := mk {
  VettedAt : option (option Time);
  TotalAuditCount : option Z;
  AuditReputationAlpha : option float;
  AuditReputationBeta : option float;
  Disqualified : option (option Time);
  UnknownAuditReputationAlpha : option float;
  UnknownAuditReputationBeta : option float;
  UnknownAuditSuspended : option (option Time);
  AuditSuccessCount : option Z;
  Contained : option bool;
  OnlineScore : option float;
  OfflineSuspended : option (option Time);
  UnderReview : option (option Time)
}.

(** [dbx.Reputation_Update_Fields{}]. *)
Definition empty : t :=
  mk None None None None None None None None None None None None None.

(** The assignment [updateFields.UnknownAuditSuspended = v]. *)
Definition set_UnknownAuditSuspended (v : option (option Time)) (u : t) : t :=
  mk (VettedAt u) (TotalAuditCount u) (AuditReputationAlpha u)
     (AuditReputationBeta u) (Disqualified u) (UnknownAuditReputationAlpha u)
     (UnknownAuditReputationBeta u) v (AuditSuccessCount u) (Contained u)
     (OnlineScore u) (OfflineSuspended u) (UnderReview u).
End Reputation_Update_Fields.

(** ** The Beta-distribution update *)

(** [updateReputation] (lines 2207-2216). *)
Definition updateReputation (isSuccess : bool) (alpha beta lambda w : float)
    (totalCount : Z) : float * float * Z :=
  let v : float := if isSuccess then 1%float else (-1)%float in
  let newAlpha := (lambda * alpha + w * (1 + v) / 2)%float in
  let newBeta := (lambda * beta + w * (1 - v) / 2)%float in
  (newAlpha, newBeta, Int64.add totalCount 1).

(** The two scores of lines 2051 and 2059, [alpha / (alpha + beta)]. *)
Definition reputationScore (alpha beta : float) : float :=
  (alpha / (alpha + beta))%float.

(** The [switch updateReq.AuditOutcome] of lines 1979-2022: the four
    parameters and [updatedTotalAuditCount] after it. *)
Definition auditOutcomeSwitch (outcome : AuditType)
    (auditAlpha auditBeta unknownAuditAlpha unknownAuditBeta lambda w : float)
    (totalAuditCount : Z) : float * float * float * float * Z :=
  match outcome with
  | AuditSuccess =>
      let '(auditAlpha, auditBeta, updatedTotalAuditCount) :=
        updateReputation true auditAlpha auditBeta lambda w totalAuditCount in
      let '(unknownAuditAlpha, unknownAuditBeta, _) :=
        updateReputation true unknownAuditAlpha unknownAuditBeta lambda w
          totalAuditCount in
      (auditAlpha, auditBeta, unknownAuditAlpha, unknownAuditBeta,
       updatedTotalAuditCount)
  | AuditFailure =>
      let '(auditAlpha, auditBeta, updatedTotalAuditCount) :=
        updateReputation false auditAlpha auditBeta lambda w totalAuditCount in
      (auditAlpha, auditBeta, unknownAuditAlpha, unknownAuditBeta,
       updatedTotalAuditCount)
  | AuditUnknown =>
      let '(unknownAuditAlpha, unknownAuditBeta, updatedTotalAuditCount) :=
        updateReputation false unknownAuditAlpha unknownAuditBeta lambda w
          totalAuditCount in
      (auditAlpha, auditBeta, unknownAuditAlpha, unknownAuditBeta,
       updatedTotalAuditCount)
  | AuditOffline =>
      (auditAlpha, auditBeta, unknownAuditAlpha, unknownAuditBeta,
       Int64.add totalAuditCount 1)
  end.

(** ** The state machine *)

(** [populateUpdateNodeStats] (lines 1965-2151).  [wall] is the reading of the
    wall clock that [time.Since] takes at line 2076. *)
Definition populateUpdateNodeStats (dbNode : Reputation.t)
    (updateReq : UpdateRequest.t)
    (auditHistoryResponse : UpdateAuditHistoryResponse.t)
    (now wall : Time) : updateNodeStats.t :=
  let totalAuditCount := Reputation.TotalAuditCount dbNode in
  let vettedAt := Reputation.VettedAt dbNode in
  let '(auditAlpha, auditBeta, unknownAuditAlpha, unknownAuditBeta,
        updatedTotalAuditCount) :=
    auditOutcomeSwitch (UpdateRequest.AuditOutcome updateReq)
      (Reputation.AuditReputationAlpha dbNode)
      (Reputation.AuditReputationBeta dbNode)
      (Reputation.UnknownAuditReputationAlpha dbNode)
      (Reputation.UnknownAuditReputationBeta dbNode)
      (UpdateRequest.AuditLambda updateReq)
      (UpdateRequest.AuditWeight updateReq)
      totalAuditCount in
  let isUp :=
    negb (AuditType_eqb (UpdateRequest.AuditOutcome updateReq) AuditOffline) in
  let updateFields :=
    updateNodeStats.mk
      (UpdateRequest.NodeID updateReq)
      timeField_zero
      (mkInt64Field true updatedTotalAuditCount)
      (mkFloat64Field true auditAlpha)
      (mkFloat64Field true auditBeta)
      timeField_zero
      (mkFloat64Field true unknownAuditAlpha)
      (mkFloat64Field true unknownAuditBeta)
      timeField_zero
      timeField_zero
      timeField_zero
      int64Field_zero
      (mkBoolField true false)
      timeField_zero
      timeField_zero
      (mkFloat64Field true (UpdateAuditHistoryResponse.NewScore auditHistoryResponse)) in
  let updateFields :=
    if match vettedAt with None => true | Some _ => false end
       && (updatedTotalAuditCount >=? UpdateRequest.AuditsRequiredForVetting updateReq)
    then updateNodeStats.set_VettedAt (timeField_value now) updateFields
    else updateFields in
  (* disqualification case a *)
  let auditRep := reputationScore auditAlpha auditBeta in
  let updateFields :=
    if (auditRep <=? UpdateRequest.AuditDQ updateReq)%float
    then updateNodeStats.set_Disqualified (timeField_value now) updateFields
    else updateFields in
  (* unknown-audit suspension, and disqualification case b *)
  let unknownAuditRep := reputationScore unknownAuditAlpha unknownAuditBeta in
  let updateFields :=
    if (unknownAuditRep <=? UpdateRequest.AuditDQ updateReq)%float then
      let updateFields :=
        match Reputation.UnknownAuditSuspended dbNode with
        | None =>
            updateNodeStats.set_UnknownAuditSuspended (timeField_value now)
              updateFields
        | Some _ => updateFields
        end in
      if negb (AuditType_eqb (UpdateRequest.AuditOutcome updateReq) AuditSuccess)
      then
        if match Reputation.UnknownAuditSuspended dbNode with
           | Some suspendedAt =>
               negb (t_set (updateNodeStats.UnknownAuditSuspended updateFields))
               && (UpdateRequest.SuspensionGracePeriod updateReq
                     <? Since wall suspendedAt)
               && UpdateRequest.SuspensionDQEnabled updateReq
           | None => false
           end
        then
          updateNodeStats.set_UnknownAuditSuspended timeField_nil
            (updateNodeStats.set_Disqualified (timeField_value now)
               updateFields)
        else updateFields
      else updateFields
    else
      match Reputation.UnknownAuditSuspended dbNode with
      | Some _ =>
          updateNodeStats.set_UnknownAuditSuspended timeField_nil updateFields
      | None => updateFields
      end in
  let updateFields :=
    if isUp
    then updateNodeStats.set_LastContactSuccess (timeField_value now) updateFields
    else updateNodeStats.set_LastContactFailure (timeField_value now) updateFields in
  let updateFields :=
    if AuditType_eqb (UpdateRequest.AuditOutcome updateReq) AuditSuccess
    then
      updateNodeStats.set_AuditSuccessCount
        (mkInt64Field true (Int64.add (Reputation.AuditSuccessCount dbNode) 1))
        updateFields
    else updateFields in
  let config := UpdateRequest.AuditHistory updateReq in
  if negb (AuditHistoryConfig.OfflineSuspensionEnabled config) then
    (* suspension not enabled: unsuspend if applicable and return *)
    let updateFields :=
      match Reputation.OfflineSuspended dbNode with
      | Some _ => updateNodeStats.set_OfflineSuspended timeField_nil updateFields
      | None => updateFields
      end in
    let updateFields :=
      match Reputation.UnderReview dbNode with
      | Some _ =>
          updateNodeStats.set_OfflineUnderReview timeField_nil updateFields
      | None => updateFields
      end in
    updateFields
  else
    let penalizeOfflineNode :=
      (UpdateAuditHistoryResponse.NewScore auditHistoryResponse
         <? AuditHistoryConfig.OfflineThreshold config)%float
      && UpdateAuditHistoryResponse.TrackingPeriodFull auditHistoryResponse in
    match Reputation.UnderReview dbNode with
    | Some underReview =>
        let offlineSuspended :=
          match Reputation.OfflineSuspended dbNode with
          | Some _ => true
          | None => false
          end in
        let updateFields :=
          if negb penalizeOfflineNode && offlineSuspended
          then updateNodeStats.set_OfflineSuspended timeField_nil updateFields
          else if penalizeOfflineNode && negb offlineSuspended
          then updateNodeStats.set_OfflineSuspended (timeField_value now) updateFields
          else updateFields in
        let gracePeriodEnd :=
          Add underReview (AuditHistoryConfig.GracePeriod config) in
        let trackingPeriodEnd :=
          Add gracePeriodEnd (AuditHistoryConfig.TrackingPeriod config) in
        let trackingPeriodPassed := After now trackingPeriodEnd in
        if trackingPeriodPassed then
          if penalizeOfflineNode then
            if AuditHistoryConfig.OfflineDQEnabled config
            then updateNodeStats.set_Disqualified (timeField_value now) updateFields
            else updateFields
          else
            updateNodeStats.set_OfflineSuspended timeField_nil
              (updateNodeStats.set_OfflineUnderReview timeField_nil updateFields)
        else updateFields
    | None =>
        if penalizeOfflineNode then
          updateNodeStats.set_OfflineSuspended (timeField_value now)
            (updateNodeStats.set_OfflineUnderReview (timeField_value now)
               updateFields)
        else updateFields
    end.

(** The conversions of [populateUpdateFields]: a set field becomes a column
    write, a nil time field a write of NULL. *)
Definition int64Column (f : int64Field) : option Z :=
  if i_set f then Some (i_value f) else None.

Definition float64Column (f : float64Field) : option float :=
  if f_set f then Some (f_value f) else None.

Definition boolColumn (f : boolField) : option bool :=
  if b_set f then Some (b_value f) else None.

(** [VettedAt] and [Disqualified] are written with their value whatever
    [isNil] says (lines 1906-1908 and 1918-1920). *)
Definition timeColumn (f : timeField) : option (option Time) :=
  if t_set f then Some (Some (t_value f)) else None.

Definition nullableTimeColumn (f : timeField) : option (option Time) :=
  if t_set f then
    if t_isNil f then Some None else Some (Some (t_value f))
  else None.

(** [populateUpdateFields] (lines 1902-1963). *)
Definition populateUpdateFields (dbNode : Reputation.t)
    (updateReq : UpdateRequest.t)
    (auditHistoryResponse : UpdateAuditHistoryResponse.t)
    (now wall : Time) : Reputation_Update_Fields.t :=
  let update :=
    populateUpdateNodeStats dbNode updateReq auditHistoryResponse now wall in
  Reputation_Update_Fields.mk
    (timeColumn (updateNodeStats.VettedAt update))
    (int64Column (updateNodeStats.TotalAuditCount update))
    (float64Column (updateNodeStats.AuditReputationAlpha update))
    (float64Column (updateNodeStats.AuditReputationBeta update))
    (timeColumn (updateNodeStats.Disqualified update))
    (float64Column (updateNodeStats.UnknownAuditReputationAlpha update))
    (float64Column (updateNodeStats.UnknownAuditReputationBeta update))
    (nullableTimeColumn (updateNodeStats.UnknownAuditSuspended update))
    (if AuditType_eqb (UpdateRequest.AuditOutcome updateReq) AuditSuccess
     then Some (Int64.add (Reputation.AuditSuccessCount dbNode) 1)
     else int64Column (updateNodeStats.AuditSuccessCount update))
    (boolColumn (updateNodeStats.Contained update))
    (float64Column (updateNodeStats.OnlineScore update))
    (nullableTimeColumn (updateNodeStats.OfflineSuspended update))
    (nullableTimeColumn (updateNodeStats.OfflineUnderReview update)).

(** [getNodeStatus] (lines 2193-2202). *)
Definition getNodeStatus (dbNode : Reputation.t) : ReputationStatus.t :=
  ReputationStatus.mk
    (Reputation.Contained dbNode)
    (Reputation.Disqualified dbNode)
    (Reputation.UnknownAuditSuspended dbNode)
    (Reputation.OfflineSuspended dbNode)
    (Reputation.VettedAt dbNode).

(** ** The [reputations] table *)

Inductive Error : Type :=
| ErrNoRows
| ErrAuditHistory.

(** [tx.Get_Reputation_By_Id]: the row, or [sql.ErrNoRows]. *)
Definition Get_Reputation_By_Id (tx : gmap NodeID Reputation.t) (id : NodeID)
    : Reputation.t + Error :=
  match tx !! id with
  | Some row => inl row
  | None => inr ErrNoRows
  end.

(** Modelled from the spec: the column defaults of the [reputations] table are
    not part of the file; the spec has the lazily created row be a zero-value
    record, with zero alphas and betas and an empty audit history. *)
Definition zeroReputation (id : NodeID) (historyBytes : AuditHistoryBytes)
    : Reputation.t :=
  Reputation.mk id 0 0 None false None None None None None 0%float
    historyBytes 0%float 0%float 0%float 0%float.

(** [pb.Marshal(&internalpb.AuditHistory{})]: the empty message. *)
Definition emptyAuditHistory : AuditHistoryBytes := [].

(** [INSERT INTO reputations (id, audit_history) VALUES ($1, $2)]. *)
Definition insertReputation (tx : gmap NodeID Reputation.t) (id : NodeID)
    (historyBytes : AuditHistoryBytes) : gmap NodeID Reputation.t :=
  <[id := zeroReputation id historyBytes]> tx.

Definition orElse {A : Type} (o : option A) (a : A) : A :=
  match o with
  | Some x => x
  | None => a
  end.

(** Modelled from the spec: the update generated by [dbx] for the
    [reputations] table is not part of the file; it writes the columns that
    are set in the field set and leaves the others as they are. *)
Definition applyUpdateFields (u : Reputation_Update_Fields.t)
    (row : Reputation.t) : Reputation.t :=
  Reputation.mk
    (Reputation.Id row)
    (orElse (Reputation_Update_Fields.AuditSuccessCount u)
       (Reputation.AuditSuccessCount row))
    (orElse (Reputation_Update_Fields.TotalAuditCount u)
       (Reputation.TotalAuditCount row))
    (orElse (Reputation_Update_Fields.VettedAt u) (Reputation.VettedAt row))
    (orElse (Reputation_Update_Fields.Contained u) (Reputation.Contained row))
    (orElse (Reputation_Update_Fields.Disqualified u)
       (Reputation.Disqualified row))
    (Reputation.Suspended row)
    (orElse (Reputation_Update_Fields.UnknownAuditSuspended u)
       (Reputation.UnknownAuditSuspended row))
    (orElse (Reputation_Update_Fields.OfflineSuspended u)
       (Reputation.OfflineSuspended row))
    (orElse (Reputation_Update_Fields.UnderReview u)
       (Reputation.UnderReview row))
    (orElse (Reputation_Update_Fields.OnlineScore u)
       (Reputation.OnlineScore row))
    (Reputation.AuditHistory row)
    (orElse (Reputation_Update_Fields.AuditReputationAlpha u)
       (Reputation.AuditReputationAlpha row))
    (orElse (Reputation_Update_Fields.AuditReputationBeta u)
       (Reputation.AuditReputationBeta row))
    (orElse (Reputation_Update_Fields.UnknownAuditReputationAlpha u)
       (Reputation.UnknownAuditReputationAlpha row))
    (orElse (Reputation_Update_Fields.UnknownAuditReputationBeta u)
       (Reputation.UnknownAuditReputationBeta row)).

(** Modelled from the spec: [tx.Update_Reputation_By_Id], the update of the
    row of [id] by a field set, returning the row as written. *)
Definition Update_Reputation_By_Id (tx : gmap NodeID Reputation.t)
    (id : NodeID) (u : Reputation_Update_Fields.t)
    : gmap NodeID Reputation.t * option Reputation.t :=
  match tx !! id with
  | Some row =>
      let row' := applyUpdateFields u row in
      (<[id := row']> tx, Some row')
  | None => (tx, None)
  end.

Definition setAuditHistory (h : AuditHistoryBytes) (row : Reputation.t)
    : Reputation.t :=
  Reputation.mk (Reputation.Id row) (Reputation.AuditSuccessCount row)
    (Reputation.TotalAuditCount row) (Reputation.VettedAt row)
    (Reputation.Contained row) (Reputation.Disqualified row)
    (Reputation.Suspended row) (Reputation.UnknownAuditSuspended row)
    (Reputation.OfflineSuspended row) (Reputation.UnderReview row)
    (Reputation.OnlineScore row) h
    (Reputation.AuditReputationAlpha row) (Reputation.AuditReputationBeta row)
    (Reputation.UnknownAuditReputationAlpha row)
    (Reputation.UnknownAuditReputationBeta row).

(** The result of the function a transaction runs: an error, or the table
    with the values of the captured variables [dbNode] and [oldStatus]. *)
Inductive TxOutcome : Type :=
| TxErr (err : Error)
| TxDone (tx : gmap NodeID Reputation.t) (dbNode : option Reputation.t)
    (oldStatus : ReputationStatus.t).

(** What [Update] returns: [(status, changed, nil)], [(nil, false, err)], or
    a nil dereference of [dbNode]. *)
Inductive UpdateResult : Type :=
| UpdateOk (status : ReputationStatus.t) (changed : bool)
| UpdateErr (err : Error)
| UpdatePanic.

Section Reputations.

(** The audit-history tracker, an external collaborator: from the history of
    a row, the time of the audit, whether the node was up, and the
    configuration, the new history with the online score and whether a
    tracking period is full; [None] when the history cannot be decoded. *)
Variable auditHistoryTracker :
  AuditHistoryBytes -> Time -> bool -> AuditHistoryConfig.t ->
  option (AuditHistoryBytes * UpdateAuditHistoryResponse.t).

(** Modelled from the spec: [updateAuditHistoryWithTx] is not part of the
    file; it passes the history of the row to the tracker and persists the
    history the tracker returns. *)
Definition updateAuditHistoryWithTx (tx : gmap NodeID Reputation.t)
    (nodeID : NodeID) (now : Time) (isUp : bool)
    (config : AuditHistoryConfig.t)
    : gmap NodeID Reputation.t * UpdateAuditHistoryResponse.t + Error :=
  match tx !! nodeID with
  | None => inr ErrNoRows
  | Some row =>
      match auditHistoryTracker (Reputation.AuditHistory row) now isUp config with
      | None => inr ErrAuditHistory
      | Some (h, response) =>
          inl (<[nodeID := setAuditHistory h row]> tx, response)
      end
  end.

(** Lines 1661-1682 of [Update]: read the row; when it is not there, insert
    it and read it again. *)
Definition getOrCreate (tx : gmap NodeID Reputation.t) (nodeID : NodeID)
    : gmap NodeID Reputation.t * Reputation.t + Error :=
  match Get_Reputation_By_Id tx nodeID with
  | inl dbNode => inl (tx, dbNode)
  | inr ErrNoRows =>
      let historyBytes := emptyAuditHistory in
      let tx := insertReputation tx nodeID historyBytes in
      match Get_Reputation_By_Id tx nodeID with
      | inl dbNode => inl (tx, dbNode)
      | inr err => inr err
      end
  | inr err => inr err
  end.

(** The function [Update] runs in its transaction (lines 1655-1707).  The
    early return of line 1686 leaves [oldStatus] at its zero value. *)
Definition UpdateTx (tx : gmap NodeID Reputation.t)
    (updateReq : UpdateRequest.t) (now wall : Time) : TxOutcome :=
  let nodeID := UpdateRequest.NodeID updateReq in
  match getOrCreate tx nodeID with
  | inr err => TxErr err
  | inl (tx, dbNode) =>
      match Reputation.Disqualified dbNode with
      | Some _ => TxDone tx (Some dbNode) ReputationStatus.zero
      | None =>
          let oldStatus :=
            ReputationStatus.mk
              (Reputation.Contained dbNode)
              (Reputation.Disqualified dbNode)
              (Reputation.UnknownAuditSuspended dbNode)
              (Reputation.OfflineSuspended dbNode)
              (Reputation.VettedAt dbNode) in
          let isUp :=
            negb (AuditType_eqb (UpdateRequest.AuditOutcome updateReq)
                    AuditOffline) in
          match updateAuditHistoryWithTx tx nodeID now isUp
                  (UpdateRequest.AuditHistory updateReq) with
          | inr err => TxErr err
          | inl (tx, auditHistoryResponse) =>
              let updateFields :=
                populateUpdateFields dbNode updateReq auditHistoryResponse
                  now wall in
              let '(tx, dbNode) :=
                Update_Reputation_By_Id tx nodeID updateFields in
              TxDone tx dbNode oldStatus
          end
      end
  end.

(** [Update] (lines 1648-1721).  [WithTx] commits the table of the
    transaction when its function returns no error and rolls back to [db]
    otherwise.  [now] is the argument of the call, [wall] the wall clock
    while it runs. *)
Definition Update (db : gmap NodeID Reputation.t)
    (updateReq : UpdateRequest.t) (now wall : Time)
    : gmap NodeID Reputation.t * UpdateResult :=
  match UpdateTx db updateReq now wall with
  | TxErr err => (db, UpdateErr err)
  | TxDone tx None _ => (tx, UpdatePanic)
  | TxDone tx (Some dbNode) oldStatus =>
      let newStatus :=
        ReputationStatus.mk
          (Reputation.Contained dbNode)
          (Reputation.Disqualified dbNode)
          (Reputation.UnknownAuditSuspended dbNode)
          (Reputation.OfflineSuspended dbNode)
          (Reputation.VettedAt dbNode) in
      (tx, UpdateOk (getNodeStatus dbNode)
             (negb (ReputationStatus.Equal oldStatus newStatus)))
  end.

End Reputations.

(** Lines 1862-1879 of [UnsuspendNodeUnknownAudit] (and of the other direct
    transitions): read the row, and insert it when it is not there. *)
Definition getOrInsert (tx : gmap NodeID Reputation.t) (nodeID : NodeID)
    : gmap NodeID Reputation.t + Error :=
  match Get_Reputation_By_Id tx nodeID with
  | inl _ => inl tx
  | inr ErrNoRows =>
      let historyBytes := emptyAuditHistory in
      inl (insertReputation tx nodeID historyBytes)
  | inr err => inr err
  end.

(** [UnsuspendNodeUnknownAudit] (lines 1853-1889): the table after the call
    and the error, if any. *)
Definition UnsuspendNodeUnknownAudit (db : gmap NodeID Reputation.t)
    (nodeID : NodeID) : gmap NodeID Reputation.t * option Error :=
  match getOrInsert db nodeID with
  | inr err => (db, Some err)
  | inl tx =>
      let updateFields := Reputation_Update_Fields.empty in
      let updateFields :=
        (* dbx.Reputation_UnknownAuditSuspended_Null() *)
        Reputation_Update_Fields.set_UnknownAuditSuspended (Some None)
          updateFields in
      let '(tx, _) := Update_Reputation_By_Id tx nodeID updateFields in
      (tx, None)
  end.

(** ** The other direct transitions and [Get] *)

(** The assignment [updateFields.Disqualified = v] on a field set. *)
Definition assignDisqualified (v : option (option Time))
    (u : Reputation_Update_Fields.t) : Reputation_Update_Fields.t :=
  Reputation_Update_Fields.mk
    (Reputation_Update_Fields.VettedAt u)
    (Reputation_Update_Fields.TotalAuditCount u)
    (Reputation_Update_Fields.AuditReputationAlpha u)
    (Reputation_Update_Fields.AuditReputationBeta u)
    v
    (Reputation_Update_Fields.UnknownAuditReputationAlpha u)
    (Reputation_Update_Fields.UnknownAuditReputationBeta u)
    (Reputation_Update_Fields.UnknownAuditSuspended u)
    (Reputation_Update_Fields.AuditSuccessCount u)
    (Reputation_Update_Fields.Contained u)
    (Reputation_Update_Fields.OnlineScore u)
    (Reputation_Update_Fields.OfflineSuspended u)
    (Reputation_Update_Fields.UnderReview u).

(** [DisqualifyNode] (lines 1777-1812).  The timestamp is
    [time.Now().UTC()], the wall clock [wall]. *)
Definition DisqualifyNode (db : gmap NodeID Reputation.t) (nodeID : NodeID)
    (wall : Time) : gmap NodeID Reputation.t * option Error :=
  match getOrInsert db nodeID with
  | inr err => (db, Some err)
  | inl tx =>
      let updateFields := Reputation_Update_Fields.empty in
      let updateFields := assignDisqualified (Some (Some wall)) updateFields in
      let '(tx, _) := Update_Reputation_By_Id tx nodeID updateFields in
      (tx, None)
  end.

(** [SuspendNodeUnknownAudit] (lines 1815-1850). *)
Definition SuspendNodeUnknownAudit (db : gmap NodeID Reputation.t)
    (nodeID : NodeID) (suspendedAt : Time)
    : gmap NodeID Reputation.t * option Error :=
  match getOrInsert db nodeID with
  | inr err => (db, Some err)
  | inl tx =>
      let updateFields := Reputation_Update_Fields.empty in
      let updateFields :=
        Reputation_Update_Fields.set_UnknownAuditSuspended
          (Some (Some suspendedAt)) updateFields in
      let '(tx, _) := Update_Reputation_By_Id tx nodeID updateFields in
      (tx, None)
  end.

(** [dbx.Reputation_X_Raw(v)]: a write of NULL for a nil pointer, of the
    value otherwise. *)
Definition rawTimeColumn (v : option Time) : option (option Time) := Some v.

(** [SetNodeStatus] (lines 1724-1742): one update outside a transaction, of
    the five status columns.  As in the generated [Update_Node_By_Id]
    (lines 1182-1184), an update that finds no row returns a nil row and no
    error. *)
Definition SetNodeStatus (db : gmap NodeID Reputation.t) (id : NodeID)
    (status : ReputationStatus.t) : gmap NodeID Reputation.t * option Error :=
  let updateFields :=
    Reputation_Update_Fields.mk
      (rawTimeColumn (ReputationStatus.VettedAt status))
      None None None
      (rawTimeColumn (ReputationStatus.Disqualified status))
      None None
      (rawTimeColumn (ReputationStatus.UnknownAuditSuspended status))
      None
      (Some (ReputationStatus.Contained status))
      None
      (rawTimeColumn (ReputationStatus.OfflineSuspended status))
      None in
  let '(db, _) := Update_Reputation_By_Id db id updateFields in
  (db, None).

(** [reputation.Info], with the decoded audit history of type [H]. *)
Module Info.
Record t (H : Type) : Type := mk {
  AuditSuccessCount : Z;
  TotalAuditCount : Z;
  VettedAt : option Time;
  Contained : bool;
  Disqualified : option Time;
  Suspended : option Time;
  UnknownAuditSuspended : option Time;
  OfflineSuspended : option Time;
  UnderReview : option Time;
  OnlineScore : float;
  AuditHistory : H;
  AuditReputationAlpha : float;
  AuditReputationBeta : float;
  UnknownAuditReputationAlpha : float;
  UnknownAuditReputationBeta : float
}.
Arguments mk {H}.
Arguments AuditSuccessCount {H}.
Arguments TotalAuditCount {H}.
Arguments VettedAt {H}.
Arguments Contained {H}.
Arguments Disqualified {H}.
Arguments Suspended {H}.
Arguments UnknownAuditSuspended {H}.
Arguments OfflineSuspended {H}.
Arguments UnderReview {H}.
Arguments OnlineScore {H}.
Arguments AuditHistory {H}.
Arguments AuditReputationAlpha {H}.
Arguments AuditReputationBeta {H}.
Arguments UnknownAuditReputationAlpha {H}.
Arguments UnknownAuditReputationBeta {H}.
End Info.

(** The errors of [Get]: [reputation.ErrNodeNotFound], or the wrapped error of
    the decoder. *)
Inductive GetError : Type :=
| ErrNodeNotFound
| ErrWrapped.

Section Get.

(** The decoded history, and [auditHistoryFromPB], which is not part of the
    file: [None] when the bytes cannot be decoded. *)
Variable H : Type.
Variable auditHistoryFromPB : list Byte.byte -> option H.

(** [Get] (lines 1743-1774). *)
Definition Get (db : gmap NodeID Reputation.t) (nodeID : NodeID)
    : Info.t H + GetError :=
  match Get_Reputation_By_Id db nodeID with
  | inr ErrNoRows => inr ErrNodeNotFound
  | inr _ => inr ErrWrapped
  | inl res =>
      match auditHistoryFromPB (Reputation.AuditHistory res) with
      | None => inr ErrWrapped
      | Some history =>
          inl (Info.mk
                 (Reputation.AuditSuccessCount res)
                 (Reputation.TotalAuditCount res)
                 (Reputation.VettedAt res)
                 (Reputation.Contained res)
                 (Reputation.Disqualified res)
                 (Reputation.Suspended res)
                 (Reputation.UnknownAuditSuspended res)
                 (Reputation.OfflineSuspended res)
                 (Reputation.UnderReview res)
                 (Reputation.OnlineScore res)
                 history
                 (Reputation.AuditReputationAlpha res)
                 (Reputation.AuditReputationBeta res)
                 (Reputation.UnknownAuditReputationAlpha res)
                 (Reputation.UnknownAuditReputationBeta res))
      end
  end.

End Get.

(** * Runtime support for building SQL statements

    The [__sqlbundle] part of the same file (lines 559-966).  A Go [string]
    is its sequence of bytes; an index into it is carried as the suffix that
    starts there, so that [x[p:]] is the list still to be read and a loop
    [for p < len(x) && ... { p++ }] is a recursion on it. *)

Abbreviation GoString := (list Byte.byte) (only parsing).

Module Char.
Definition space : Byte.byte := Byte.x20.
Definition tab : Byte.byte := Byte.x09.
Definition newline : Byte.byte := Byte.x0a.
Definition question : Byte.byte := Byte.x3f.
Definition dollar : Byte.byte := Byte.x24.
Definition dash : Byte.byte := Byte.x2d.
Definition doubleQuote : Byte.byte := Byte.x22.
Definition singleQuote : Byte.byte := Byte.x27.
Definition semicolon : Byte.byte := Byte.x3b.
End Char.

(** The test [x[p] == ' ' || x[p] == '\t' || x[p] == '\n']. *)
Definition isWhitespace (c : Byte.byte) : bool :=
  Byte.eqb c Char.space || Byte.eqb c Char.tab || Byte.eqb c Char.newline.

(** [for p < len(x) && (x[p] == ' ' || x[p] == '\t' || x[p] == '\n') { p++ }]:
    the string from the position the loop stops at. *)
Fixpoint skipWhitespace (x : GoString) : GoString :=
  match x with
  | c :: x' => if isWhitespace c then skipWhitespace x' else x
  | [] => []
  end.

(** [for p < len(x) && !(x[p] == ' ' || x[p] == '\t' || x[p] == '\n') { p++ }]:
    the string from the position the loop stops at, *)
Fixpoint skipWord (x : GoString) : GoString :=
  match x with
  | c :: x' => if negb (isWhitespace c) then skipWord x' else x
  | [] => []
  end.

(** and the bytes [x[start:p]] it ran over. *)
Fixpoint readWord (x : GoString) : GoString :=
  match x with
  | c :: x' => if negb (isWhitespace c) then c :: readWord x' else []
  | [] => []
  end.

(** The loop [for p := i; p < len(x); p++] of [__sqlbundle_flattenSQL], on
    [x[p:]]; [result] is the builder.  Every round reads at least one byte,
    so [length x] rounds are enough. *)
Fixpoint writeWords (fuel : nat) (x : GoString) (result : GoString)
  : GoString :=
  match fuel with
  | O => result
  | S fuel =>
      match x with
      | [] => result
      | _ :: _ =>
          let x := skipWhitespace x in
          let result := result ++ [Char.space] in
          let word := readWord x in
          let x := skipWord x in
          let result := result ++ word in
          writeWords fuel (tl x) result
      end
  end.

(** The loop [for i := 0; i < len(x); i++] of [__sqlbundle_flattenSQL];
    [rest] is [x[i:]]. *)
Fixpoint fixWhitespace (x : GoString) (i : nat) (rest : GoString)
    (wasSpace : bool) : GoString :=
  match rest with
  | [] => x
  | r :: rest' =>
      let justSpace := Byte.eqb r Char.space in
      if (wasSpace && justSpace) || Byte.eqb r Char.tab
         || Byte.eqb r Char.newline
      then
        let result :=
          if wasSpace then firstn (i - 1) x else firstn i x in
        writeWords (length rest) rest result
      else fixWhitespace x (S i) rest' justSpace
  end.

Definition __sqlbundle_flattenSQL (x : GoString) : GoString :=
  (* x[s:], then x[s:e+1] *)
  let x := skipWhitespace x in
  let x := rev (skipWhitespace (rev x)) in
  match x with
  | [] => []
  | _ :: _ => fixWhitespace x 0 x false
  end.

(** [strconv.Itoa]: the decimal text of an integer. *)
Definition Itoa (j : Z) : GoString :=
  String.list_byte_of_string (DecimalString.NilZero.string_of_int (Z.to_int j)).

Inductive sqlParseState :=
| sqlParseStart
| sqlParseInStringLiteral
| sqlParseInQuotedIdentifier
| sqlParseInComment.

(** The loop of [Rebind], on [sql[i:]]. *)
Fixpoint rebindLoop (sql : GoString) (state : sqlParseState) (j : Z)
    (out : GoString) : GoString :=
  match sql with
  | [] => out
  | ch :: rest =>
      match state with
      | sqlParseStart =>
          if Byte.eqb ch Char.question then
            let out := out ++ [Char.dollar] in
            let out := out ++ Itoa j in
            rebindLoop rest sqlParseStart (j + 1) out
          else
            let state :=
              if Byte.eqb ch Char.dash then
                match rest with
                | next :: _ =>
                    if Byte.eqb next Char.dash then sqlParseInComment
                    else state
                | [] => state
                end
              else if Byte.eqb ch Char.doubleQuote then
                sqlParseInQuotedIdentifier
              else if Byte.eqb ch Char.singleQuote then
                sqlParseInStringLiteral
              else state in
            rebindLoop rest state j (out ++ [ch])
      | sqlParseInStringLiteral =>
          let state :=
            if Byte.eqb ch Char.singleQuote then sqlParseStart else state in
          rebindLoop rest state j (out ++ [ch])
      | sqlParseInQuotedIdentifier =>
          let state :=
            if Byte.eqb ch Char.doubleQuote then sqlParseStart else state in
          rebindLoop rest state j (out ++ [ch])
      | sqlParseInComment =>
          let state :=
            if Byte.eqb ch Char.newline then sqlParseStart else state in
          rebindLoop rest state j (out ++ [ch])
      end
  end.

(** The dialects; [Rebind] has the same body for [postgres], [cockroach],
    [pgx] and [pgxcockroach], and returns its argument for [sqlite3]. *)
Inductive __sqlbundle_Dialect :=
| __sqlbundle_postgres
| __sqlbundle_sqlite3
| __sqlbundle_cockroach
| __sqlbundle_pgx
| __sqlbundle_pgxcockroach.

Definition Rebind (dialect : __sqlbundle_Dialect) (sql : GoString)
  : GoString :=
  match dialect with
  | __sqlbundle_sqlite3 => sql
  | __sqlbundle_postgres | __sqlbundle_cockroach
  | __sqlbundle_pgx | __sqlbundle_pgxcockroach =>
      rebindLoop sql sqlParseStart 1 []
  end.

(** The implementations of [__sqlbundle_SQL]; a nil interface value is
    [None]. *)
#[local] Unset Elimination Schemes.
Inductive __sqlbundle_SQL :=
| __sqlbundle_Literal (l : GoString)
| __sqlbundle_Literals (Join : GoString) (SQLs : list (option __sqlbundle_SQL))
| __sqlbundle_Condition (Name Left : GoString) (Equal : bool)
    (Right : GoString) (Null : bool)
| __sqlbundle_Hole (Name : GoString) (SQL : option __sqlbundle_SQL).
#[local] Set Elimination Schemes.

Definition bytes (s : String.string) : GoString :=
  String.list_byte_of_string s.

(** The string constants of [__sqlbundle_Condition.Render]. *)
Module Text.
Import String.
Definition is_null : GoString := bytes " is null".
Definition equals : GoString := bytes " = ".
Definition is_not_null : GoString := bytes " is not null".
Definition differs : GoString := bytes " != ".
End Text.

(** The loop of [__sqlbundle_Literals.Render]; [render] is the [Render] of
    the entries and [out] the buffer. *)
Definition literalsLoop (render : __sqlbundle_SQL -> GoString)
    (Join : GoString) :=
  fix loop (SQLs : list (option __sqlbundle_SQL)) (first : bool)
      (out : GoString) : GoString :=
    match SQLs with
    | [] => out
    | None :: SQLs => loop SQLs first out
    | Some sql :: SQLs =>
        let out := if negb first then out ++ Join else out in
        loop SQLs false (out ++ render sql)
    end.

(** [Render] of each implementation.  The four guards of
    [__sqlbundle_Condition.Render] are the four pairs of booleans; the last
    one is the [else] here. *)
Fixpoint Render (sql : __sqlbundle_SQL) : GoString :=
  match sql with
  | __sqlbundle_Literal l => l
  | __sqlbundle_Literals Join SQLs => literalsLoop Render Join SQLs true []
  | __sqlbundle_Condition _ Left Equal Right Null =>
      if Equal && Null then Left ++ Text.is_null
      else if Equal && negb Null then Left ++ Text.equals ++ Right
      else if negb Equal && Null then Left ++ Text.is_not_null
      else Left ++ Text.differs ++ Right
  | __sqlbundle_Hole _ None => []
  | __sqlbundle_Hole _ (Some sql) => Render sql
  end.

Inductive __sqlbundle_RenderOp :=
| __sqlbundle_NoFlatten
| __sqlbundle_NoTerminate.

Definition __sqlbundle_Render (dialect : __sqlbundle_Dialect)
    (sql : __sqlbundle_SQL) (ops : list __sqlbundle_RenderOp) : GoString :=
  let out := Render sql in
  let flatten :=
    fold_left (fun flatten op =>
                 match op with
                 | __sqlbundle_NoFlatten => false
                 | __sqlbundle_NoTerminate => flatten
                 end) ops true in
  let terminate :=
    fold_left (fun terminate op =>
                 match op with
                 | __sqlbundle_NoFlatten => terminate
                 | __sqlbundle_NoTerminate => false
                 end) ops true in
  let out := if flatten then __sqlbundle_flattenSQL out else out in
  let out := if terminate then out ++ [Char.semicolon] else out in
  Rebind dialect out.

(** * Vocabulary of the properties *)

(** ** The row an [Update] works on, and the row it writes *)

(** The row [Update] holds in [dbNode] after lines 1661-1682: the row of the
    node, or the row just inserted for it. *)
Definition loadedRow (db : gmap NodeID Reputation.t) (id : NodeID)
    : Reputation.t :=
  match db !! id with
  | Some row => row
  | None => zeroReputation id emptyAuditHistory
  end.

(** The row a call writes for a node that is not disqualified, when the
    tracker answers [(h, response)]. *)
Definition writtenRow (dbNode : Reputation.t) (updateReq : UpdateRequest.t)
    (h : AuditHistoryBytes) (response : UpdateAuditHistoryResponse.t)
    (now wall : Time) : Reputation.t :=
  applyUpdateFields (populateUpdateFields dbNode updateReq response now wall)
    (setAuditHistory h dbNode).

Definition isUp (updateReq : UpdateRequest.t) : bool :=
  negb (AuditType_eqb (UpdateRequest.AuditOutcome updateReq) AuditOffline).

Definition is_set {A : Type} (o : option A) : bool :=
  match o with
  | Some _ => true
  | None => false
  end.

(** ** The steps of [populateUpdateNodeStats] *)

(** Step 1 on a row: the four parameters and the audit count after the
    [switch]. *)
Definition stepOne (dbNode : Reputation.t) (updateReq : UpdateRequest.t)
    : float * float * float * float * Z :=
  auditOutcomeSwitch (UpdateRequest.AuditOutcome updateReq)
    (Reputation.AuditReputationAlpha dbNode)
    (Reputation.AuditReputationBeta dbNode)
    (Reputation.UnknownAuditReputationAlpha dbNode)
    (Reputation.UnknownAuditReputationBeta dbNode)
    (UpdateRequest.AuditLambda updateReq)
    (UpdateRequest.AuditWeight updateReq)
    (Reputation.TotalAuditCount dbNode).

(** The composite literal of lines 2032-2043. *)
Definition initialStats (updateReq : UpdateRequest.t)
    (response : UpdateAuditHistoryResponse.t)
    (a b c d : float) (n : Z) : updateNodeStats.t :=
  updateNodeStats.mk
    (UpdateRequest.NodeID updateReq)
    timeField_zero
    (mkInt64Field true n)
    (mkFloat64Field true a)
    (mkFloat64Field true b)
    timeField_zero
    (mkFloat64Field true c)
    (mkFloat64Field true d)
    timeField_zero
    timeField_zero
    timeField_zero
    int64Field_zero
    (mkBoolField true false)
    timeField_zero
    timeField_zero
    (mkFloat64Field true (UpdateAuditHistoryResponse.NewScore response)).

(** Lines 2045-2047. *)
Definition vettingStep (dbNode : Reputation.t) (updateReq : UpdateRequest.t)
    (n : Z) (now : Time) (updateFields : updateNodeStats.t)
    : updateNodeStats.t :=
  if match Reputation.VettedAt dbNode with None => true | Some _ => false end
     && (n >=? UpdateRequest.AuditsRequiredForVetting updateReq)
  then updateNodeStats.set_VettedAt (timeField_value now) updateFields
  else updateFields.

(** Lines 2051-2056. *)
Definition auditDQStep (updateReq : UpdateRequest.t) (a b : float)
    (now : Time) (updateFields : updateNodeStats.t) : updateNodeStats.t :=
  if (reputationScore a b <=? UpdateRequest.AuditDQ updateReq)%float
  then updateNodeStats.set_Disqualified (timeField_value now) updateFields
  else updateFields.

(** Lines 2059-2087. *)
Definition unknownAuditStep (dbNode : Reputation.t)
    (updateReq : UpdateRequest.t) (c d : float) (now wall : Time)
    (updateFields : updateNodeStats.t) : updateNodeStats.t :=
  if (reputationScore c d <=? UpdateRequest.AuditDQ updateReq)%float then
    let updateFields :=
      match Reputation.UnknownAuditSuspended dbNode with
      | None =>
          updateNodeStats.set_UnknownAuditSuspended (timeField_value now)
            updateFields
      | Some _ => updateFields
      end in
    if negb (AuditType_eqb (UpdateRequest.AuditOutcome updateReq) AuditSuccess)
    then
      if match Reputation.UnknownAuditSuspended dbNode with
         | Some suspendedAt =>
             negb (t_set (updateNodeStats.UnknownAuditSuspended updateFields))
             && (UpdateRequest.SuspensionGracePeriod updateReq
                   <? Since wall suspendedAt)
             && UpdateRequest.SuspensionDQEnabled updateReq
         | None => false
         end
      then
        updateNodeStats.set_UnknownAuditSuspended timeField_nil
          (updateNodeStats.set_Disqualified (timeField_value now)
             updateFields)
      else updateFields
    else updateFields
  else
    match Reputation.UnknownAuditSuspended dbNode with
    | Some _ =>
        updateNodeStats.set_UnknownAuditSuspended timeField_nil updateFields
    | None => updateFields
    end.

(** Lines 2089-2097. *)
Definition contactStep (dbNode : Reputation.t) (updateReq : UpdateRequest.t)
    (now : Time) (updateFields : updateNodeStats.t) : updateNodeStats.t :=
  let updateFields :=
    if negb (AuditType_eqb (UpdateRequest.AuditOutcome updateReq) AuditOffline)
    then updateNodeStats.set_LastContactSuccess (timeField_value now) updateFields
    else updateNodeStats.set_LastContactFailure (timeField_value now) updateFields in
  if AuditType_eqb (UpdateRequest.AuditOutcome updateReq) AuditSuccess
  then
    updateNodeStats.set_AuditSuccessCount
      (mkInt64Field true (Int64.add (Reputation.AuditSuccessCount dbNode) 1))
      updateFields
  else updateFields.

(** Line 2113. *)
Definition penalizeOfflineNode (updateReq : UpdateRequest.t)
    (response : UpdateAuditHistoryResponse.t) : bool :=
  (UpdateAuditHistoryResponse.NewScore response
     <? AuditHistoryConfig.OfflineThreshold
          (UpdateRequest.AuditHistory updateReq))%float
  && UpdateAuditHistoryResponse.TrackingPeriodFull response.

(** Lines 2100-2150. *)
Definition offlineStep (dbNode : Reputation.t) (updateReq : UpdateRequest.t)
    (response : UpdateAuditHistoryResponse.t) (now : Time)
    (updateFields : updateNodeStats.t) : updateNodeStats.t :=
  let config := UpdateRequest.AuditHistory updateReq in
  if negb (AuditHistoryConfig.OfflineSuspensionEnabled config) then
    let updateFields :=
      match Reputation.OfflineSuspended dbNode with
      | Some _ => updateNodeStats.set_OfflineSuspended timeField_nil updateFields
      | None => updateFields
      end in
    let updateFields :=
      match Reputation.UnderReview dbNode with
      | Some _ =>
          updateNodeStats.set_OfflineUnderReview timeField_nil updateFields
      | None => updateFields
      end in
    updateFields
  else
    let penalizeOfflineNode :=
      (UpdateAuditHistoryResponse.NewScore response
         <? AuditHistoryConfig.OfflineThreshold config)%float
      && UpdateAuditHistoryResponse.TrackingPeriodFull response in
    match Reputation.UnderReview dbNode with
    | Some underReview =>
        let offlineSuspended :=
          match Reputation.OfflineSuspended dbNode with
          | Some _ => true
          | None => false
          end in
        let updateFields :=
          if negb penalizeOfflineNode && offlineSuspended
          then updateNodeStats.set_OfflineSuspended timeField_nil updateFields
          else if penalizeOfflineNode && negb offlineSuspended
          then updateNodeStats.set_OfflineSuspended (timeField_value now) updateFields
          else updateFields in
        let gracePeriodEnd :=
          Add underReview (AuditHistoryConfig.GracePeriod config) in
        let trackingPeriodEnd :=
          Add gracePeriodEnd (AuditHistoryConfig.TrackingPeriod config) in
        let trackingPeriodPassed := After now trackingPeriodEnd in
        if trackingPeriodPassed then
          if penalizeOfflineNode then
            if AuditHistoryConfig.OfflineDQEnabled config
            then updateNodeStats.set_Disqualified (timeField_value now) updateFields
            else updateFields
          else
            updateNodeStats.set_OfflineSuspended timeField_nil
              (updateNodeStats.set_OfflineUnderReview timeField_nil updateFields)
        else updateFields
    | None =>
        if penalizeOfflineNode then
          updateNodeStats.set_OfflineSuspended (timeField_value now)
            (updateNodeStats.set_OfflineUnderReview (timeField_value now)
               updateFields)
        else updateFields
    end.

(** ** The decisions of a call *)

(** The fields no step writes after the composite literal. *)
Definition fixedFields (u : updateNodeStats.t) :=
  (updateNodeStats.AuditReputationAlpha u,
   updateNodeStats.AuditReputationBeta u,
   updateNodeStats.UnknownAuditReputationAlpha u,
   updateNodeStats.UnknownAuditReputationBeta u,
   updateNodeStats.TotalAuditCount u,
   updateNodeStats.Contained u,
   updateNodeStats.OnlineScore u).

(** Disqualification case a (line 2052): the audit score is at or below the
    threshold. *)
Definition auditFailureDQ (dbNode : Reputation.t)
    (updateReq : UpdateRequest.t) : bool :=
  let '(a, b, _, _, _) := stepOne dbNode updateReq in
  (reputationScore a b <=? UpdateRequest.AuditDQ updateReq)%float.

(** Line 2060: the unknown-audit score is at or below the threshold. *)
Definition unknownAuditLow (dbNode : Reputation.t)
    (updateReq : UpdateRequest.t) : bool :=
  let '(_, _, c, d, _) := stepOne dbNode updateReq in
  (reputationScore c d <=? UpdateRequest.AuditDQ updateReq)%float.

(** Disqualification case b (lines 2074-2077), measured on the wall clock. *)
Definition suspensionGraceDQ (dbNode : Reputation.t)
    (updateReq : UpdateRequest.t) (wall : Time) : bool :=
  unknownAuditLow dbNode updateReq
  && negb (AuditType_eqb (UpdateRequest.AuditOutcome updateReq) AuditSuccess)
  && match Reputation.UnknownAuditSuspended dbNode with
     | Some suspendedAt =>
         (UpdateRequest.SuspensionGracePeriod updateReq <? Since wall suspendedAt)
         && UpdateRequest.SuspensionDQEnabled updateReq
     | None => false
     end.

(** Disqualification of a node that stayed offline through its review
    (lines 2132-2138). *)
Definition offlineDQ (dbNode : Reputation.t) (updateReq : UpdateRequest.t)
    (response : UpdateAuditHistoryResponse.t) (now : Time) : bool :=
  let config := UpdateRequest.AuditHistory updateReq in
  AuditHistoryConfig.OfflineSuspensionEnabled config
  && match Reputation.UnderReview dbNode with
     | Some underReview =>
         After now
           (Add (Add underReview (AuditHistoryConfig.GracePeriod config))
              (AuditHistoryConfig.TrackingPeriod config))
         && penalizeOfflineNode updateReq response
         && AuditHistoryConfig.OfflineDQEnabled config
     | None => false
     end.

(** ** What the claims promise *)

(** What C2 promises of the row [row'] written for the row [dbNode]: both
    pairs follow the rule with [v = +1], and both counters grow by one. *)
Definition successRule (dbNode : Reputation.t) (updateReq : UpdateRequest.t)
    (row' : Reputation.t) : Prop :=
  let lambda := UpdateRequest.AuditLambda updateReq in
  let w := UpdateRequest.AuditWeight updateReq in
  Reputation.AuditReputationAlpha row'
  = (lambda * Reputation.AuditReputationAlpha dbNode + w * (1 + 1) / 2)%float
  /\ Reputation.AuditReputationBeta row'
     = (lambda * Reputation.AuditReputationBeta dbNode + w * (1 - 1) / 2)%float
  /\ Reputation.UnknownAuditReputationAlpha row'
     = (lambda * Reputation.UnknownAuditReputationAlpha dbNode
        + w * (1 + 1) / 2)%float
  /\ Reputation.UnknownAuditReputationBeta row'
     = (lambda * Reputation.UnknownAuditReputationBeta dbNode
        + w * (1 - 1) / 2)%float
  /\ Reputation.TotalAuditCount row' = Reputation.TotalAuditCount dbNode + 1
  /\ Reputation.AuditSuccessCount row'
     = Reputation.AuditSuccessCount dbNode + 1.

(** Strict positivity of a [float64] and of the four parameters (C3). *)
Definition strictlyPositive (x : float) : Prop := (0 <? x)%float = true.

Definition positiveParameters (row : Reputation.t) : Prop :=
  strictlyPositive (Reputation.AuditReputationAlpha row)
  /\ strictlyPositive (Reputation.AuditReputationBeta row)
  /\ strictlyPositive (Reputation.UnknownAuditReputationAlpha row)
  /\ strictlyPositive (Reputation.UnknownAuditReputationBeta row).

(** ** Signs of [spec_float] values *)

Module Float64.

Import FloatOps.

(** Strictly positive: a positive finite number or [+infinity]. *)
Definition is_pos (r : spec_float) : bool :=
  match r with
  | S754_infinity false => true
  | S754_finite false _ _ => true
  | _ => false
  end.

Definition emin64 : Z := emin.

(** Not below zero: a zero of either sign, a positive finite number or
    [+infinity]. *)
Definition is_nonneg (r : spec_float) : bool :=
  match r with
  | S754_zero _ => true
  | S754_infinity false => true
  | S754_finite false _ _ => true
  | _ => false
  end.

End Float64.

(** ** Concrete tables and requests *)

Module Fixture.

(** A tracker that keeps the history and reports a node that is online. *)
Definition onlineTracker (h : list Byte.byte) (_ : Time) (_ : bool)
    (_ : AuditHistoryConfig.t)
    : option (list Byte.byte * UpdateAuditHistoryResponse.t) :=
  Some (h, UpdateAuditHistoryResponse.mk 1%float false).

(** A tracker that reports a node that was offline for a full tracking
    period. *)
Definition offlineTracker (h : list Byte.byte) (_ : Time) (_ : bool)
    (_ : AuditHistoryConfig.t)
    : option (list Byte.byte * UpdateAuditHistoryResponse.t) :=
  Some (h, UpdateAuditHistoryResponse.mk 0%float true).

(** Offline suspension on, offline disqualification off, threshold 0.5,
    grace and tracking periods of one hour each. *)
Definition historyConfig : AuditHistoryConfig.t :=
  AuditHistoryConfig.mk true 0.5%float false Hour Hour.

(** A request for node 1 with [lambda = 1], [weight = 1], a threshold of
    0.5, a suspension grace period of 48 hours with suspension
    disqualification on, and 100 audits required for vetting. *)
Definition request (outcome : AuditType) : UpdateRequest.t :=
  UpdateRequest.mk 1%N outcome 1%float 1%float 0.5%float (48 * Hour) true 100
    historyConfig.

(** A row with [alpha = beta = 1] on both tracks and no audits yet. *)
Definition freshRow : Reputation.t :=
  Reputation.mk 1%N 0 0 None false None None None None None 1%float []
    1%float 1%float 1%float 1%float.

(** The same row, contained, and disqualified at time 50. *)
Definition disqualifiedRow : Reputation.t :=
  Reputation.mk 1%N 0 0 None true (Some 50) None None None None 1%float []
    1%float 1%float 1%float 1%float.

Definition freshTable : gmap N Reputation.t := {[ 1%N := freshRow ]}.

Definition disqualifiedTable : gmap N Reputation.t :=
  {[ 1%N := disqualifiedRow ]}.

(** Scenario D: 99 audits so far, 100 required. *)
Definition almostVettedRow : Reputation.t :=
  Reputation.mk 1%N 0 99 None false None None None None None 1%float []
    20%float 1%float 20%float 1%float.

Definition almostVettedTable : gmap N Reputation.t :=
  {[ 1%N := almostVettedRow ]}.

(** Scenario C with a lagging clock: node 1 was suspended for unknown audits
    at hour 1000 and its unknown-audit score is 1/4, below the threshold
    1/2; the audit pair is healthy. *)
Definition suspendedRow : Reputation.t :=
  Reputation.mk 1%N 0 10 None false None None (Some (1000 * Hour)) None None
    1%float [] 20%float 1%float 1%float 3%float.

Definition suspendedTable : gmap N Reputation.t :=
  {[ 1%N := suspendedRow ]}.

(** Node 1 under review since time 0 and offline-suspended, with an audit
    score of 4.5/8.5, above the threshold 1/2. *)
Definition reviewedRow : Reputation.t :=
  Reputation.mk 1%N 0 10 None false None None None (Some 0) (Some 0) 0%float
    [] 4.5%float 4%float 20%float 1%float.

Definition reviewedTable : gmap N Reputation.t := {[ 1%N := reviewedRow ]}.

End Fixture.

(** ** Zero denominators, and the two clocks of a call *)

(** A row whose parameters cancel: [-1] and [1] on both tracks, so that both
    sums are zero and both quotients are [-1 / 0]. *)
Definition cancellingRow : Reputation.t :=
  Reputation.mk 1%N 0 0 None false None None None None None 1%float []
    (-1)%float 1%float (-1)%float 1%float.

Definition cancellingTable : gmap N Reputation.t := {[ 1%N := cancellingRow ]}.





(** ** Vocabulary of the further properties *)

(** Whether the review window that began at [underReview] has passed at
    [now] (lines 2126-2128). *)
Definition trackingPeriodPassed (updateReq : UpdateRequest.t)
    (underReview now : Time) : bool :=
  let config := UpdateRequest.AuditHistory updateReq in
  After now
    (Add (Add underReview (AuditHistoryConfig.GracePeriod config))
       (AuditHistoryConfig.TrackingPeriod config)).

(** The decision table of lines 2100-2148 for [underReview]. *)
Definition underReviewAfter (dbNode : Reputation.t)
    (updateReq : UpdateRequest.t) (response : UpdateAuditHistoryResponse.t)
    (now : Time) : option Time :=
  if AuditHistoryConfig.OfflineSuspensionEnabled
       (UpdateRequest.AuditHistory updateReq)
  then
    match Reputation.UnderReview dbNode with
    | Some underReview =>
        if trackingPeriodPassed updateReq underReview now
           && negb (penalizeOfflineNode updateReq response)
        then None
        else Some underReview
    | None =>
        if penalizeOfflineNode updateReq response then Some now else None
    end
  else None.

(** The decision table of lines 2100-2148 for [offlineSuspended]. *)
Definition offlineSuspendedAfter (dbNode : Reputation.t)
    (updateReq : UpdateRequest.t) (response : UpdateAuditHistoryResponse.t)
    (now : Time) : option Time :=
  if AuditHistoryConfig.OfflineSuspensionEnabled
       (UpdateRequest.AuditHistory updateReq)
  then
    match Reputation.UnderReview dbNode with
    | Some _ =>
        if penalizeOfflineNode updateReq response then
          match Reputation.OfflineSuspended dbNode with
          | Some suspendedAt => Some suspendedAt
          | None => Some now
          end
        else None
    | None =>
        if penalizeOfflineNode updateReq response
        then Some now
        else Reputation.OfflineSuspended dbNode
    end
  else None.

(** One call of [Update]: the request, [now], and the wall clock. *)
Definition UpdateCall : Type := UpdateRequest.t * Z * Z.

(** The table after a sequence of [Update] calls, whatever each returns. *)
Definition runUpdates
    (auditHistoryTracker :
       list Byte.byte -> Time -> bool -> AuditHistoryConfig.t ->
       option (list Byte.byte * UpdateAuditHistoryResponse.t))
    (db : gmap N Reputation.t) (calls : list UpdateCall)
    : gmap N Reputation.t :=
  fold_left
    (fun db call =>
       let '(updateReq, now, wall) := call in
       fst (Update auditHistoryTracker db updateReq now wall))
    calls db.

(** A row with its [Disqualified] column replaced. *)
Definition withDisqualified (v : option Time) (row : Reputation.t)
    : Reputation.t :=
  Reputation.mk (Reputation.Id row) (Reputation.AuditSuccessCount row)
    (Reputation.TotalAuditCount row) (Reputation.VettedAt row)
    (Reputation.Contained row) v
    (Reputation.Suspended row) (Reputation.UnknownAuditSuspended row)
    (Reputation.OfflineSuspended row) (Reputation.UnderReview row)
    (Reputation.OnlineScore row) (Reputation.AuditHistory row)
    (Reputation.AuditReputationAlpha row) (Reputation.AuditReputationBeta row)
    (Reputation.UnknownAuditReputationAlpha row)
    (Reputation.UnknownAuditReputationBeta row).

(** A row with its [UnknownAuditSuspended] column replaced. *)
Definition withUnknownAuditSuspended (v : option Time) (row : Reputation.t)
    : Reputation.t :=
  Reputation.mk (Reputation.Id row) (Reputation.AuditSuccessCount row)
    (Reputation.TotalAuditCount row) (Reputation.VettedAt row)
    (Reputation.Contained row) (Reputation.Disqualified row)
    (Reputation.Suspended row) v
    (Reputation.OfflineSuspended row) (Reputation.UnderReview row)
    (Reputation.OnlineScore row) (Reputation.AuditHistory row)
    (Reputation.AuditReputationAlpha row) (Reputation.AuditReputationBeta row)
    (Reputation.UnknownAuditReputationAlpha row)
    (Reputation.UnknownAuditReputationBeta row).

(** A row with its five status columns replaced. *)
Definition withStatus (status : ReputationStatus.t) (row : Reputation.t)
    : Reputation.t :=
  Reputation.mk (Reputation.Id row) (Reputation.AuditSuccessCount row)
    (Reputation.TotalAuditCount row) (ReputationStatus.VettedAt status)
    (ReputationStatus.Contained status) (ReputationStatus.Disqualified status)
    (Reputation.Suspended row) (ReputationStatus.UnknownAuditSuspended status)
    (ReputationStatus.OfflineSuspended status) (Reputation.UnderReview row)
    (Reputation.OnlineScore row) (Reputation.AuditHistory row)
    (Reputation.AuditReputationAlpha row) (Reputation.AuditReputationBeta row)
    (Reputation.UnknownAuditReputationAlpha row)
    (Reputation.UnknownAuditReputationBeta row).

(** What the outcomes other than [Success] do to the two pairs. *)
Definition pairsByOutcome (dbNode : Reputation.t)
    (updateReq : UpdateRequest.t) (row' : Reputation.t) : Prop :=
  let lambda := UpdateRequest.AuditLambda updateReq in
  let w := UpdateRequest.AuditWeight updateReq in
  let auditUnchanged :=
    Reputation.AuditReputationAlpha row'
    = Reputation.AuditReputationAlpha dbNode
    /\ Reputation.AuditReputationBeta row'
       = Reputation.AuditReputationBeta dbNode in
  let unknownUnchanged :=
    Reputation.UnknownAuditReputationAlpha row'
    = Reputation.UnknownAuditReputationAlpha dbNode
    /\ Reputation.UnknownAuditReputationBeta row'
       = Reputation.UnknownAuditReputationBeta dbNode in
  match UpdateRequest.AuditOutcome updateReq with
  | AuditSuccess => True
  | AuditFailure =>
      Reputation.AuditReputationAlpha row'
      = (lambda * Reputation.AuditReputationAlpha dbNode
         + w * (1 + -1) / 2)%float
      /\ Reputation.AuditReputationBeta row'
         = (lambda * Reputation.AuditReputationBeta dbNode
            + w * (1 - -1) / 2)%float
      /\ unknownUnchanged
  | AuditUnknown =>
      Reputation.UnknownAuditReputationAlpha row'
      = (lambda * Reputation.UnknownAuditReputationAlpha dbNode
         + w * (1 + -1) / 2)%float
      /\ Reputation.UnknownAuditReputationBeta row'
         = (lambda * Reputation.UnknownAuditReputationBeta dbNode
            + w * (1 - -1) / 2)%float
      /\ auditUnchanged
  | AuditOffline => auditUnchanged /\ unknownUnchanged
  end.

(** More concrete tables and trackers. *)
Module Sample.

(** A tracker that cannot decode any history. *)
Definition failingTracker (_ : list Byte.byte) (_ : Time) (_ : bool)
    (_ : AuditHistoryConfig.t)
    : option (list Byte.byte * UpdateAuditHistoryResponse.t) :=
  None.

(** A vetted row of node 1. *)
Definition vettedRow : Reputation.t :=
  Reputation.mk 1%N 90 120 (Some 7) false None None None None None 1%float []
    20%float 1%float 20%float 1%float.

Definition vettedTable : gmap N Reputation.t := {[ 1%N := vettedRow ]}.

(** Three calls: a failure and an unknown audit of node 1, and a success of
    node 2. *)
Definition calls : list UpdateCall :=
  [ (Fixture.request AuditFailure, 100, 100);
    (Fixture.request AuditUnknown, 200, 200);
    (UpdateRequest.mk 2%N AuditSuccess 1%float 1%float 0.5%float (48 * Hour)
       true 100 Fixture.historyConfig, 300, 300) ].

(** The same configuration with offline suspension switched off. *)
Definition requestNoOffline (outcome : AuditType) : UpdateRequest.t :=
  UpdateRequest.mk 1%N outcome 1%float 1%float 0.5%float (48 * Hour) true 100
    (AuditHistoryConfig.mk false 0.5%float false Hour Hour).

(** A decoder of histories that accepts everything. *)
Definition decodeAll (h : list Byte.byte) : option (list Byte.byte) := Some h.

End Sample.

(** ** What flattening computes *)

(** The words of a string: its maximal runs of bytes other than space, tab
    and newline. *)
Definition consHead (c : Byte.byte) (ws : list GoString) : list GoString :=
  match ws with
  | w :: ws => (c :: w) :: ws
  | [] => [[c]]
  end.

Fixpoint words (x : GoString) : list GoString :=
  match x with
  | [] => []
  | c :: x' =>
      if isWhitespace c then words x'
      else
        match x' with
        | [] => [[c]]
        | c' :: _ =>
            if isWhitespace c' then [c] :: words x'
            else consHead c (words x')
        end
  end.

(** Every word behind one space, *)
Definition spaced (x : GoString) : GoString :=
  concat (map (cons Char.space) (words x)).

(** and the words with one space between them. *)
Definition joinWords (ws : list GoString) : GoString :=
  match ws with
  | [] => []
  | w :: ws => w ++ concat (map (cons Char.space) ws)
  end.

(** A string that is empty or starts with whitespace. *)
Definition atGap (x : list Byte.byte) : Prop :=
  match x with
  | [] => True
  | c :: _ => isWhitespace c = true
  end.

(** A string that does not end with whitespace. *)
Definition endsClean (x : list Byte.byte) : Prop :=
  forall c, last x = Some c -> isWhitespace c = false.

(** What the scan has read: [done] is [x[:i]].  Inside a word the rest is
    appended to it; after a single space the space is still to be decided. *)
Definition scanned (done : list Byte.byte) (wasSpace : bool) : Prop :=
  if wasSpace then
    exists core,
      done = core ++ [Char.space]
      /\ forall rest, joinWords (words (done ++ rest)) = core ++ spaced rest
  else
    forall rest,
      joinWords (words (done ++ rest))
      = done ++ readWord rest ++ spaced (skipWord rest).

(** The trimmed string [x[s:e+1]]. *)
Definition trimmed (x : list Byte.byte) : list Byte.byte :=
  rev (skipWhitespace (rev (skipWhitespace x))).

(** A word: not empty, no whitespace in it. *)
Definition isWord (w : list Byte.byte) : Prop :=
  w <> [] /\ Forall (fun c => isWhitespace c = false) w.

(** The rendered parts with [Join] between them. *)
Definition joined (Join : GoString) (parts : list GoString) : GoString :=
  match parts with
  | [] => []
  | p :: parts => p ++ concat (map (app Join) parts)
  end.

(** The entries of a [__sqlbundle_Literals] that are not nil. *)
Fixpoint present (SQLs : list (option __sqlbundle_SQL))
  : list __sqlbundle_SQL :=
  match SQLs with
  | [] => []
  | None :: SQLs => present SQLs
  | Some sql :: SQLs => sql :: present SQLs
  end.

(** A byte that [Rebind] copies without leaving the start state. *)
Definition plainByte (c : Byte.byte) : bool :=
  negb (Byte.eqb c Char.question || Byte.eqb c Char.dash
        || Byte.eqb c Char.doubleQuote || Byte.eqb c Char.singleQuote).

(** The segments after each placeholder, behind [$j], [$j+1], ... *)
Fixpoint numbered (j : Z) (segments : list GoString) : GoString :=
  match segments with
  | [] => []
  | s :: segments =>
      Char.dollar :: Itoa j ++ s ++ numbered (j + 1) segments
  end.

(** The dialects whose [Rebind] numbers the placeholders. *)
Definition numbersPlaceholders (dialect : __sqlbundle_Dialect) : bool :=
  match dialect with
  | __sqlbundle_sqlite3 => false
  | _ => true
  end.

Module SqlSample.
Import String.
Definition statement : GoString :=
  bytes "  SELECT  a FROM t
	WHERE b = ? AND  c = ?  ".
Definition plain : GoString := bytes "SELECT a FROM t WHERE b = 1".
Definition segments : list GoString :=
  [bytes " AND c = "; bytes " LIMIT 1"].
Definition commented : GoString :=
  bytes "-- by key
SELECT a FROM t WHERE b = ?".
End SqlSample.

(** * Properties *)

Section UpdateFacts.

Variable auditHistoryTracker :
  AuditHistoryBytes -> Time -> bool -> AuditHistoryConfig.t ->
  option (AuditHistoryBytes * UpdateAuditHistoryResponse.t).

Lemma getOrCreate_loadedRow (db : gmap NodeID Reputation.t) (id : NodeID) :
  exists tx,
    getOrCreate db id = inl (tx, loadedRow db id)
    /\ tx !! id = Some (loadedRow db id)
    /\ (forall j, j <> id -> tx !! j = db !! j)
    /\ (is_set (db !! id) = true -> tx = db).
Proof.
  unfold getOrCreate, loadedRow, Get_Reputation_By_Id, insertReputation.
  destruct (db !! id) as [row|] eqn:Hrow.
  - exists db. repeat split; auto.
  - exists (<[id := zeroReputation id emptyAuditHistory]> db).
    rewrite lookup_insert_eq. repeat split; auto.
    + intros j Hj. apply lookup_insert_ne. congruence.
    + discriminate.
Qed.

(** On a disqualified row the transaction returns at line 1686: nothing is
    written, and [oldStatus] still has its zero value when it is compared. *)
Lemma Update_disqualified_row (db : gmap NodeID Reputation.t)
    (updateReq : UpdateRequest.t) (now wall : Time) (row : Reputation.t)
    (t : Time) :
  db !! UpdateRequest.NodeID updateReq = Some row ->
  Reputation.Disqualified row = Some t ->
  Update auditHistoryTracker db updateReq now wall
  = (db, UpdateOk (getNodeStatus row)
           (negb (ReputationStatus.Equal ReputationStatus.zero
                    (getNodeStatus row)))).
Proof.
  intros Hrow Hdq.
  unfold Update, UpdateTx, getOrCreate, Get_Reputation_By_Id. cbv zeta.
  rewrite Hrow, Hdq. reflexivity.
Qed.

(** On a row that is not disqualified the call fails when the tracker does,
    and otherwise writes [writtenRow] and reports it. *)
Lemma Update_active_row (db : gmap NodeID Reputation.t)
    (updateReq : UpdateRequest.t) (now wall : Time) :
  let id := UpdateRequest.NodeID updateReq in
  let dbNode := loadedRow db id in
  Reputation.Disqualified dbNode = None ->
  match auditHistoryTracker (Reputation.AuditHistory dbNode) now
          (isUp updateReq) (UpdateRequest.AuditHistory updateReq) with
  | None => Update auditHistoryTracker db updateReq now wall
            = (db, UpdateErr ErrAuditHistory)
  | Some (h, response) =>
      let row' := writtenRow dbNode updateReq h response now wall in
      exists db',
        Update auditHistoryTracker db updateReq now wall
        = (db', UpdateOk (getNodeStatus row')
                  (negb (ReputationStatus.Equal (getNodeStatus dbNode)
                           (getNodeStatus row'))))
        /\ db' !! id = Some row'
        /\ (forall j, j <> id -> db' !! j = db !! j)
  end.
Proof.
  intros id dbNode Hdq.
  destruct (getOrCreate_loadedRow db id) as (tx & Hget & Hid & Hother & _).
  fold dbNode in Hget, Hid.
  unfold Update, UpdateTx. cbv zeta. fold id. rewrite Hget, Hdq.
  unfold updateAuditHistoryWithTx. rewrite Hid. fold (isUp updateReq).
  destruct (auditHistoryTracker _ _ _ _) as [[h response]|]; [|reflexivity].
  unfold Update_Reputation_By_Id. rewrite lookup_insert_eq.
  eexists. split; [|split].
  - unfold writtenRow, getNodeStatus. rewrite Hdq. reflexivity.
  - rewrite lookup_insert_eq. reflexivity.
  - intros j Hj. rewrite !lookup_insert_ne by congruence. auto.
Qed.

(** A successful call on a row that is not disqualified wrote [writtenRow]
    for some answer of the tracker. *)
Lemma Update_ok_inv (db db' : gmap NodeID Reputation.t)
    (updateReq : UpdateRequest.t) (now wall : Time)
    (status : ReputationStatus.t) (changed : bool) :
  let id := UpdateRequest.NodeID updateReq in
  let dbNode := loadedRow db id in
  Reputation.Disqualified dbNode = None ->
  Update auditHistoryTracker db updateReq now wall
  = (db', UpdateOk status changed) ->
  exists h response,
    let row' := writtenRow dbNode updateReq h response now wall in
    auditHistoryTracker (Reputation.AuditHistory dbNode) now
      (isUp updateReq) (UpdateRequest.AuditHistory updateReq)
    = Some (h, response)
    /\ db' !! id = Some row'
    /\ status = getNodeStatus row'
    /\ changed = negb (ReputationStatus.Equal (getNodeStatus dbNode)
                         (getNodeStatus row')).
Proof.
  intros id dbNode Hdq Hupd.
  pose proof (Update_active_row db updateReq now wall Hdq) as Hact.
  fold id dbNode in Hact.
  destruct (auditHistoryTracker _ _ _ _) as [[h response]|].
  - destruct Hact as (db1 & Heq & Hid & _).
    rewrite Heq in Hupd. injection Hupd as <- <- <-.
    exists h, response. auto.
  - rewrite Hact in Hupd. discriminate.
Qed.

(** [dbNode] is never nil when [Update] dereferences it at line 1712. *)
Lemma Update_never_panics (db : gmap NodeID Reputation.t)
    (updateReq : UpdateRequest.t) (now wall : Time) :
  snd (Update auditHistoryTracker db updateReq now wall) <> UpdatePanic.
Proof.
  destruct (Reputation.Disqualified
              (loadedRow db (UpdateRequest.NodeID updateReq)))
    as [t|] eqn:Hdq.
  - assert (Hrow : db !! UpdateRequest.NodeID updateReq
                   = Some (loadedRow db (UpdateRequest.NodeID updateReq))).
    { unfold loadedRow in *.
      destruct (db !! UpdateRequest.NodeID updateReq); [reflexivity|].
      discriminate. }
    rewrite (Update_disqualified_row db updateReq now wall _ t Hrow Hdq).
    discriminate.
  - pose proof (Update_active_row db updateReq now wall Hdq) as Hact.
    destruct (auditHistoryTracker _ _ _ _) as [[h response]|].
    + destruct Hact as (db' & -> & _). discriminate.
    + rewrite Hact. discriminate.
Qed.

End UpdateFacts.

(** [populateUpdateNodeStats] is its blocks one after the other. *)
Lemma populateUpdateNodeStats_steps (dbNode : Reputation.t)
    (updateReq : UpdateRequest.t) (response : UpdateAuditHistoryResponse.t)
    (now wall : Time) :
  populateUpdateNodeStats dbNode updateReq response now wall
  = let '(a, b, c, d, n) := stepOne dbNode updateReq in
    offlineStep dbNode updateReq response now
      (contactStep dbNode updateReq now
         (unknownAuditStep dbNode updateReq c d now wall
            (auditDQStep updateReq a b now
               (vettingStep dbNode updateReq n now
                  (initialStats updateReq response a b c d n))))).
Proof.
  unfold populateUpdateNodeStats, stepOne.
  destruct (auditOutcomeSwitch _ _ _ _ _ _ _ _) as [[[[a b] c] d] n].
  reflexivity.
Qed.

(** ** The fields each step sets *)

(** Case analysis on the conditions of a nested conditional, one atom of a
    conjunction at a time. *)
Ltac break_atom x :=
  lazymatch x with
  | andb ?a ?b => first [break_atom a | break_atom b]
  | orb ?a ?b => first [break_atom a | break_atom b]
  | negb ?a => break_atom a
  | true => fail
  | false => fail
  | context [match _ with _ => _ end] => fail
  | _ => destruct x
  end.

Ltac break_all :=
  simpl;
  repeat (match goal with
          | |- context [match ?x with _ => _ end] => break_atom x
          end; simpl);
  try reflexivity.

Section Steps.

Variables (dbNode : Reputation.t) (updateReq : UpdateRequest.t)
  (response : UpdateAuditHistoryResponse.t) (now wall : Time).
Variables (a b c d : float) (n : Z).
Variable u : updateNodeStats.t.

Lemma vettingStep_fixed :
  fixedFields (vettingStep dbNode updateReq n now u) = fixedFields u.
Proof. unfold vettingStep. break_all. Qed.

Lemma auditDQStep_fixed :
  fixedFields (auditDQStep updateReq a b now u) = fixedFields u.
Proof. unfold auditDQStep. break_all. Qed.

Lemma unknownAuditStep_fixed :
  fixedFields (unknownAuditStep dbNode updateReq c d now wall u)
  = fixedFields u.
Proof. unfold unknownAuditStep. break_all. Qed.

Lemma contactStep_fixed :
  fixedFields (contactStep dbNode updateReq now u) = fixedFields u.
Proof. unfold contactStep. break_all. Qed.

Lemma offlineStep_fixed :
  fixedFields (offlineStep dbNode updateReq response now u) = fixedFields u.
Proof. unfold offlineStep. break_all. Qed.

(** [VettedAt] is written by the vetting step only. *)
Lemma vettingStep_VettedAt :
  updateNodeStats.VettedAt (vettingStep dbNode updateReq n now u)
  = if negb (is_set (Reputation.VettedAt dbNode))
       && (n >=? UpdateRequest.AuditsRequiredForVetting updateReq)
    then timeField_value now
    else updateNodeStats.VettedAt u.
Proof. unfold vettingStep, is_set. break_all. Qed.

Lemma later_steps_VettedAt :
  updateNodeStats.VettedAt
    (offlineStep dbNode updateReq response now
       (contactStep dbNode updateReq now
          (unknownAuditStep dbNode updateReq c d now wall
             (auditDQStep updateReq a b now u))))
  = updateNodeStats.VettedAt u.
Proof.
  unfold offlineStep, contactStep, unknownAuditStep, auditDQStep. break_all.
Qed.

(** [AuditSuccessCount] is written by the contact step only. *)
Lemma contactStep_AuditSuccessCount :
  updateNodeStats.AuditSuccessCount (contactStep dbNode updateReq now u)
  = if AuditType_eqb (UpdateRequest.AuditOutcome updateReq) AuditSuccess
    then mkInt64Field true (Int64.add (Reputation.AuditSuccessCount dbNode) 1)
    else updateNodeStats.AuditSuccessCount u.
Proof. unfold contactStep. break_all. Qed.

Lemma other_steps_AuditSuccessCount :
  updateNodeStats.AuditSuccessCount
    (offlineStep dbNode updateReq response now u)
  = updateNodeStats.AuditSuccessCount u
  /\ updateNodeStats.AuditSuccessCount
       (unknownAuditStep dbNode updateReq c d now wall
          (auditDQStep updateReq a b now
             (vettingStep dbNode updateReq n now u)))
     = updateNodeStats.AuditSuccessCount u.
Proof.
  unfold offlineStep, unknownAuditStep, auditDQStep, vettingStep.
  split; break_all.
Qed.

(** [Disqualified] through the steps that write it. *)
Lemma vettingStep_Disqualified :
  updateNodeStats.Disqualified (vettingStep dbNode updateReq n now u)
  = updateNodeStats.Disqualified u.
Proof. unfold vettingStep. break_all. Qed.

Lemma auditDQStep_Disqualified :
  updateNodeStats.Disqualified (auditDQStep updateReq a b now u)
  = if (reputationScore a b <=? UpdateRequest.AuditDQ updateReq)%float
    then timeField_value now
    else updateNodeStats.Disqualified u.
Proof. unfold auditDQStep. break_all. Qed.

Lemma unknownAuditStep_Disqualified :
  t_set (updateNodeStats.UnknownAuditSuspended u) = false ->
  updateNodeStats.Disqualified
    (unknownAuditStep dbNode updateReq c d now wall u)
  = if (reputationScore c d <=? UpdateRequest.AuditDQ updateReq)%float
       && negb (AuditType_eqb (UpdateRequest.AuditOutcome updateReq)
                  AuditSuccess)
       && match Reputation.UnknownAuditSuspended dbNode with
          | Some suspendedAt =>
              (UpdateRequest.SuspensionGracePeriod updateReq
                 <? Since wall suspendedAt)
              && UpdateRequest.SuspensionDQEnabled updateReq
          | None => false
          end
    then timeField_value now
    else updateNodeStats.Disqualified u.
Proof.
  intros Hu. unfold unknownAuditStep.
  destruct (Reputation.UnknownAuditSuspended dbNode); cbv zeta;
    try rewrite Hu; break_all.
Qed.

Lemma contactStep_Disqualified :
  updateNodeStats.Disqualified (contactStep dbNode updateReq now u)
  = updateNodeStats.Disqualified u.
Proof. unfold contactStep. break_all. Qed.

Lemma offlineStep_Disqualified :
  updateNodeStats.Disqualified (offlineStep dbNode updateReq response now u)
  = if offlineDQ dbNode updateReq response now
    then timeField_value now
    else updateNodeStats.Disqualified u.
Proof. unfold offlineStep, offlineDQ, penalizeOfflineNode. break_all. Qed.

(** [UnknownAuditSuspended] is written by the unknown-audit step only. *)
Lemma early_steps_UnknownAuditSuspended :
  updateNodeStats.UnknownAuditSuspended
    (auditDQStep updateReq a b now (vettingStep dbNode updateReq n now u))
  = updateNodeStats.UnknownAuditSuspended u.
Proof. unfold auditDQStep, vettingStep. break_all. Qed.

Lemma unknownAuditStep_UnknownAuditSuspended :
  t_set (updateNodeStats.UnknownAuditSuspended u) = false ->
  updateNodeStats.UnknownAuditSuspended
    (unknownAuditStep dbNode updateReq c d now wall u)
  = if (reputationScore c d <=? UpdateRequest.AuditDQ updateReq)%float then
      match Reputation.UnknownAuditSuspended dbNode with
      | None => timeField_value now
      | Some suspendedAt =>
          if negb (AuditType_eqb (UpdateRequest.AuditOutcome updateReq)
                     AuditSuccess)
             && ((UpdateRequest.SuspensionGracePeriod updateReq
                    <? Since wall suspendedAt)
                 && UpdateRequest.SuspensionDQEnabled updateReq)
          then timeField_nil
          else updateNodeStats.UnknownAuditSuspended u
      end
    else
      match Reputation.UnknownAuditSuspended dbNode with
      | None => updateNodeStats.UnknownAuditSuspended u
      | Some _ => timeField_nil
      end.
Proof.
  intros Hu. unfold unknownAuditStep.
  destruct (Reputation.UnknownAuditSuspended dbNode); cbv zeta;
    try rewrite Hu; break_all.
Qed.

Lemma late_steps_UnknownAuditSuspended :
  updateNodeStats.UnknownAuditSuspended
    (offlineStep dbNode updateReq response now
       (contactStep dbNode updateReq now u))
  = updateNodeStats.UnknownAuditSuspended u.
Proof. unfold offlineStep, contactStep. break_all. Qed.

(** The two offline fields are written by the offline step only. *)
Lemma early_steps_offline_fields :
  let u' :=
    contactStep dbNode updateReq now
      (unknownAuditStep dbNode updateReq c d now wall
         (auditDQStep updateReq a b now
            (vettingStep dbNode updateReq n now u))) in
  updateNodeStats.OfflineSuspended u' = updateNodeStats.OfflineSuspended u
  /\ updateNodeStats.OfflineUnderReview u'
     = updateNodeStats.OfflineUnderReview u.
Proof.
  unfold contactStep, unknownAuditStep, auditDQStep, vettingStep.
  split; break_all.
Qed.

End Steps.


(** ** The fields [populateUpdateNodeStats] sets *)

Section Stats.

Variables (dbNode : Reputation.t) (updateReq : UpdateRequest.t)
  (response : UpdateAuditHistoryResponse.t) (now wall : Time).

Let stats := populateUpdateNodeStats dbNode updateReq response now wall.

Lemma stats_fixedFields :
  let '(a, b, c, d, n) := stepOne dbNode updateReq in
  fixedFields stats
  = (mkFloat64Field true a, mkFloat64Field true b, mkFloat64Field true c,
     mkFloat64Field true d, mkInt64Field true n, mkBoolField true false,
     mkFloat64Field true (UpdateAuditHistoryResponse.NewScore response)).
Proof.
  unfold stats. rewrite populateUpdateNodeStats_steps.
  destruct (stepOne dbNode updateReq) as [[[[a b] c] d] n].
  rewrite offlineStep_fixed, contactStep_fixed, unknownAuditStep_fixed,
    auditDQStep_fixed, vettingStep_fixed.
  reflexivity.
Qed.

Lemma stats_VettedAt :
  let '(_, _, _, _, n) := stepOne dbNode updateReq in
  updateNodeStats.VettedAt stats
  = if negb (is_set (Reputation.VettedAt dbNode))
       && (n >=? UpdateRequest.AuditsRequiredForVetting updateReq)
    then timeField_value now
    else timeField_zero.
Proof.
  unfold stats. rewrite populateUpdateNodeStats_steps.
  destruct (stepOne dbNode updateReq) as [[[[a b] c] d] n].
  rewrite later_steps_VettedAt, vettingStep_VettedAt. reflexivity.
Qed.

Lemma stats_AuditSuccessCount :
  updateNodeStats.AuditSuccessCount stats
  = if AuditType_eqb (UpdateRequest.AuditOutcome updateReq) AuditSuccess
    then mkInt64Field true (Int64.add (Reputation.AuditSuccessCount dbNode) 1)
    else int64Field_zero.
Proof.
  unfold stats. rewrite populateUpdateNodeStats_steps.
  destruct (stepOne dbNode updateReq) as [[[[a b] c] d] n].
  rewrite (proj1 (other_steps_AuditSuccessCount dbNode updateReq response
                    now wall a b c d n _)).
  rewrite contactStep_AuditSuccessCount.
  rewrite (proj2 (other_steps_AuditSuccessCount dbNode updateReq response
                    now wall a b c d n _)).
  reflexivity.
Qed.

Lemma stats_Disqualified :
  updateNodeStats.Disqualified stats
  = if auditFailureDQ dbNode updateReq
       || suspensionGraceDQ dbNode updateReq wall
       || offlineDQ dbNode updateReq response now
    then timeField_value now
    else timeField_zero.
Proof.
  unfold stats. rewrite populateUpdateNodeStats_steps.
  unfold auditFailureDQ, suspensionGraceDQ, unknownAuditLow.
  destruct (stepOne dbNode updateReq) as [[[[a b] c] d] n].
  rewrite offlineStep_Disqualified, contactStep_Disqualified.
  rewrite unknownAuditStep_Disqualified
    by (rewrite early_steps_UnknownAuditSuspended; reflexivity).
  rewrite auditDQStep_Disqualified, vettingStep_Disqualified.
  cbn [initialStats updateNodeStats.Disqualified].
  destruct (offlineDQ dbNode updateReq response now);
    destruct (reputationScore a b <=? UpdateRequest.AuditDQ updateReq)%float;
    rewrite ?orb_true_r, ?orb_false_r, ?orb_true_l, ?orb_false_l;
    try reflexivity;
    match goal with |- context [if ?x then _ else _] => destruct x end;
    reflexivity.
Qed.

Lemma stats_UnknownAuditSuspended :
  updateNodeStats.UnknownAuditSuspended stats
  = if unknownAuditLow dbNode updateReq then
      match Reputation.UnknownAuditSuspended dbNode with
      | None => timeField_value now
      | Some _ =>
          if suspensionGraceDQ dbNode updateReq wall
          then timeField_nil
          else timeField_zero
      end
    else
      match Reputation.UnknownAuditSuspended dbNode with
      | None => timeField_zero
      | Some _ => timeField_nil
      end.
Proof.
  unfold stats. rewrite populateUpdateNodeStats_steps.
  unfold suspensionGraceDQ, unknownAuditLow.
  destruct (stepOne dbNode updateReq) as [[[[a b] c] d] n].
  rewrite late_steps_UnknownAuditSuspended.
  rewrite unknownAuditStep_UnknownAuditSuspended
    by (rewrite early_steps_UnknownAuditSuspended; reflexivity).
  rewrite early_steps_UnknownAuditSuspended.
  cbn [initialStats updateNodeStats.UnknownAuditSuspended].
  destruct (reputationScore c d <=? UpdateRequest.AuditDQ updateReq)%float;
    destruct (Reputation.UnknownAuditSuspended dbNode); reflexivity.
Qed.


End Stats.

(** ** The row a call writes *)

Section WrittenRow.

Variables (dbNode : Reputation.t) (updateReq : UpdateRequest.t)
  (h : list Byte.byte) (response : UpdateAuditHistoryResponse.t)
  (now wall : Time).

Let row' := writtenRow dbNode updateReq h response now wall.

Lemma writtenRow_parameters :
  let '(a, b, c, d, n) := stepOne dbNode updateReq in
  Reputation.AuditReputationAlpha row' = a
  /\ Reputation.AuditReputationBeta row' = b
  /\ Reputation.UnknownAuditReputationAlpha row' = c
  /\ Reputation.UnknownAuditReputationBeta row' = d
  /\ Reputation.TotalAuditCount row' = n.
Proof.
  pose proof (stats_fixedFields dbNode updateReq response now wall) as Hf.
  destruct (stepOne dbNode updateReq) as [[[[a b] c] d] n].
  unfold fixedFields in Hf.
  injection Hf as Ha Hb Hc Hd Hn _ _.
  unfold row', writtenRow, applyUpdateFields, populateUpdateFields.
  cbv zeta.
  cbn [Reputation.AuditReputationAlpha Reputation.AuditReputationBeta
       Reputation.UnknownAuditReputationAlpha
       Reputation.UnknownAuditReputationBeta Reputation.TotalAuditCount
       Reputation_Update_Fields.AuditReputationAlpha
       Reputation_Update_Fields.AuditReputationBeta
       Reputation_Update_Fields.UnknownAuditReputationAlpha
       Reputation_Update_Fields.UnknownAuditReputationBeta
       Reputation_Update_Fields.TotalAuditCount].
  rewrite Ha, Hb, Hc, Hd, Hn. repeat split; reflexivity.
Qed.

Lemma writtenRow_Contained : Reputation.Contained row' = false.
Proof.
  pose proof (stats_fixedFields dbNode updateReq response now wall) as Hf.
  destruct (stepOne dbNode updateReq) as [[[[a b] c] d] n].
  unfold fixedFields in Hf.
  injection Hf as _ _ _ _ _ Hc _.
  unfold row', writtenRow, applyUpdateFields, populateUpdateFields.
  cbv zeta.
  cbn [Reputation.Contained Reputation_Update_Fields.Contained].
  rewrite Hc. reflexivity.
Qed.

Lemma writtenRow_AuditSuccessCount :
  Reputation.AuditSuccessCount row'
  = if AuditType_eqb (UpdateRequest.AuditOutcome updateReq) AuditSuccess
    then Int64.add (Reputation.AuditSuccessCount dbNode) 1
    else Reputation.AuditSuccessCount dbNode.
Proof.
  unfold row', writtenRow, applyUpdateFields, populateUpdateFields.
  cbv zeta.
  cbn [Reputation.AuditSuccessCount
       Reputation_Update_Fields.AuditSuccessCount].
  rewrite stats_AuditSuccessCount.
  destruct (AuditType_eqb (UpdateRequest.AuditOutcome updateReq) AuditSuccess);
    reflexivity.
Qed.

Lemma writtenRow_VettedAt :
  let '(_, _, _, _, n) := stepOne dbNode updateReq in
  Reputation.VettedAt row'
  = if negb (is_set (Reputation.VettedAt dbNode))
       && (n >=? UpdateRequest.AuditsRequiredForVetting updateReq)
    then Some now
    else Reputation.VettedAt dbNode.
Proof.
  pose proof (stats_VettedAt dbNode updateReq response now wall) as Hv.
  destruct (stepOne dbNode updateReq) as [[[[a b] c] d] n].
  unfold row', writtenRow, applyUpdateFields, populateUpdateFields.
  cbv zeta.
  cbn [Reputation.VettedAt Reputation_Update_Fields.VettedAt].
  rewrite Hv.
  destruct (negb (is_set (Reputation.VettedAt dbNode))
            && (n >=? UpdateRequest.AuditsRequiredForVetting updateReq));
    reflexivity.
Qed.

Lemma writtenRow_Disqualified :
  Reputation.Disqualified row'
  = if auditFailureDQ dbNode updateReq
       || suspensionGraceDQ dbNode updateReq wall
       || offlineDQ dbNode updateReq response now
    then Some now
    else Reputation.Disqualified dbNode.
Proof.
  unfold row', writtenRow, applyUpdateFields, populateUpdateFields.
  cbv zeta.
  cbn [Reputation.Disqualified Reputation_Update_Fields.Disqualified].
  rewrite stats_Disqualified.
  destruct (auditFailureDQ dbNode updateReq
            || suspensionGraceDQ dbNode updateReq wall
            || offlineDQ dbNode updateReq response now);
    reflexivity.
Qed.

Lemma writtenRow_UnknownAuditSuspended :
  Reputation.UnknownAuditSuspended row'
  = if unknownAuditLow dbNode updateReq then
      match Reputation.UnknownAuditSuspended dbNode with
      | None => Some now
      | Some suspendedAt =>
          if suspensionGraceDQ dbNode updateReq wall
          then None
          else Some suspendedAt
      end
    else None.
Proof.
  unfold row', writtenRow, applyUpdateFields, populateUpdateFields.
  cbv zeta.
  cbn [Reputation.UnknownAuditSuspended
       Reputation_Update_Fields.UnknownAuditSuspended].
  rewrite stats_UnknownAuditSuspended.
  destruct (unknownAuditLow dbNode updateReq);
    destruct (Reputation.UnknownAuditSuspended dbNode) eqn:Hs;
    try destruct (suspensionGraceDQ dbNode updateReq wall);
    cbn; rewrite ?Hs; reflexivity.
Qed.


End WrittenRow.

(** ** Arithmetic of counters and clocks *)

Lemma Int64_add_one (x : Z) :
  Int64.min_int <= x < Int64.max_int -> Int64.add x 1 = x + 1.
Proof.
  unfold Int64.add, Int64.wrap, Int64.min_int, Int64.max_int. intros Hx.
  rewrite Z.mod_small; lia.
Qed.

Lemma Sub_monotone (t t' u : Time) : t <= t' -> Sub t u <= Sub t' u.
Proof. unfold Sub. lia. Qed.

Lemma time_ptr_equal_eq (x y : option Time) :
  ReputationStatus.time_ptr_equal x y = true <-> x = y.
Proof.
  destruct x as [x|], y as [y|]; simpl; split; intros H;
    try discriminate; try reflexivity.
  - apply Z.eqb_eq in H. congruence.
  - injection H as ->. apply Z.eqb_refl.
Qed.

(** [Equal] decides equality of statuses. *)
Lemma Equal_eq (s1 s2 : ReputationStatus.t) :
  ReputationStatus.Equal s1 s2 = true <-> s1 = s2.
Proof.
  destruct s1 as [c1 d1 u1 o1 v1], s2 as [c2 d2 u2 o2 v2].
  unfold ReputationStatus.Equal. simpl.
  rewrite !andb_true_iff, !time_ptr_equal_eq, Bool.eqb_true_iff.
  split.
  - intros [[[[-> ->] ->] ->] ->]. reflexivity.
  - intros H. injection H as -> -> -> -> ->. auto.
Qed.

(** ** Signs of [float64] sums

    Facts about IEEE 754 binary64 addition, multiplication and division, from
    their specification on [spec_float]: a sum of a positive number and a
    non-negative one is positive (it cannot underflow to zero), and the
    increments [w * 0 / 2] and [w * 2 / 2] of a non-negative finite weight
    are non-negative. *)

Module Float64Facts.

Import FloatOps Float64.

(** One shift to the right halves a non-negative mantissa. *)
Lemma shr_1_m (mrs : shr_record) :
  0 <= shr_m mrs -> shr_m (shr_1 mrs) = shr_m mrs / 2.
Proof.
  destruct mrs as [m r s]. simpl. intros Hm.
  destruct m as [|p|p]; [reflexivity| |lia].
  destruct p as [p|p|]; cbn [shr_m].
  - rewrite Pos2Z.inj_xI. apply Z.div_unique with 1; lia.
  - rewrite Pos2Z.inj_xO. apply Z.div_unique with 0; lia.
  - reflexivity.
Qed.

(** [p] shifts divide it by [2 ^ p]. *)
Lemma shr_m_iter (p : positive) : forall mrs : shr_record,
  0 <= shr_m mrs ->
  shr_m (SpecFloat.iter_pos shr_1 p mrs) = shr_m mrs / 2 ^ Zpos p.
Proof.
  induction p as [p IH|p IH|]; intros mrs Hm; simpl SpecFloat.iter_pos.
  - assert (H1 : 0 <= shr_m (shr_1 mrs)).
    { rewrite shr_1_m by assumption. apply Z.div_pos; lia. }
    assert (H2 : 0 <= shr_m (SpecFloat.iter_pos shr_1 p (shr_1 mrs))).
    { rewrite IH by assumption. apply Z.div_pos; [assumption|]. apply Z.pow_pos_nonneg; lia. }
    rewrite IH, IH, shr_1_m by assumption.
    rewrite !Z.div_div by (try apply Z.pow_pos_nonneg; lia).
    f_equal.
    replace (Z.pos p~1) with (1 + Z.pos p + Z.pos p) by lia.
    rewrite !Z.pow_add_r by lia. lia.
  - assert (H2 : 0 <= shr_m (SpecFloat.iter_pos shr_1 p mrs)).
    { rewrite IH by assumption. apply Z.div_pos; [assumption|]. apply Z.pow_pos_nonneg; lia. }
    rewrite IH, IH by assumption.
    rewrite !Z.div_div by (try apply Z.pow_pos_nonneg; lia).
    f_equal.
    replace (Z.pos p~0) with (Z.pos p + Z.pos p) by lia.
    rewrite Z.pow_add_r by lia. reflexivity.
  - rewrite shr_1_m by assumption. reflexivity.
Qed.

(** A number of [d] binary digits is at least [2 ^ (d - 1)]. *)
Lemma digits2_pos_lower (p : positive) :
  2 ^ (Zpos (digits2_pos p) - 1) <= Zpos p.
Proof.
  induction p as [p IH|p IH|]; simpl digits2_pos.
  - replace (Z.pos (Pos.succ (digits2_pos p)) - 1)
      with (1 + (Z.pos (digits2_pos p) - 1)) by lia.
    rewrite Z.pow_add_r by lia. lia.
  - replace (Z.pos (Pos.succ (digits2_pos p)) - 1)
      with (1 + (Z.pos (digits2_pos p) - 1)) by lia.
    rewrite Z.pow_add_r by lia. lia.
  - simpl. lia.
Qed.

Lemma fexp_ge_emin (e : Z) : emin64 <= fexp prec emax e.
Proof. unfold fexp, emin64. lia. Qed.

Lemma shr_record_of_loc_m (m : Z) (l : location) :
  shr_m (shr_record_of_loc m l) = m.
Proof. destruct l as [|[| |]]; reflexivity. Qed.

(** Rounding a positive mantissa at an exponent that is not below [emin]
    shifts out fewer digits than the mantissa has: the result is positive. *)
Lemma shr_fexp_pos (m e : Z) (l : location) :
  0 < m -> emin64 <= e ->
  0 < shr_m (fst (shr_fexp prec emax m e l))
  /\ emin64 <= snd (shr_fexp prec emax m e l).
Proof.
  intros Hm He. unfold shr_fexp, shr.
  destruct (fexp prec emax (Zdigits2 m + e) - e) as [|p|p] eqn:Hn;
    cbn [fst snd]; rewrite ?shr_record_of_loc_m; try (split; lia).
  rewrite shr_m_iter by (rewrite shr_record_of_loc_m; lia).
  rewrite shr_record_of_loc_m. split; [|lia].
  destruct m as [|q|q]; try lia.
  pose proof (digits2_pos_lower q) as Hd.
  cbn [Zdigits2] in Hn.
  assert (Hp : Z.pos p <= Z.pos (digits2_pos q) - 1).
  { unfold fexp, emin64 in *. unfold prec in *. lia. }
  apply Z.div_str_pos. split; [apply Z.pow_pos_nonneg; lia|].
  eapply Z.le_trans; [|exact Hd].
  apply Z.pow_le_mono_r; lia.
Qed.

Lemma round_nearest_even_pos (m : Z) (l : location) :
  0 < m -> 0 < round_nearest_even m l.
Proof.
  intros Hm. unfold round_nearest_even.
  destruct l as [|[| |]]; try destruct (Z.even m); lia.
Qed.

(** Hence rounding never takes a positive number to zero or NaN. *)
Lemma binary_round_aux_pos (m e : Z) (l : location) :
  0 < m -> emin64 <= e ->
  is_pos (binary_round_aux prec emax false m e l) = true.
Proof.
  intros Hm He. unfold binary_round_aux.
  destruct (shr_fexp_pos m e l Hm He) as [Hm1 He1].
  destruct (shr_fexp prec emax m e l) as [mrs1 e1]. cbn [fst snd] in Hm1, He1.
  pose proof (round_nearest_even_pos (shr_m mrs1) (loc_of_shr_record mrs1) Hm1)
    as Hr.
  destruct (shr_fexp_pos _ e1 loc_Exact Hr He1) as [Hm2 He2].
  destruct (shr_fexp prec emax _ e1 loc_Exact) as [mrs2 e2].
  cbn [fst snd] in Hm2, He2.
  destruct (shr_m mrs2); try lia.
  destruct (e2 <=? emax - prec); reflexivity.
Qed.

Lemma binary_round_pos (m : positive) (e : Z) :
  emin64 <= e -> is_pos (binary_round prec emax false m e) = true.
Proof.
  intros He. unfold binary_round, shl_align.
  pose proof (fexp_ge_emin (Z.pos (digits2_pos m) + e)) as Hf.
  destruct (fexp prec emax (Z.pos (digits2_pos m) + e) - e);
    apply binary_round_aux_pos; lia.
Qed.

(** The exponent of a [float64] is not below [emin]. *)
Lemma valid_finite_exponent (s : bool) (m : positive) (e : Z) :
  SpecFloat.valid_binary prec emax (S754_finite s m e) = true -> emin64 <= e.
Proof.
  unfold SpecFloat.valid_binary, bounded, canonical_mantissa.
  cbn. intros H. apply andb_prop in H as [H _]. apply Z.eqb_eq in H.
  rewrite <- H. apply fexp_ge_emin.
Qed.

(** A positive number plus a non-negative one is positive. *)
Lemma SFadd_pos (x y : spec_float) :
  SpecFloat.valid_binary prec emax x = true ->
  SpecFloat.valid_binary prec emax y = true ->
  is_pos x = true ->
  SFleb (S754_zero false) y = true ->
  is_pos (SF64add x y) = true.
Proof.
  intros Vx Vy Hx Hy.
  destruct x as [sx|sx| |sx mx ex]; try discriminate;
    destruct sx; try discriminate;
    destruct y as [sy|sy| |sy my ey]; try discriminate;
    try (destruct sy; try discriminate); try reflexivity.
  unfold SF64add, SFadd. cbn [cond_Zopp].
  apply valid_finite_exponent in Vx, Vy.
  unfold binary_normalize.
  rewrite <- Pos2Z.inj_add.
  apply binary_round_pos. lia.
Qed.

Lemma ltb_zero_is_pos (x : float) :
  (0 <? x)%float = is_pos (Prim2SF x).
Proof.
  rewrite ltb_spec.
  change (Prim2SF 0) with (S754_zero false).
  destruct (Prim2SF x) as [s|s| |s m e]; try destruct s; reflexivity.
Qed.

Lemma float_add_pos (x y : float) :
  (0 <? x)%float = true -> (0 <=? y)%float = true ->
  (0 <? x + y)%float = true.
Proof.
  rewrite !ltb_zero_is_pos, leb_spec, add_spec.
  change (Prim2SF 0) with (S754_zero false).
  apply SFadd_pos; apply Prim2SF_valid.
Qed.

(** Rounding keeps a non-negative mantissa non-negative. *)
Lemma shr_fexp_nonneg (m e : Z) (l : location) :
  0 <= m -> 0 <= shr_m (fst (shr_fexp prec emax m e l)).
Proof.
  intros Hm. unfold shr_fexp, shr.
  destruct (fexp prec emax (Zdigits2 m + e) - e) as [|p|p];
    cbn [fst]; rewrite ?shr_record_of_loc_m; try lia.
  rewrite shr_m_iter by (rewrite shr_record_of_loc_m; lia).
  rewrite shr_record_of_loc_m. apply Z.div_pos; [lia|].
  apply Z.pow_pos_nonneg; lia.
Qed.

Lemma round_nearest_even_nonneg (m : Z) (l : location) :
  0 <= m -> 0 <= round_nearest_even m l.
Proof.
  intros Hm. unfold round_nearest_even.
  destruct l as [|[| |]]; try destruct (Z.even m); lia.
Qed.

Lemma binary_round_aux_nonneg (m e : Z) (l : location) :
  0 <= m -> is_nonneg (binary_round_aux prec emax false m e l) = true.
Proof.
  intros Hm. unfold binary_round_aux.
  pose proof (shr_fexp_nonneg m e l Hm) as Hm1.
  destruct (shr_fexp prec emax m e l) as [mrs1 e1]. cbn [fst] in Hm1.
  pose proof (round_nearest_even_nonneg (shr_m mrs1) (loc_of_shr_record mrs1)
                Hm1) as Hr.
  pose proof (shr_fexp_nonneg _ e1 loc_Exact Hr) as Hm2.
  destruct (shr_fexp prec emax _ e1 loc_Exact) as [mrs2 e2].
  cbn [fst] in Hm2.
  destruct (shr_m mrs2); try lia; [reflexivity|].
  destruct (e2 <=? emax - prec); reflexivity.
Qed.

Lemma leb_zero_is_nonneg (x : float) :
  (0 <=? x)%float = true -> (x <? infinity)%float = true ->
  (exists s, Prim2SF x = S754_zero s)
  \/ (exists m e, Prim2SF x = S754_finite false m e).
Proof.
  rewrite leb_spec, ltb_spec.
  change (Prim2SF 0) with (S754_zero false).
  change (Prim2SF infinity) with (S754_infinity false).
  destruct (Prim2SF x) as [s|s| |s m e]; try destruct s; try discriminate;
    intros _ _; first [left; eexists; reflexivity
                      | right; eexists _, _; reflexivity].
Qed.

Lemma is_nonneg_leb (x : float) :
  is_nonneg (Prim2SF x) = true -> (0 <=? x)%float = true.
Proof.
  rewrite leb_spec. change (Prim2SF 0) with (S754_zero false).
  destruct (Prim2SF x) as [s|s| |s m e]; try destruct s; try discriminate;
    reflexivity.
Qed.

(** The quotient of two positive mantissas is non-negative. *)
Lemma SFdiv_core_nonneg (m1 m2 : positive) (e1 e2 : Z) :
  0 <= fst (fst (SFdiv_core_binary prec emax (Zpos m1) e1 (Zpos m2) e2)).
Proof.
  unfold SFdiv_core_binary. cbv zeta.
  set (s := _ - _ - Z.min _ _).
  set (m' := match s with Z.pos _ => Z.shiftl (Z.pos m1) s | 0 => Z.pos m1 | Z.neg _ => 0 end).
  assert (Hm' : 0 <= m').
  { subst m'. destruct s; try lia. apply Z.shiftl_nonneg. lia. }
  pose proof (Z.div_pos m' (Zpos m2) Hm' ltac:(lia)) as Hq.
  unfold Z.div in Hq.
  destruct (Z.div_eucl m' (Z.pos m2)) as [q r]. exact Hq.
Qed.

(** [w * two / 2] for [two] the float 2 and [w * 0 / 2]. *)
Lemma increment_nonneg (w k : float) :
  (0 <=? w)%float = true -> (w <? infinity)%float = true ->
  k = 0%float \/ k = 2%float ->
  (0 <=? w * k / 2)%float = true.
Proof.
  intros Hw Hfin Hk. apply is_nonneg_leb.
  rewrite div_spec, mul_spec.
  change (Prim2SF 2) with (S754_finite false 4503599627370496 (-51)).
  destruct (leb_zero_is_nonneg w Hw Hfin) as [[s ->] | (m & e & ->)].
  - destruct Hk as [-> | ->].
    + change (Prim2SF 0) with (S754_zero false). destruct s; reflexivity.
    + change (Prim2SF 2) with (S754_finite false 4503599627370496 (-51)).
      destruct s; reflexivity.
  - destruct Hk as [-> | ->].
    + change (Prim2SF 0) with (S754_zero false). reflexivity.
    + change (Prim2SF 2) with (S754_finite false 4503599627370496 (-51)).
      unfold SF64mul, SFmul. cbn [xorb].
      pose proof (binary_round_aux_nonneg
                    (Z.pos (m * 4503599627370496)) (e + -51) loc_Exact
                    ltac:(lia)) as Hmul.
      destruct (binary_round_aux prec emax false _ _ loc_Exact)
        as [s1|s1| |s1 m1 e1]; try destruct s1; try discriminate;
        try reflexivity.
      unfold SF64div, SFdiv. cbn [xorb].
      pose proof (SFdiv_core_nonneg m1 4503599627370496 e1 (-51)) as Hq.
      destruct (SFdiv_core_binary prec emax (Z.pos m1) e1
                  (Z.pos 4503599627370496) (-51)) as [[q e'] l].
      cbn [fst] in Hq.
      apply binary_round_aux_nonneg. exact Hq.
Qed.

End Float64Facts.

(** ** C1: an update of a disqualified node writes nothing *)

(** C1.  For every [Update] call on a record whose [disqualified] timestamp
    is set, the call succeeds, the table — hence every field of the record —
    is exactly as before the call, and the returned status is the projection
    of that unchanged record. *)
Theorem Update_disqualified_is_noop
    (auditHistoryTracker :
       list Byte.byte -> Time -> bool -> AuditHistoryConfig.t ->
       option (list Byte.byte * UpdateAuditHistoryResponse.t))
    (db : gmap N Reputation.t) (updateReq : UpdateRequest.t)
    (now wall : Time) (row : Reputation.t) (t : Time) :
  db !! UpdateRequest.NodeID updateReq = Some row ->
  Reputation.Disqualified row = Some t ->
  exists changed,
    Update auditHistoryTracker db updateReq now wall
    = (db, UpdateOk (ReputationStatus.mk
                       (Reputation.Contained row)
                       (Reputation.Disqualified row)
                       (Reputation.UnknownAuditSuspended row)
                       (Reputation.OfflineSuspended row)
                       (Reputation.VettedAt row)) changed).
Proof.
  intros Hrow Hdq. eexists.
  rewrite (Update_disqualified_row _ db updateReq now wall row t Hrow Hdq).
  reflexivity.
Qed.

Lemma Update_disqualified_is_noop_witness :
  Fixture.disqualifiedTable !! 1%N = Some Fixture.disqualifiedRow
  /\ Reputation.Disqualified Fixture.disqualifiedRow = Some 50
  /\ exists changed,
       Update Fixture.onlineTracker Fixture.disqualifiedTable
         (Fixture.request AuditFailure) 100 100
       = (Fixture.disqualifiedTable,
          UpdateOk (ReputationStatus.mk true (Some 50) None None None)
            changed).
Proof.
  split; [reflexivity|]. split; [reflexivity|].
  apply (Update_disqualified_is_noop Fixture.onlineTracker
           Fixture.disqualifiedTable (Fixture.request AuditFailure) 100 100
           Fixture.disqualifiedRow 50); reflexivity.
Defined.

(** ** C2: a successful audit *)

(** C2, as stated, fails on a disqualified record: a [Success] update of the
    disqualified row of node 1 ([alpha = beta = 1], no audits, [lambda = 1],
    [weight = 1]) succeeds and leaves the row as it was, with
    [totalAuditCount] still 0 where the rule gives 1. *)
Lemma success_on_disqualified_counterexample :
  exists db' status changed row',
    UpdateRequest.AuditOutcome (Fixture.request AuditSuccess) = AuditSuccess
    /\ Update Fixture.onlineTracker Fixture.disqualifiedTable
         (Fixture.request AuditSuccess) 100 100
       = (db', UpdateOk status changed)
    /\ db' !! 1%N = Some row'
    /\ Reputation.TotalAuditCount row' = 0
    /\ ~ successRule (loadedRow Fixture.disqualifiedTable 1%N)
           (Fixture.request AuditSuccess) row'.
Proof.
  exists Fixture.disqualifiedTable,
    (getNodeStatus Fixture.disqualifiedRow), true, Fixture.disqualifiedRow.
  split; [reflexivity|]. split; [reflexivity|]. split; [reflexivity|].
  split; [reflexivity|].
  intros (_ & _ & _ & _ & Htotal & _). vm_compute in Htotal. discriminate.
Qed.

(** C2, amended.  For every successful [Update] call with outcome [Success]
    on a record that is not disqualified when the call starts, whose two
    counters are below the largest [int64], both pairs follow the rule with
    [v = +1] and both counters grow by exactly one. *)
Theorem success_updates_both_pairs
    (auditHistoryTracker :
       list Byte.byte -> Time -> bool -> AuditHistoryConfig.t ->
       option (list Byte.byte * UpdateAuditHistoryResponse.t))
    (db db' : gmap N Reputation.t) (updateReq : UpdateRequest.t)
    (now wall : Time) (status : ReputationStatus.t) (changed : bool) :
  let dbNode := loadedRow db (UpdateRequest.NodeID updateReq) in
  UpdateRequest.AuditOutcome updateReq = AuditSuccess ->
  Reputation.Disqualified dbNode = None ->
  Int64.min_int <= Reputation.TotalAuditCount dbNode < Int64.max_int ->
  Int64.min_int <= Reputation.AuditSuccessCount dbNode < Int64.max_int ->
  Update auditHistoryTracker db updateReq now wall
  = (db', UpdateOk status changed) ->
  exists row',
    db' !! UpdateRequest.NodeID updateReq = Some row'
    /\ successRule dbNode updateReq row'.
Proof.
  intros dbNode Hout Hdq Htotal Hcount Hupd.
  destruct (Update_ok_inv _ db db' updateReq now wall status changed Hdq Hupd)
    as (h & response & _ & Hrow & _ & _).
  eexists. split; [exact Hrow|].
  fold dbNode.
  pose proof (writtenRow_parameters dbNode updateReq h response now wall)
    as Hp.
  pose proof (writtenRow_AuditSuccessCount dbNode updateReq h response now
                wall) as Hc.
  unfold stepOne in Hp. rewrite Hout in Hp, Hc.
  cbn [auditOutcomeSwitch updateReputation AuditType_eqb] in Hp, Hc.
  destruct Hp as (Ha & Hb & Hua & Hub & Hn).
  unfold successRule. cbv zeta.
  rewrite Ha, Hb, Hua, Hub, Hn, Hc, !Int64_add_one by assumption.
  repeat split; reflexivity.
Qed.

(** Scenario A: a fresh record with [alpha = beta = 1] on both tracks,
    [auditWeight = 1] and [auditLambda = 1], after one [Success]. *)
Lemma success_updates_both_pairs_witness :
  exists row',
    fst (Update Fixture.onlineTracker Fixture.freshTable
           (Fixture.request AuditSuccess) 100 100) !! 1%N = Some row'
    /\ Reputation.AuditReputationAlpha row' = 2%float
    /\ Reputation.AuditReputationBeta row' = 1%float
    /\ Reputation.UnknownAuditReputationAlpha row' = 2%float
    /\ Reputation.UnknownAuditReputationBeta row' = 1%float
    /\ Reputation.TotalAuditCount row' = 1
    /\ Reputation.AuditSuccessCount row' = 1.
Proof.
  destruct (Update Fixture.onlineTracker Fixture.freshTable
              (Fixture.request AuditSuccess) 100 100) as [db' result] eqn:Hupd.
  assert (Hok : exists status changed, result = UpdateOk status changed).
  { vm_compute in Hupd. injection Hupd as _ <-. eauto. }
  destruct Hok as (status & changed & ->).
  destruct (success_updates_both_pairs Fixture.onlineTracker
              Fixture.freshTable db' (Fixture.request AuditSuccess) 100 100
              status changed)
    as (row' & Hrow & Ha & Hb & Hua & Hub & Hn & Hc).
  - reflexivity.
  - reflexivity.
  - vm_compute. split; [discriminate | reflexivity].
  - vm_compute. split; [discriminate | reflexivity].
  - exact Hupd.
  - exists row'. split; [exact Hrow|].
    repeat split; assumption.
Defined.

(** ** C3: positivity of the parameters *)

(** C3, as stated, fails on a record that was just lazily created: an
    [Offline] outcome for a node without a record succeeds and leaves the
    four parameters of the new record at zero. *)
Lemma zero_parameters_counterexample :
  exists db' status changed row',
    Update Fixture.onlineTracker ∅ (Fixture.request AuditOffline) 100 100
    = (db', UpdateOk status changed)
    /\ db' !! 1%N = Some row'
    /\ Reputation.AuditReputationAlpha row' = 0%float
    /\ Reputation.AuditReputationBeta row' = 0%float
    /\ Reputation.UnknownAuditReputationAlpha row' = 0%float
    /\ Reputation.UnknownAuditReputationBeta row' = 0%float
    /\ ~ positiveParameters row'.
Proof.
  eexists _, _, _, _. split; [vm_compute; reflexivity|].
  split; [vm_compute; reflexivity|].
  repeat (split; [reflexivity|]).
  intros [H _]. vm_compute in H. discriminate.
Qed.

(** One application of the rule keeps a positive parameter positive. *)
Lemma rule_keeps_positive (lambda x w k : float) :
  strictlyPositive (lambda * x) ->
  (0 <=? w)%float = true -> (w <? infinity)%float = true ->
  k = 0%float \/ k = 2%float ->
  strictlyPositive (lambda * x + w * k / 2).
Proof.
  intros Hx Hw Hfin Hk. apply Float64Facts.float_add_pos; [exact Hx|].
  apply Float64Facts.increment_nonneg; assumption.
Qed.

(** C3, amended.  For every successful [Update] call on a record whose four
    parameters are strictly positive before the call, with a weight that is
    non-negative and finite and a [lambda] under which the decayed parameters
    [lambda * x] are still strictly positive (so [lambda > 0], and no
    [float64] underflow), the four parameters are strictly positive after the
    call.  A record that was just lazily created has zero parameters and is
    not covered. *)
Theorem Update_keeps_parameters_positive
    (auditHistoryTracker :
       list Byte.byte -> Time -> bool -> AuditHistoryConfig.t ->
       option (list Byte.byte * UpdateAuditHistoryResponse.t))
    (db db' : gmap N Reputation.t) (updateReq : UpdateRequest.t)
    (now wall : Time) (status : ReputationStatus.t) (changed : bool) :
  let dbNode := loadedRow db (UpdateRequest.NodeID updateReq) in
  let lambda := UpdateRequest.AuditLambda updateReq in
  let w := UpdateRequest.AuditWeight updateReq in
  positiveParameters dbNode ->
  strictlyPositive (lambda * Reputation.AuditReputationAlpha dbNode) ->
  strictlyPositive (lambda * Reputation.AuditReputationBeta dbNode) ->
  strictlyPositive (lambda * Reputation.UnknownAuditReputationAlpha dbNode) ->
  strictlyPositive (lambda * Reputation.UnknownAuditReputationBeta dbNode) ->
  (0 <=? w)%float = true ->
  (w <? infinity)%float = true ->
  Update auditHistoryTracker db updateReq now wall
  = (db', UpdateOk status changed) ->
  exists row',
    db' !! UpdateRequest.NodeID updateReq = Some row'
    /\ positiveParameters row'.
Proof.
  intros dbNode lambda w Hpos Ha Hb Hc Hd Hw Hfin Hupd.
  destruct (Reputation.Disqualified dbNode) as [t|] eqn:Hdq.
  - (* disqualified: nothing is written *)
    assert (Hrow : db !! UpdateRequest.NodeID updateReq = Some dbNode).
    { subst dbNode. unfold loadedRow in *.
      destruct (db !! UpdateRequest.NodeID updateReq); [reflexivity|].
      discriminate. }
    rewrite (Update_disqualified_row _ db updateReq now wall dbNode t Hrow Hdq)
      in Hupd.
    injection Hupd as <- _ _. exists dbNode. split; assumption.
  - destruct (Update_ok_inv _ db db' updateReq now wall status changed Hdq
                Hupd) as (h & response & _ & Hrow & _ & _).
    eexists. split; [exact Hrow|]. fold dbNode.
    pose proof (writtenRow_parameters dbNode updateReq h response now wall)
      as Hp.
    unfold stepOne in Hp. fold lambda w in Hp.
    destruct Hpos as (Pa & Pb & Pc & Pd).
    unfold positiveParameters.
    destruct (UpdateRequest.AuditOutcome updateReq);
      cbn [auditOutcomeSwitch updateReputation] in Hp;
      destruct Hp as (-> & -> & -> & -> & _);
      repeat split; try assumption;
      apply rule_keeps_positive; try assumption;
      first [left; reflexivity | right; reflexivity].
Qed.

(** An audit failure on the fresh record of node 1: [lambda = 1],
    [weight = 1], parameters 1. *)
Lemma Update_keeps_parameters_positive_witness :
  positiveParameters (loadedRow Fixture.freshTable 1%N)
  /\ exists row',
       fst (Update Fixture.onlineTracker Fixture.freshTable
              (Fixture.request AuditFailure) 100 100) !! 1%N = Some row'
       /\ positiveParameters row'.
Proof.
  split; [repeat split; reflexivity|].
  destruct (Update Fixture.onlineTracker Fixture.freshTable
              (Fixture.request AuditFailure) 100 100) as [db' result] eqn:Hupd.
  assert (Hok : exists status changed, result = UpdateOk status changed).
  { vm_compute in Hupd. injection Hupd as _ <-. eauto. }
  destruct Hok as (status & changed & ->).
  apply (Update_keeps_parameters_positive Fixture.onlineTracker
           Fixture.freshTable db' (Fixture.request AuditFailure) 100 100
           status changed);
    first [exact Hupd | repeat split; reflexivity].
Defined.

(** ** C4: the [changed] flag *)

(** On a row that is not disqualified, [changed] tells whether the status
    after the call differs from the status before it. *)
Lemma Update_changed_active
    (auditHistoryTracker :
       list Byte.byte -> Time -> bool -> AuditHistoryConfig.t ->
       option (list Byte.byte * UpdateAuditHistoryResponse.t))
    (db db' : gmap N Reputation.t) (updateReq : UpdateRequest.t)
    (now wall : Time) (status : ReputationStatus.t) (changed : bool) :
  let dbNode := loadedRow db (UpdateRequest.NodeID updateReq) in
  Reputation.Disqualified dbNode = None ->
  Update auditHistoryTracker db updateReq now wall
  = (db', UpdateOk status changed) ->
  (changed = true <-> status <> getNodeStatus dbNode).
Proof.
  intros dbNode Hdq Hupd.
  destruct (Update_ok_inv _ db db' updateReq now wall status changed Hdq Hupd)
    as (h & response & _ & _ & -> & ->).
  fold dbNode. rewrite negb_true_iff, <- not_true_iff_false, Equal_eq.
  split; intros H Heq; apply H; congruence.
Qed.

(** On a disqualified row the status is returned as it was, and [changed] is
    nevertheless [true]: [oldStatus] is still the zero value, whose
    [Disqualified] is nil. *)
Lemma Update_changed_disqualified
    (auditHistoryTracker :
       list Byte.byte -> Time -> bool -> AuditHistoryConfig.t ->
       option (list Byte.byte * UpdateAuditHistoryResponse.t))
    (db : gmap N Reputation.t) (updateReq : UpdateRequest.t)
    (now wall : Time) (row : Reputation.t) (t : Time) :
  db !! UpdateRequest.NodeID updateReq = Some row ->
  Reputation.Disqualified row = Some t ->
  Update auditHistoryTracker db updateReq now wall
  = (db, UpdateOk (getNodeStatus row) true).
Proof.
  intros Hrow Hdq.
  rewrite (Update_disqualified_row _ db updateReq now wall row t Hrow Hdq).
  unfold ReputationStatus.Equal, getNodeStatus. simpl. rewrite Hdq. simpl.
  rewrite andb_false_r. reflexivity.
Qed.

(** C4, at a failing input.  The row of node 1 is disqualified (at time 50)
    and an audit failure is reported at time 100: the call returns the status
    of the row unchanged — the table is the one before the call — and yet
    [changed = true], where C4 has [changed = false]. *)
Theorem changed_is_true_on_disqualified_row :
  Fixture.disqualifiedTable !! 1%N = Some Fixture.disqualifiedRow
  /\ Update Fixture.onlineTracker Fixture.disqualifiedTable
       (Fixture.request AuditFailure) 100 100
     = (Fixture.disqualifiedTable,
        UpdateOk (getNodeStatus Fixture.disqualifiedRow) true).
Proof. split; reflexivity. Qed.

(** ** C5: disqualification after the suspension grace period *)

(** What the code does: when the unknown-audit score is at or below the
    threshold, the outcome is not [Success], the node was suspended at
    [suspendedAt] before the call, suspension disqualification is on, and the
    time since [suspendedAt] {e on the wall clock} exceeds the grace period,
    the node is disqualified at [now] and its suspension is cleared. *)
Lemma grace_period_disqualification_on_wall_clock
    (auditHistoryTracker :
       list Byte.byte -> Time -> bool -> AuditHistoryConfig.t ->
       option (list Byte.byte * UpdateAuditHistoryResponse.t))
    (db db' : gmap N Reputation.t) (updateReq : UpdateRequest.t)
    (now wall suspendedAt : Time) (status : ReputationStatus.t)
    (changed : bool) :
  let dbNode := loadedRow db (UpdateRequest.NodeID updateReq) in
  Reputation.Disqualified dbNode = None ->
  unknownAuditLow dbNode updateReq = true ->
  UpdateRequest.AuditOutcome updateReq <> AuditSuccess ->
  Reputation.UnknownAuditSuspended dbNode = Some suspendedAt ->
  Since wall suspendedAt > UpdateRequest.SuspensionGracePeriod updateReq ->
  UpdateRequest.SuspensionDQEnabled updateReq = true ->
  Update auditHistoryTracker db updateReq now wall
  = (db', UpdateOk status changed) ->
  exists row',
    db' !! UpdateRequest.NodeID updateReq = Some row'
    /\ Reputation.Disqualified row' = Some now
    /\ Reputation.UnknownAuditSuspended row' = None.
Proof.
  intros dbNode Hdq Hlow Hout Hsusp Hgrace Hen Hupd.
  destruct (Update_ok_inv _ db db' updateReq now wall status changed Hdq Hupd)
    as (h & response & _ & Hrow & _ & _).
  eexists. split; [exact Hrow|]. fold dbNode.
  assert (HB : suspensionGraceDQ dbNode updateReq wall = true).
  { unfold suspensionGraceDQ. rewrite Hlow, Hsusp, Hen.
    replace (UpdateRequest.SuspensionGracePeriod updateReq
               <? Since wall suspendedAt) with true
      by (symmetry; apply Z.ltb_lt; lia).
    destruct (UpdateRequest.AuditOutcome updateReq);
      [congruence | reflexivity ..]. }
  rewrite writtenRow_Disqualified, writtenRow_UnknownAuditSuspended.
  rewrite HB, Hlow, Hsusp, orb_true_r. split; reflexivity.
Qed.

(** So C5 holds of every call whose [now] is not ahead of the wall clock. *)
Lemma grace_period_disqualification_clock_not_behind
    (auditHistoryTracker :
       list Byte.byte -> Time -> bool -> AuditHistoryConfig.t ->
       option (list Byte.byte * UpdateAuditHistoryResponse.t))
    (db db' : gmap N Reputation.t) (updateReq : UpdateRequest.t)
    (now wall suspendedAt : Time) (status : ReputationStatus.t)
    (changed : bool) :
  let dbNode := loadedRow db (UpdateRequest.NodeID updateReq) in
  now <= wall ->
  Reputation.Disqualified dbNode = None ->
  unknownAuditLow dbNode updateReq = true ->
  UpdateRequest.AuditOutcome updateReq <> AuditSuccess ->
  Reputation.UnknownAuditSuspended dbNode = Some suspendedAt ->
  Sub now suspendedAt > UpdateRequest.SuspensionGracePeriod updateReq ->
  UpdateRequest.SuspensionDQEnabled updateReq = true ->
  Update auditHistoryTracker db updateReq now wall
  = (db', UpdateOk status changed) ->
  exists row',
    db' !! UpdateRequest.NodeID updateReq = Some row'
    /\ Reputation.Disqualified row' = Some now
    /\ Reputation.UnknownAuditSuspended row' = None.
Proof.
  intros dbNode Hclock Hdq Hlow Hout Hsusp Hgrace Hen Hupd.
  apply (grace_period_disqualification_on_wall_clock auditHistoryTracker db
           db' updateReq now wall suspendedAt status changed); auto.
  pose proof (Sub_monotone now wall suspendedAt Hclock). unfold Since. lia.
Qed.

(** C5, at a failing input.  An audit failure of the suspended node is
    reported with [now] 100 hours after the suspension while the wall clock
    stands 40 hours after it; the grace period is 48 hours and suspension
    disqualification is on.  Every premise of C5 holds — [now] minus the
    suspension time exceeds the grace period — and yet the node is not
    disqualified and stays suspended: line 2076 measures the grace period
    with [time.Since], on the wall clock, not from [now]. *)
Theorem grace_period_measured_on_wall_clock :
  let updateReq := Fixture.request AuditFailure in
  let now := 1100 * Hour in
  let wall := 1040 * Hour in
  let dbNode := loadedRow Fixture.suspendedTable 1%N in
  Reputation.Disqualified dbNode = None
  /\ unknownAuditLow dbNode updateReq = true
  /\ UpdateRequest.AuditOutcome updateReq <> AuditSuccess
  /\ Reputation.UnknownAuditSuspended dbNode = Some (1000 * Hour)
  /\ Sub now (1000 * Hour) > UpdateRequest.SuspensionGracePeriod updateReq
  /\ UpdateRequest.SuspensionDQEnabled updateReq = true
  /\ exists db' status changed row',
       Update Fixture.onlineTracker Fixture.suspendedTable updateReq now wall
       = (db', UpdateOk status changed)
       /\ db' !! 1%N = Some row'
       /\ Reputation.Disqualified row' = None
       /\ Reputation.UnknownAuditSuspended row' = Some (1000 * Hour).
Proof.
  cbv zeta.
  split; [reflexivity|]. split; [reflexivity|]. split; [discriminate|].
  split; [reflexivity|]. split; [reflexivity|]. split; [reflexivity|].
  eexists _, _, _, _. split; [vm_compute; reflexivity|].
  split; [vm_compute; reflexivity|]. split; reflexivity.
Qed.

(** ** C6: containment *)

(** C6, as stated, fails on a disqualified record: the row of node 1 is
    contained and disqualified; an update succeeds, and the row and the
    status returned are still contained. *)
Lemma contained_kept_on_disqualified_counterexample :
  exists db' status changed row',
    Update Fixture.onlineTracker Fixture.disqualifiedTable
      (Fixture.request AuditSuccess) 100 100
    = (db', UpdateOk status changed)
    /\ db' !! 1%N = Some row'
    /\ Reputation.Contained row' = true
    /\ ReputationStatus.Contained status = true.
Proof.
  exists Fixture.disqualifiedTable,
    (getNodeStatus Fixture.disqualifiedRow), true, Fixture.disqualifiedRow.
  repeat split; reflexivity.
Qed.

(** C6, amended.  After every successful [Update] call on a record that is
    not disqualified when the call starts, whatever the outcome and whatever
    is decided in the call, the record's [contained] flag is false, in the
    table and in the status returned. *)
Theorem Update_clears_contained
    (auditHistoryTracker :
       list Byte.byte -> Time -> bool -> AuditHistoryConfig.t ->
       option (list Byte.byte * UpdateAuditHistoryResponse.t))
    (db db' : gmap N Reputation.t) (updateReq : UpdateRequest.t)
    (now wall : Time) (status : ReputationStatus.t) (changed : bool) :
  Reputation.Disqualified (loadedRow db (UpdateRequest.NodeID updateReq))
  = None ->
  Update auditHistoryTracker db updateReq now wall
  = (db', UpdateOk status changed) ->
  ReputationStatus.Contained status = false
  /\ exists row',
       db' !! UpdateRequest.NodeID updateReq = Some row'
       /\ Reputation.Contained row' = false.
Proof.
  intros Hdq Hupd.
  destruct (Update_ok_inv _ db db' updateReq now wall status changed Hdq Hupd)
    as (h & response & _ & Hrow & -> & _).
  split.
  - apply writtenRow_Contained.
  - eexists. split; [exact Hrow|]. apply writtenRow_Contained.
Qed.

Lemma Update_clears_contained_witness :
  Reputation.Disqualified (loadedRow Fixture.freshTable 1%N) = None
  /\ exists row',
       fst (Update Fixture.onlineTracker Fixture.freshTable
              (Fixture.request AuditUnknown) 100 100) !! 1%N = Some row'
       /\ Reputation.Contained row' = false.
Proof.
  split; [reflexivity|].
  destruct (Update Fixture.onlineTracker Fixture.freshTable
              (Fixture.request AuditUnknown) 100 100) as [db' result] eqn:Hupd.
  assert (Hok : exists status changed, result = UpdateOk status changed).
  { vm_compute in Hupd. injection Hupd as _ <-. eauto. }
  destruct Hok as (status & changed & ->).
  apply (Update_clears_contained Fixture.onlineTracker Fixture.freshTable db'
           (Fixture.request AuditUnknown) 100 100 status changed).
  - reflexivity.
  - exact Hupd.
Defined.

(** ** C7: vetting *)

(** C7.  For every successful [Update] call on a record that is not yet
    disqualified: if [vettedAt] was unset and the updated [totalAuditCount]
    is at least [auditsRequiredForVetting], then [vettedAt] is [now]; in
    every other case [vettedAt] is as before the call. *)
Theorem Update_vetting
    (auditHistoryTracker :
       list Byte.byte -> Time -> bool -> AuditHistoryConfig.t ->
       option (list Byte.byte * UpdateAuditHistoryResponse.t))
    (db db' : gmap N Reputation.t) (updateReq : UpdateRequest.t)
    (now wall : Time) (status : ReputationStatus.t) (changed : bool) :
  let dbNode := loadedRow db (UpdateRequest.NodeID updateReq) in
  Reputation.Disqualified dbNode = None ->
  Update auditHistoryTracker db updateReq now wall
  = (db', UpdateOk status changed) ->
  exists row',
    db' !! UpdateRequest.NodeID updateReq = Some row'
    /\ ReputationStatus.VettedAt status = Reputation.VettedAt row'
    /\ (Reputation.VettedAt dbNode = None ->
        Reputation.TotalAuditCount row'
        >= UpdateRequest.AuditsRequiredForVetting updateReq ->
        Reputation.VettedAt row' = Some now)
    /\ (Reputation.VettedAt dbNode <> None
        \/ Reputation.TotalAuditCount row'
           < UpdateRequest.AuditsRequiredForVetting updateReq ->
        Reputation.VettedAt row' = Reputation.VettedAt dbNode).
Proof.
  intros dbNode Hdq Hupd.
  destruct (Update_ok_inv _ db db' updateReq now wall status changed Hdq Hupd)
    as (h & response & _ & Hrow & -> & _).
  eexists. split; [exact Hrow|]. split; [reflexivity|].
  fold dbNode.
  pose proof (writtenRow_parameters dbNode updateReq h response now wall)
    as Hp.
  pose proof (writtenRow_VettedAt dbNode updateReq h response now wall) as Hv.
  destruct (stepOne dbNode updateReq) as [[[[a b] c] d] n].
  destruct Hp as (_ & _ & _ & _ & Hn).
  rewrite Hv, Hn. unfold is_set. split.
  - intros Hnone Hge. rewrite Hnone. simpl.
    destruct (Z.geb_spec n (UpdateRequest.AuditsRequiredForVetting updateReq));
      [reflexivity | lia].
  - intros [Hset | Hlt].
    + destruct (Reputation.VettedAt dbNode); [reflexivity | congruence].
    + destruct (Z.geb_spec n
                  (UpdateRequest.AuditsRequiredForVetting updateReq));
        [lia | rewrite andb_false_r; reflexivity].
Qed.

Lemma Update_vetting_witness :
  Reputation.Disqualified (loadedRow Fixture.almostVettedTable 1%N) = None
  /\ exists row',
       fst (Update Fixture.onlineTracker Fixture.almostVettedTable
              (Fixture.request AuditFailure) 100 100) !! 1%N = Some row'
       /\ Reputation.TotalAuditCount row' = 100
       /\ Reputation.VettedAt row' = Some 100.
Proof.
  split; [reflexivity|].
  destruct (Update Fixture.onlineTracker Fixture.almostVettedTable
              (Fixture.request AuditFailure) 100 100)
    as [db' result] eqn:Hupd.
  assert (Hok : exists status changed, result = UpdateOk status changed).
  { vm_compute in Hupd. injection Hupd as _ <-. eauto. }
  destruct Hok as (status & changed & ->).
  destruct (Update_vetting Fixture.onlineTracker Fixture.almostVettedTable db'
              (Fixture.request AuditFailure) 100 100 status changed)
    as (row' & Hrow & _ & Hvet & _).
  - reflexivity.
  - exact Hupd.
  - exists row'. split; [exact Hrow|].
    assert (Hn : Reputation.TotalAuditCount row' = 100).
    { vm_compute in Hupd. injection Hupd as <- _.
      vm_compute in Hrow. injection Hrow as <-. reflexivity. }
    split; [exact Hn|].
    apply Hvet; [reflexivity|]. rewrite Hn. vm_compute. discriminate.
Defined.

(** ** C8: the scores of a row with zero parameters *)

(** C8.  There is an input [Update] can receive - an [Offline] outcome for a
    node without a record - on which the four parameters the call works on
    and stores are zero: [auditAlpha + auditBeta] and
    [unknownAuditAlpha + unknownAuditBeta] are both zero and each score is
    the [float64] quotient [0 / 0], a NaN, which no test accepts, so that
    the node is neither disqualified nor suspended.

    The divisions are performed whatever the sums are.  On every call that
    writes a record, with [a], [b], [c], [d] the parameters written: the
    record is disqualified at [now] whenever [a / (a + b)] is at or below
    the threshold, and a node that was not suspended is suspended at [now]
    exactly when [c / (c + d)] is.  Nothing is asked of [a + b] or [c + d]:
    on a row whose parameters cancel to the same zero sums the quotients are
    [-1 / 0], and the call disqualifies and suspends the node. *)
Theorem zero_denominators_unguarded :
  (exists (db : gmap N Reputation.t) (updateReq : UpdateRequest.t)
          (now wall : Time),
      db !! UpdateRequest.NodeID updateReq = None
      /\ UpdateRequest.AuditOutcome updateReq = AuditOffline
      /\ exists db' status changed row',
           Update Fixture.onlineTracker db updateReq now wall
           = (db', UpdateOk status changed)
           /\ db' !! UpdateRequest.NodeID updateReq = Some row'
           /\ let a := Reputation.AuditReputationAlpha row' in
              let b := Reputation.AuditReputationBeta row' in
              let c := Reputation.UnknownAuditReputationAlpha row' in
              let d := Reputation.UnknownAuditReputationBeta row' in
              (a, b, c, d) = (0%float, 0%float, 0%float, 0%float)
              /\ (a + b)%float = 0%float
              /\ (c + d)%float = 0%float
              /\ is_nan (reputationScore a b) = true
              /\ is_nan (reputationScore c d) = true
              /\ Reputation.Disqualified row' = None
              /\ Reputation.UnknownAuditSuspended row' = None)
  /\ (forall (auditHistoryTracker :
                list Byte.byte -> Time -> bool -> AuditHistoryConfig.t ->
                option (list Byte.byte * UpdateAuditHistoryResponse.t))
             (db db' : gmap N Reputation.t) (updateReq : UpdateRequest.t)
             (now wall : Time) (status : ReputationStatus.t)
             (changed : bool) (row' : Reputation.t),
         let dbNode := loadedRow db (UpdateRequest.NodeID updateReq) in
         Reputation.Disqualified dbNode = None ->
         Update auditHistoryTracker db updateReq now wall
         = (db', UpdateOk status changed) ->
         db' !! UpdateRequest.NodeID updateReq = Some row' ->
         let a := Reputation.AuditReputationAlpha row' in
         let b := Reputation.AuditReputationBeta row' in
         let c := Reputation.UnknownAuditReputationAlpha row' in
         let d := Reputation.UnknownAuditReputationBeta row' in
         ((a / (a + b) <=? UpdateRequest.AuditDQ updateReq)%float = true ->
          Reputation.Disqualified row' = Some now)
         /\ (Reputation.UnknownAuditSuspended dbNode = None ->
             Reputation.UnknownAuditSuspended row'
             = if (c / (c + d) <=? UpdateRequest.AuditDQ updateReq)%float
               then Some now
               else None))
  /\ (exists db' status changed row',
        Update Fixture.onlineTracker cancellingTable
          (Fixture.request AuditOffline) 100 100
        = (db', UpdateOk status changed)
        /\ db' !! 1%N = Some row'
        /\ let a := Reputation.AuditReputationAlpha row' in
           let b := Reputation.AuditReputationBeta row' in
           let c := Reputation.UnknownAuditReputationAlpha row' in
           let d := Reputation.UnknownAuditReputationBeta row' in
           (a + b)%float = 0%float
           /\ (c + d)%float = 0%float
           /\ reputationScore a b = neg_infinity
           /\ reputationScore c d = neg_infinity
           /\ Reputation.Disqualified row' = Some 100
           /\ Reputation.UnknownAuditSuspended row' = Some 100).
Proof.
  split; [|split].
  - exists ∅, (Fixture.request AuditOffline), 100, 100.
    split; [reflexivity|]. split; [reflexivity|].
    eexists _, _, _, _. split; [vm_compute; reflexivity|].
    split; [vm_compute; reflexivity|].
    cbv zeta. repeat split; reflexivity.
  - intros auditHistoryTracker db db' updateReq now wall status changed row'
      dbNode Hdq Hupd Hrow.
    destruct (Update_ok_inv auditHistoryTracker db db' updateReq now wall
                status changed Hdq Hupd)
      as (h & response & _ & Hwritten & _).
    cbv zeta in Hwritten. rewrite Hrow in Hwritten.
    injection Hwritten as ->. fold dbNode.
    pose proof (writtenRow_parameters dbNode updateReq h response now wall)
      as Hp.
    pose proof (writtenRow_Disqualified dbNode updateReq h response now wall)
      as Hd.
    pose proof (writtenRow_UnknownAuditSuspended dbNode updateReq h response
                  now wall) as Hu.
    cbv zeta in Hd, Hu |- *.
    unfold auditFailureDQ in Hd. unfold unknownAuditLow at 1 in Hu.
    destruct (stepOne dbNode updateReq) as [[[[a b] c] d] n].
    destruct Hp as (-> & -> & -> & -> & _).
    unfold reputationScore in Hd, Hu. split.
    + intros Hle. rewrite Hd, Hle. reflexivity.
    + intros Hnone. rewrite Hu, Hnone.
      destruct (c / (c + d) <=? UpdateRequest.AuditDQ updateReq)%float;
        reflexivity.
  - eexists _, _, _, _. split; [vm_compute; reflexivity|].
    split; [vm_compute; reflexivity|].
    cbv zeta. repeat split; reflexivity.
Qed.

(** ** C9: a review that has run its length, with offline disqualification
    off *)





(** ** C10: unsuspending a node without a record *)

(** C10.  For every node with no reputation record,
    [UnsuspendNodeUnknownAudit] returns no error: it leaves a zero-value
    record for the node, with an empty audit history and
    [unknownAuditSuspended] null, and no other row is touched. *)
Theorem Unsuspend_creates_missing_record (db : gmap N Reputation.t)
    (nodeID : N) :
  db !! nodeID = None ->
  exists db',
    UnsuspendNodeUnknownAudit db nodeID = (db', None)
    /\ db' !! nodeID
       = Some (Reputation.mk nodeID 0 0 None false None None None None None
                 0%float [] 0%float 0%float 0%float 0%float)
    /\ forall j, j <> nodeID -> db' !! j = db !! j.
Proof.
  intros Hnone.
  unfold UnsuspendNodeUnknownAudit, getOrInsert, Get_Reputation_By_Id.
  rewrite Hnone. cbv zeta.
  unfold Update_Reputation_By_Id, insertReputation.
  rewrite lookup_insert_eq.
  eexists. split; [reflexivity|]. split.
  - rewrite lookup_insert_eq. reflexivity.
  - intros j Hj. rewrite !lookup_insert_ne by congruence. reflexivity.
Qed.

Lemma Unsuspend_creates_missing_record_witness :
  Fixture.freshTable !! 7%N = None
  /\ exists db',
       UnsuspendNodeUnknownAudit Fixture.freshTable 7%N = (db', None)
       /\ db' !! 7%N
          = Some (Reputation.mk 7%N 0 0 None false None None None None None
                    0%float [] 0%float 0%float 0%float 0%float)
       /\ forall j, j <> 7%N -> db' !! j = Fixture.freshTable !! j.
Proof.
  split; [reflexivity|].
  apply (Unsuspend_creates_missing_record Fixture.freshTable 7%N).
  reflexivity.
Defined.

(** * Further properties of the reputation code *)

(** ** [Update]: errors, frame and the status returned *)

Section UpdateMore.

Variable auditHistoryTracker :
  list Byte.byte -> Time -> bool -> AuditHistoryConfig.t ->
  option (list Byte.byte * UpdateAuditHistoryResponse.t).

(** Only a row in the table can be disqualified: the row inserted for a
    missing node is not. *)
Lemma loadedRow_disqualified (db : gmap N Reputation.t) (id : N) (t : Time) :
  Reputation.Disqualified (loadedRow db id) = Some t ->
  db !! id = Some (loadedRow db id).
Proof.
  unfold loadedRow. destruct (db !! id); [reflexivity | discriminate].
Qed.

(** A successful call wrote nothing on a disqualified row, and [writtenRow]
    otherwise. *)
Lemma Update_ok_cases (db db' : gmap N Reputation.t)
    (updateReq : UpdateRequest.t) (now wall : Time)
    (status : ReputationStatus.t) (changed : bool) :
  let id := UpdateRequest.NodeID updateReq in
  let dbNode := loadedRow db id in
  Update auditHistoryTracker db updateReq now wall
  = (db', UpdateOk status changed) ->
  (exists t, Reputation.Disqualified dbNode = Some t
             /\ db' = db /\ db !! id = Some dbNode
             /\ status = getNodeStatus dbNode)
  \/ (Reputation.Disqualified dbNode = None
      /\ exists h response,
           auditHistoryTracker (Reputation.AuditHistory dbNode) now
             (isUp updateReq) (UpdateRequest.AuditHistory updateReq)
           = Some (h, response)
           /\ db' !! id = Some (writtenRow dbNode updateReq h response now wall)
           /\ status
              = getNodeStatus (writtenRow dbNode updateReq h response now wall)).
Proof.
  intros id dbNode Hupd.
  destruct (Reputation.Disqualified dbNode) as [t|] eqn:Hdq.
  - left. exists t. split; [reflexivity|].
    pose proof (loadedRow_disqualified db id t Hdq) as Hrow.
    rewrite (Update_disqualified_row _ db updateReq now wall _ t Hrow Hdq)
      in Hupd.
    injection Hupd as <- <- _. auto.
  - right. split; [reflexivity|].
    destruct (Update_ok_inv _ db db' updateReq now wall status changed Hdq Hupd)
      as (h & response & Htr & Hrow & Hst & _).
    exists h, response. auto.
Qed.

(** The table after a call, in the three ways a call can go. *)
Lemma Update_table_cases (db : gmap N Reputation.t)
    (updateReq : UpdateRequest.t) (now wall : Time) :
  let id := UpdateRequest.NodeID updateReq in
  let dbNode := loadedRow db id in
  let db' := fst (Update auditHistoryTracker db updateReq now wall) in
  db' = db
  \/ (Reputation.Disqualified dbNode = None
      /\ (forall j, j <> id -> db' !! j = db !! j)
      /\ exists h response,
           db' !! id = Some (writtenRow dbNode updateReq h response now wall)).
Proof.
  intros id dbNode db'. subst db'.
  destruct (Reputation.Disqualified dbNode) as [t|] eqn:Hdq.
  - left.
    pose proof (loadedRow_disqualified db id t Hdq) as Hrow.
    rewrite (Update_disqualified_row _ db updateReq now wall _ t Hrow Hdq).
    reflexivity.
  - pose proof (Update_active_row auditHistoryTracker db updateReq now wall
                  Hdq) as Hact.
    destruct (auditHistoryTracker _ _ _ _) as [[h response]|].
    + right. destruct Hact as (db' & -> & Hrow & Hother).
      split; [reflexivity|]. split; [exact Hother|]. eauto.
    + left. rewrite Hact. reflexivity.
Qed.

(** X1.  When the tracker cannot decode the history of a node that is not
    disqualified, [Update] returns the error and the table is exactly as
    before the call: the transaction is rolled back, and with it the row
    that was inserted for a node without a record. *)
Theorem Update_tracker_failure_writes_nothing (db : gmap N Reputation.t)
    (updateReq : UpdateRequest.t) (now wall : Time) :
  let dbNode := loadedRow db (UpdateRequest.NodeID updateReq) in
  Reputation.Disqualified dbNode = None ->
  auditHistoryTracker (Reputation.AuditHistory dbNode) now (isUp updateReq)
    (UpdateRequest.AuditHistory updateReq) = None ->
  Update auditHistoryTracker db updateReq now wall
  = (db, UpdateErr ErrAuditHistory).
Proof.
  intros dbNode Hdq Htr.
  pose proof (Update_active_row auditHistoryTracker db updateReq now wall Hdq)
    as Hact.
  fold dbNode in Hact. rewrite Htr in Hact. exact Hact.
Qed.

Lemma Update_other_rows (db : gmap N Reputation.t)
    (updateReq : UpdateRequest.t) (now wall : Time) (j : N) :
  j <> UpdateRequest.NodeID updateReq ->
  fst (Update auditHistoryTracker db updateReq now wall) !! j = db !! j.
Proof.
  intros Hj.
  destruct (Update_table_cases db updateReq now wall)
    as [-> | (_ & Hother & _)]; [reflexivity|].
  apply Hother, Hj.
Qed.

(** X2.  [Update] touches no row but the row of the node of the request,
    whether it succeeds or fails. *)
Theorem Update_touches_one_row (db : gmap N Reputation.t)
    (updateReq : UpdateRequest.t) (now wall : Time) (j : N) :
  j <> UpdateRequest.NodeID updateReq ->
  fst (Update auditHistoryTracker db updateReq now wall) !! j = db !! j.
Proof. intros Hj. apply Update_other_rows, Hj. Qed.

(** X3.  The status a successful [Update] returns is the projection of the
    row the table holds for the node after the call, on a disqualified
    record as on any other. *)
Theorem Update_returns_stored_status (db db' : gmap N Reputation.t)
    (updateReq : UpdateRequest.t) (now wall : Time)
    (status : ReputationStatus.t) (changed : bool) :
  Update auditHistoryTracker db updateReq now wall
  = (db', UpdateOk status changed) ->
  exists row',
    db' !! UpdateRequest.NodeID updateReq = Some row'
    /\ status
       = ReputationStatus.mk (Reputation.Contained row')
           (Reputation.Disqualified row')
           (Reputation.UnknownAuditSuspended row')
           (Reputation.OfflineSuspended row')
           (Reputation.VettedAt row').
Proof.
  intros Hupd.
  destruct (Update_ok_cases db db' updateReq now wall status changed Hupd)
    as [(t & _ & -> & Hrow & ->) | (_ & h & response & _ & Hrow & ->)];
    eexists; split; try eassumption; reflexivity.
Qed.

End UpdateMore.

Lemma Update_tracker_failure_writes_nothing_witness :
  Reputation.Disqualified (loadedRow ∅ 1%N) = None
  /\ Update Sample.failingTracker ∅ (Fixture.request AuditSuccess) 100 100
     = (∅, UpdateErr ErrAuditHistory).
Proof.
  split; [reflexivity|].
  apply (Update_tracker_failure_writes_nothing Sample.failingTracker ∅
           (Fixture.request AuditSuccess) 100 100); reflexivity.
Defined.

Lemma Update_touches_one_row_witness :
  fst (Update Fixture.onlineTracker Sample.vettedTable
         (UpdateRequest.mk 2%N AuditSuccess 1%float 1%float 0.5%float
            (48 * Hour) true 100 Fixture.historyConfig) 100 100) !! 1%N
  = Sample.vettedTable !! 1%N.
Proof.
  apply (Update_touches_one_row Fixture.onlineTracker Sample.vettedTable
           (UpdateRequest.mk 2%N AuditSuccess 1%float 1%float 0.5%float
              (48 * Hour) true 100 Fixture.historyConfig) 100 100 1%N).
  discriminate.
Defined.

Lemma Update_returns_stored_status_witness :
  exists row',
    fst (Update Fixture.onlineTracker Fixture.disqualifiedTable
           (Fixture.request AuditSuccess) 100 100) !! 1%N = Some row'
    /\ getNodeStatus Fixture.disqualifiedRow
       = ReputationStatus.mk (Reputation.Contained row')
           (Reputation.Disqualified row')
           (Reputation.UnknownAuditSuspended row')
           (Reputation.OfflineSuspended row')
           (Reputation.VettedAt row').
Proof.
  apply (Update_returns_stored_status Fixture.onlineTracker
           Fixture.disqualifiedTable
           (fst (Update Fixture.onlineTracker Fixture.disqualifiedTable
                   (Fixture.request AuditSuccess) 100 100))
           (Fixture.request AuditSuccess) 100 100
           (getNodeStatus Fixture.disqualifiedRow) true).
  reflexivity.
Defined.

(** ** [Update]: what a call writes on a record that is not disqualified *)

Section WrittenMore.

Variables (dbNode : Reputation.t) (updateReq : UpdateRequest.t)
  (h : list Byte.byte) (response : UpdateAuditHistoryResponse.t)
  (now wall : Time).

Let row' := writtenRow dbNode updateReq h response now wall.

(** The columns [Update] takes from the tracker, and the columns it leaves. *)
Lemma writtenRow_tracker_columns :
  Reputation.OnlineScore row' = UpdateAuditHistoryResponse.NewScore response
  /\ Reputation.AuditHistory row' = h
  /\ Reputation.Suspended row' = Reputation.Suspended dbNode
  /\ Reputation.Id row' = Reputation.Id dbNode.
Proof.
  pose proof (stats_fixedFields dbNode updateReq response now wall) as Hf.
  destruct (stepOne dbNode updateReq) as [[[[a b] c] d] n].
  unfold fixedFields in Hf. injection Hf as _ _ _ _ _ _ Hs.
  unfold row', writtenRow, applyUpdateFields, populateUpdateFields.
  cbv zeta.
  cbn [Reputation.OnlineScore Reputation.AuditHistory Reputation.Suspended
       Reputation.Id Reputation_Update_Fields.OnlineScore setAuditHistory].
  rewrite Hs. repeat split; reflexivity.
Qed.

Lemma writtenRow_offline_fields :
  Reputation.UnderReview row' = underReviewAfter dbNode updateReq response now
  /\ Reputation.OfflineSuspended row'
     = offlineSuspendedAfter dbNode updateReq response now.
Proof.
  unfold row', writtenRow, applyUpdateFields, populateUpdateFields. cbv zeta.
  cbn [Reputation.UnderReview Reputation.OfflineSuspended setAuditHistory
       Reputation_Update_Fields.UnderReview
       Reputation_Update_Fields.OfflineSuspended].
  rewrite populateUpdateNodeStats_steps.
  destruct (stepOne dbNode updateReq) as [[[[a b] c] d] n].
  set (u := contactStep _ _ _ _).
  assert (Hu : updateNodeStats.OfflineSuspended u = timeField_zero
               /\ updateNodeStats.OfflineUnderReview u = timeField_zero).
  { subst u.
    destruct (early_steps_offline_fields dbNode updateReq now wall a b c d n
                (initialStats updateReq response a b c d n)) as [-> ->].
    split; reflexivity. }
  destruct Hu as [Hos Hur]. clearbody u.
  unfold underReviewAfter, offlineSuspendedAfter, trackingPeriodPassed,
    penalizeOfflineNode, offlineStep. cbv zeta.
  destruct u. cbn in Hos, Hur. subst.
  destruct (AuditHistoryConfig.OfflineSuspensionEnabled
              (UpdateRequest.AuditHistory updateReq));
    destruct (Reputation.UnderReview dbNode) as [ur|];
    destruct (Reputation.OfflineSuspended dbNode) as [os|];
    destruct ((UpdateAuditHistoryResponse.NewScore response <?
               AuditHistoryConfig.OfflineThreshold
                 (UpdateRequest.AuditHistory updateReq))%float);
    destruct (UpdateAuditHistoryResponse.TrackingPeriodFull response);
    cbn;
    try destruct (After now _);
    try destruct (AuditHistoryConfig.OfflineDQEnabled
                    (UpdateRequest.AuditHistory updateReq));
    split; reflexivity.
Qed.

End WrittenMore.

Section UpdateWrites.

Variable auditHistoryTracker :
  list Byte.byte -> Time -> bool -> AuditHistoryConfig.t ->
  option (list Byte.byte * UpdateAuditHistoryResponse.t).


(** X5.  On a record that is not disqualified, a [Failure] applies the rule
    with [v = -1] to the audit pair and leaves the unknown-audit pair, an
    [Unknown] does the converse, and an [Offline] leaves all four
    parameters as they were. *)
Theorem Update_pairs_by_outcome (db db' : gmap N Reputation.t)
    (updateReq : UpdateRequest.t) (now wall : Time)
    (status : ReputationStatus.t) (changed : bool) :
  let dbNode := loadedRow db (UpdateRequest.NodeID updateReq) in
  Reputation.Disqualified dbNode = None ->
  Update auditHistoryTracker db updateReq now wall
  = (db', UpdateOk status changed) ->
  exists row',
    db' !! UpdateRequest.NodeID updateReq = Some row'
    /\ pairsByOutcome dbNode updateReq row'.
Proof.
  intros dbNode Hdq Hupd.
  destruct (Update_ok_inv _ db db' updateReq now wall status changed Hdq Hupd)
    as (h & response & _ & Hrow & _ & _).
  eexists. split; [exact Hrow|]. fold dbNode.
  pose proof (writtenRow_parameters dbNode updateReq h response now wall)
    as Hp.
  unfold stepOne in Hp. unfold pairsByOutcome. cbv zeta.
  destruct (UpdateRequest.AuditOutcome updateReq);
    cbn [auditOutcomeSwitch updateReputation] in Hp;
    destruct Hp as (Ha & Hb & Hc & Hd & _);
    rewrite ?Ha, ?Hb, ?Hc, ?Hd; repeat split; reflexivity.
Qed.

(** X6.  [Update] disqualifies for three reasons only.  After a successful
    call on a record that was not disqualified, [disqualified] is [now] if
    the audit score is at or below the threshold, or the suspension grace
    period has run out on the wall clock, or an offline review ended with
    the node still penalized and offline disqualification on; otherwise the
    record is still not disqualified. *)
Theorem Update_disqualifies_iff (db : gmap N Reputation.t)
    (updateReq : UpdateRequest.t) (now wall : Time) (h : list Byte.byte)
    (response : UpdateAuditHistoryResponse.t) :
  let dbNode := loadedRow db (UpdateRequest.NodeID updateReq) in
  Reputation.Disqualified dbNode = None ->
  auditHistoryTracker (Reputation.AuditHistory dbNode) now (isUp updateReq)
    (UpdateRequest.AuditHistory updateReq) = Some (h, response) ->
  exists db' status changed row',
    Update auditHistoryTracker db updateReq now wall
    = (db', UpdateOk status changed)
    /\ db' !! UpdateRequest.NodeID updateReq = Some row'
    /\ Reputation.Disqualified row'
       = if auditFailureDQ dbNode updateReq
            || suspensionGraceDQ dbNode updateReq wall
            || offlineDQ dbNode updateReq response now
         then Some now
         else None.
Proof.
  intros dbNode Hdq Htr.
  pose proof (Update_active_row auditHistoryTracker db updateReq now wall Hdq)
    as Hact.
  fold dbNode in Hact. rewrite Htr in Hact.
  destruct Hact as (db' & Hupd & Hrow & _).
  eexists _, _, _, _. split; [exact Hupd|]. split; [exact Hrow|].
  rewrite writtenRow_Disqualified, Hdq. reflexivity.
Qed.

(** X7.  The unknown-audit suspension after a successful call on a record
    that is not disqualified: with the unknown-audit score at or below the
    threshold, a node that was not suspended is suspended at [now], and a
    suspended node keeps the time of its suspension unless the call
    disqualifies it for the grace period, which clears the suspension; with
    the score above the threshold the suspension is lifted. *)
Theorem Update_unknown_audit_suspension (db db' : gmap N Reputation.t)
    (updateReq : UpdateRequest.t) (now wall : Time)
    (status : ReputationStatus.t) (changed : bool) :
  let dbNode := loadedRow db (UpdateRequest.NodeID updateReq) in
  Reputation.Disqualified dbNode = None ->
  Update auditHistoryTracker db updateReq now wall
  = (db', UpdateOk status changed) ->
  exists row',
    db' !! UpdateRequest.NodeID updateReq = Some row'
    /\ Reputation.UnknownAuditSuspended row'
       = if unknownAuditLow dbNode updateReq then
           match Reputation.UnknownAuditSuspended dbNode with
           | None => Some now
           | Some suspendedAt =>
               if suspensionGraceDQ dbNode updateReq wall
               then None
               else Some suspendedAt
           end
         else None.
Proof.
  intros dbNode Hdq Hupd.
  destruct (Update_ok_inv _ db db' updateReq now wall status changed Hdq Hupd)
    as (h & response & _ & Hrow & _ & _).
  eexists. split; [exact Hrow|]. apply writtenRow_UnknownAuditSuspended.
Qed.

(** X8.  The offline review after a successful call on a record that is not
    disqualified, with offline suspension enabled.  A node that is not under
    review enters review, suspended, when it is penalized.  A node under
    review is suspended exactly while it is penalized, and leaves review
    when the window has passed and it is no longer penalized. *)
Theorem Update_offline_review (db : gmap N Reputation.t)
    (updateReq : UpdateRequest.t) (now wall : Time) (h : list Byte.byte)
    (response : UpdateAuditHistoryResponse.t) :
  let dbNode := loadedRow db (UpdateRequest.NodeID updateReq) in
  let penalize := penalizeOfflineNode updateReq response in
  Reputation.Disqualified dbNode = None ->
  AuditHistoryConfig.OfflineSuspensionEnabled
    (UpdateRequest.AuditHistory updateReq) = true ->
  auditHistoryTracker (Reputation.AuditHistory dbNode) now (isUp updateReq)
    (UpdateRequest.AuditHistory updateReq) = Some (h, response) ->
  exists db' status changed row',
    Update auditHistoryTracker db updateReq now wall
    = (db', UpdateOk status changed)
    /\ db' !! UpdateRequest.NodeID updateReq = Some row'
    /\ match Reputation.UnderReview dbNode with
       | None =>
           Reputation.UnderReview row' = (if penalize then Some now else None)
           /\ Reputation.OfflineSuspended row'
              = (if penalize then Some now
                 else Reputation.OfflineSuspended dbNode)
       | Some underReview =>
           Reputation.UnderReview row'
           = (if trackingPeriodPassed updateReq underReview now
                 && negb penalize
              then None else Some underReview)
           /\ Reputation.OfflineSuspended row'
              = (if penalize then
                   match Reputation.OfflineSuspended dbNode with
                   | Some suspendedAt => Some suspendedAt
                   | None => Some now
                   end
                 else None)
       end.
Proof.
  intros dbNode penalize Hdq Hen Htr.
  pose proof (Update_active_row auditHistoryTracker db updateReq now wall Hdq)
    as Hact.
  fold dbNode in Hact. rewrite Htr in Hact.
  destruct Hact as (db' & Hupd & Hrow & _).
  eexists _, _, _, _. split; [exact Hupd|]. split; [exact Hrow|].
  destruct (writtenRow_offline_fields dbNode updateReq h response now wall)
    as [-> ->].
  unfold underReviewAfter, offlineSuspendedAfter. fold penalize.
  rewrite Hen.
  destruct (Reputation.UnderReview dbNode); split; reflexivity.
Qed.

(** X9.  With offline suspension disabled, a successful call on a record
    that is not disqualified leaves it neither offline-suspended nor under
    review, whatever the tracker reports, and still stores the online
    score. *)
Theorem Update_offline_suspension_disabled (db db' : gmap N Reputation.t)
    (updateReq : UpdateRequest.t) (now wall : Time)
    (status : ReputationStatus.t) (changed : bool) :
  let dbNode := loadedRow db (UpdateRequest.NodeID updateReq) in
  Reputation.Disqualified dbNode = None ->
  AuditHistoryConfig.OfflineSuspensionEnabled
    (UpdateRequest.AuditHistory updateReq) = false ->
  Update auditHistoryTracker db updateReq now wall
  = (db', UpdateOk status changed) ->
  exists h response row',
    auditHistoryTracker (Reputation.AuditHistory dbNode) now (isUp updateReq)
      (UpdateRequest.AuditHistory updateReq) = Some (h, response)
    /\ db' !! UpdateRequest.NodeID updateReq = Some row'
    /\ Reputation.OfflineSuspended row' = None
    /\ Reputation.UnderReview row' = None
    /\ ReputationStatus.OfflineSuspended status = None
    /\ Reputation.OnlineScore row'
       = UpdateAuditHistoryResponse.NewScore response.
Proof.
  intros dbNode Hdq Hen Hupd.
  destruct (Update_ok_inv _ db db' updateReq now wall status changed Hdq Hupd)
    as (h & response & Htr & Hrow & -> & _).
  exists h, response. eexists. split; [exact Htr|]. split; [exact Hrow|].
  fold dbNode.
  destruct (writtenRow_offline_fields dbNode updateReq h response now wall)
    as [Hur Hos].
  destruct (writtenRow_tracker_columns dbNode updateReq h response now wall)
    as (Hscore & _).
  unfold underReviewAfter in Hur. unfold offlineSuspendedAfter in Hos.
  rewrite Hen in Hur, Hos.
  unfold getNodeStatus. cbn [ReputationStatus.OfflineSuspended].
  auto.
Qed.

(** X10.  A successful call on a record that is not disqualified stores the
    history and the online score the tracker returned, and leaves the
    identifier and the [suspended] column of the row as they were. *)
Theorem Update_stores_tracker_answer (db : gmap N Reputation.t)
    (updateReq : UpdateRequest.t) (now wall : Time) (h : list Byte.byte)
    (response : UpdateAuditHistoryResponse.t) :
  let dbNode := loadedRow db (UpdateRequest.NodeID updateReq) in
  Reputation.Disqualified dbNode = None ->
  auditHistoryTracker (Reputation.AuditHistory dbNode) now (isUp updateReq)
    (UpdateRequest.AuditHistory updateReq) = Some (h, response) ->
  exists db' status changed row',
    Update auditHistoryTracker db updateReq now wall
    = (db', UpdateOk status changed)
    /\ db' !! UpdateRequest.NodeID updateReq = Some row'
    /\ Reputation.AuditHistory row' = h
    /\ Reputation.OnlineScore row'
       = UpdateAuditHistoryResponse.NewScore response
    /\ Reputation.Suspended row' = Reputation.Suspended dbNode
    /\ Reputation.Id row' = Reputation.Id dbNode.
Proof.
  intros dbNode Hdq Htr.
  pose proof (Update_active_row auditHistoryTracker db updateReq now wall Hdq)
    as Hact.
  fold dbNode in Hact. rewrite Htr in Hact.
  destruct Hact as (db' & Hupd & Hrow & _).
  eexists _, _, _, _. split; [exact Hupd|]. split; [exact Hrow|].
  destruct (writtenRow_tracker_columns dbNode updateReq h response now wall)
    as (Hs & Hh & Hsus & Hid).
  auto.
Qed.

End UpdateWrites.

(** Running a call on a concrete table: name the table and the status it
    returns. *)
Ltac run_update db' status changed Hupd :=
  match goal with
  | |- context [Update ?tr ?db ?req ?now ?wall] =>
      let result := fresh "result" in
      destruct (Update tr db req now wall) as [db' result] eqn:Hupd;
      let Hok := fresh "Hok" in
      assert (Hok : exists status changed, result = UpdateOk status changed)
        by (vm_compute in Hupd; injection Hupd as _ <-; eauto);
      destruct Hok as (status & changed & ->); cbn [fst]
  end.


Lemma Update_pairs_by_outcome_witness :
  exists row',
    fst (Update Fixture.onlineTracker Fixture.freshTable
           (Fixture.request AuditFailure) 100 100) !! 1%N = Some row'
    /\ pairsByOutcome (loadedRow Fixture.freshTable 1%N)
         (Fixture.request AuditFailure) row'.
Proof.
  run_update db' status changed Hupd.
  apply (Update_pairs_by_outcome Fixture.onlineTracker Fixture.freshTable
           db' (Fixture.request AuditFailure) 100 100 status changed).
  - reflexivity.
  - exact Hupd.
Defined.

Lemma Update_disqualifies_iff_witness :
  exists db' status changed row',
    Update Fixture.offlineTracker Fixture.reviewedTable
      (Fixture.request AuditFailure) (100 * Hour) (100 * Hour)
    = (db', UpdateOk status changed)
    /\ db' !! 1%N = Some row'
    /\ Reputation.Disqualified row' = Some (100 * Hour).
Proof.
  apply (Update_disqualifies_iff Fixture.offlineTracker Fixture.reviewedTable
           (Fixture.request AuditFailure) (100 * Hour) (100 * Hour) []
           (UpdateAuditHistoryResponse.mk 0%float true)); reflexivity.
Defined.

Lemma Update_unknown_audit_suspension_witness :
  exists row',
    fst (Update Fixture.onlineTracker Fixture.suspendedTable
           (Fixture.request AuditSuccess) (1100 * Hour) (1100 * Hour)) !! 1%N
    = Some row'
    /\ Reputation.UnknownAuditSuspended row' = Some (1000 * Hour).
Proof.
  run_update db' status changed Hupd.
  apply (Update_unknown_audit_suspension Fixture.onlineTracker
           Fixture.suspendedTable db' (Fixture.request AuditSuccess)
           (1100 * Hour) (1100 * Hour) status changed).
  - reflexivity.
  - exact Hupd.
Defined.

Lemma Update_offline_review_witness :
  exists db' status changed row',
    Update Fixture.offlineTracker Fixture.freshTable
      (Fixture.request AuditOffline) 100 100
    = (db', UpdateOk status changed)
    /\ db' !! 1%N = Some row'
    /\ Reputation.UnderReview row' = Some 100
       /\ Reputation.OfflineSuspended row' = Some 100.
Proof.
  apply (Update_offline_review Fixture.offlineTracker Fixture.freshTable
           (Fixture.request AuditOffline) 100 100 []
           (UpdateAuditHistoryResponse.mk 0%float true)); reflexivity.
Defined.

Lemma Update_offline_suspension_disabled_witness :
  exists h response row',
    Fixture.offlineTracker [] (100 * Hour) false
      (UpdateRequest.AuditHistory (Sample.requestNoOffline AuditOffline))
    = Some (h, response)
    /\ fst (Update Fixture.offlineTracker Fixture.reviewedTable
              (Sample.requestNoOffline AuditOffline) (100 * Hour)
              (100 * Hour)) !! 1%N = Some row'
    /\ Reputation.OfflineSuspended row' = None
    /\ Reputation.UnderReview row' = None
    /\ ReputationStatus.OfflineSuspended
         (ReputationStatus.mk false None None None None) = None
    /\ Reputation.OnlineScore row'
       = UpdateAuditHistoryResponse.NewScore response.
Proof.
  apply (Update_offline_suspension_disabled Fixture.offlineTracker
           Fixture.reviewedTable
           (fst (Update Fixture.offlineTracker Fixture.reviewedTable
                   (Sample.requestNoOffline AuditOffline) (100 * Hour)
                   (100 * Hour)))
           (Sample.requestNoOffline AuditOffline) (100 * Hour) (100 * Hour)
           (ReputationStatus.mk false None None None None) true).
  - reflexivity.
  - reflexivity.
  - vm_compute. reflexivity.
Defined.

Lemma Update_stores_tracker_answer_witness :
  exists db' status changed row',
    Update Fixture.offlineTracker Fixture.freshTable
      (Fixture.request AuditSuccess) 100 100
    = (db', UpdateOk status changed)
    /\ db' !! 1%N = Some row'
    /\ Reputation.AuditHistory row' = []
    /\ Reputation.OnlineScore row' = 0%float
    /\ Reputation.Suspended row' = None
    /\ Reputation.Id row' = 1%N.
Proof.
  apply (Update_stores_tracker_answer Fixture.offlineTracker
           Fixture.freshTable (Fixture.request AuditSuccess) 100 100 []
           (UpdateAuditHistoryResponse.mk 0%float true)); reflexivity.
Defined.

(** ** Sequences of [Update] calls *)

Section Sequences.

Variable auditHistoryTracker :
  list Byte.byte -> Time -> bool -> AuditHistoryConfig.t ->
  option (list Byte.byte * UpdateAuditHistoryResponse.t).

(** One call keeps a set [vettedAt]. *)
Lemma Update_keeps_vettedAt (db : gmap N Reputation.t)
    (updateReq : UpdateRequest.t) (now wall : Time) (id : N)
    (row : Reputation.t) (v : Time) :
  db !! id = Some row ->
  Reputation.VettedAt row = Some v ->
  exists row',
    fst (Update auditHistoryTracker db updateReq now wall) !! id = Some row'
    /\ Reputation.VettedAt row' = Some v.
Proof.
  intros Hrow Hv.
  destruct (decide (id = UpdateRequest.NodeID updateReq)) as [->|Hne].
  - destruct (Update_table_cases auditHistoryTracker db updateReq now wall)
      as [-> | (_ & _ & h & response & Hw)]; [eauto|].
    eexists. split; [exact Hw|].
    pose proof (writtenRow_VettedAt
                  (loadedRow db (UpdateRequest.NodeID updateReq)) updateReq h
                  response now wall) as Hvet.
    destruct (stepOne _ updateReq) as [[[[a b] c] d] n].
    rewrite Hvet. unfold loadedRow. rewrite Hrow, Hv. reflexivity.
  - rewrite Update_other_rows by exact Hne. eauto.
Qed.

(** X11.  Once [vettedAt] is set it stays: after any sequence of [Update]
    calls, for any nodes, outcomes and times, the record is still there with
    the same [vettedAt]. *)
Theorem vettedAt_is_permanent (calls : list UpdateCall)
    (db : gmap N Reputation.t) (id : N) (row : Reputation.t) (v : Time) :
  db !! id = Some row ->
  Reputation.VettedAt row = Some v ->
  exists row',
    runUpdates auditHistoryTracker db calls !! id = Some row'
    /\ Reputation.VettedAt row' = Some v.
Proof.
  revert db row.
  induction calls as [|[[updateReq now] wall] calls IH]; intros db row Hrow Hv.
  - exists row. auto.
  - destruct (Update_keeps_vettedAt db updateReq now wall id row v Hrow Hv)
      as (row1 & Hrow1 & Hv1).
    exact (IH _ row1 Hrow1 Hv1).
Qed.

(** One call leaves a disqualified row as it is. *)
Lemma Update_keeps_disqualified_row (db : gmap N Reputation.t)
    (updateReq : UpdateRequest.t) (now wall : Time) (id : N)
    (row : Reputation.t) (t : Time) :
  db !! id = Some row ->
  Reputation.Disqualified row = Some t ->
  fst (Update auditHistoryTracker db updateReq now wall) !! id = Some row.
Proof.
  intros Hrow Hdq.
  destruct (decide (id = UpdateRequest.NodeID updateReq)) as [->|Hne].
  - rewrite (Update_disqualified_row _ db updateReq now wall row t Hrow Hdq).
    exact Hrow.
  - rewrite Update_other_rows by exact Hne. exact Hrow.
Qed.

Lemma runUpdates_disqualified_row (calls : list UpdateCall)
    (db : gmap N Reputation.t) (id : N) (row : Reputation.t) (t : Time) :
  db !! id = Some row ->
  Reputation.Disqualified row = Some t ->
  runUpdates auditHistoryTracker db calls !! id = Some row.
Proof.
  revert db.
  induction calls as [|[[updateReq now] wall] calls IH]; intros db Hrow Hdq.
  - exact Hrow.
  - apply IH; [|exact Hdq].
    apply (Update_keeps_disqualified_row db updateReq now wall id row t Hrow
             Hdq).
Qed.

(** X12.  Disqualification is terminal for [Update]: after any sequence of
    [Update] calls the row of a disqualified node is exactly the row it was,
    in every column. *)
Theorem disqualified_row_is_frozen (calls : list UpdateCall)
    (db : gmap N Reputation.t) (id : N) (row : Reputation.t) (t : Time) :
  db !! id = Some row ->
  Reputation.Disqualified row = Some t ->
  runUpdates auditHistoryTracker db calls !! id = Some row.
Proof. apply runUpdates_disqualified_row. Qed.

(** X13.  [Update] never deletes: after any sequence of calls every node
    that had a record still has one. *)
Theorem Update_never_deletes (calls : list UpdateCall)
    (db : gmap N Reputation.t) (id : N) :
  is_Some (db !! id) ->
  is_Some (runUpdates auditHistoryTracker db calls !! id).
Proof.
  revert db.
  induction calls as [|[[updateReq now] wall] calls IH]; intros db Hsome.
  - exact Hsome.
  - apply IH. cbn [fold_left].
    destruct (decide (id = UpdateRequest.NodeID updateReq)) as [->|Hne].
    + destruct (Update_table_cases auditHistoryTracker db updateReq now wall)
        as [-> | (_ & _ & h & response & ->)]; eauto.
    + rewrite Update_other_rows by exact Hne. exact Hsome.
Qed.

End Sequences.

Lemma vettedAt_is_permanent_witness :
  Sample.vettedTable !! 1%N = Some Sample.vettedRow
  /\ Reputation.VettedAt Sample.vettedRow = Some 7
  /\ exists row',
       runUpdates Fixture.onlineTracker Sample.vettedTable Sample.calls
       !! 1%N = Some row'
       /\ Reputation.VettedAt row' = Some 7.
Proof.
  split; [reflexivity|]. split; [reflexivity|].
  apply (vettedAt_is_permanent Fixture.onlineTracker Sample.calls
           Sample.vettedTable 1%N Sample.vettedRow 7); reflexivity.
Defined.

Lemma disqualified_row_is_frozen_witness :
  Fixture.disqualifiedTable !! 1%N = Some Fixture.disqualifiedRow
  /\ Reputation.Disqualified Fixture.disqualifiedRow = Some 50
  /\ runUpdates Fixture.onlineTracker Fixture.disqualifiedTable Sample.calls
     !! 1%N = Some Fixture.disqualifiedRow.
Proof.
  split; [reflexivity|]. split; [reflexivity|].
  apply (disqualified_row_is_frozen Fixture.onlineTracker Sample.calls
           Fixture.disqualifiedTable 1%N Fixture.disqualifiedRow 50);
    reflexivity.
Defined.

Lemma Update_never_deletes_witness :
  is_Some (Sample.vettedTable !! 1%N)
  /\ is_Some (runUpdates Sample.failingTracker Sample.vettedTable Sample.calls
              !! 1%N).
Proof.
  assert (H : is_Some (Sample.vettedTable !! 1%N)) by (eexists; reflexivity).
  split; [exact H|].
  apply (Update_never_deletes Sample.failingTracker Sample.calls
           Sample.vettedTable 1%N H).
Defined.

(** ** The direct transitions *)

(** What a direct transition does to the table: the row of the node, or the
    row inserted for it, with one assignment applied. *)
Lemma direct_transition (db : gmap N Reputation.t) (nodeID : N)
    (u : Reputation_Update_Fields.t) :
  match getOrInsert db nodeID with
  | inl tx =>
      fst (Update_Reputation_By_Id tx nodeID u)
      = <[nodeID := applyUpdateFields u (loadedRow db nodeID)]> db
  | inr _ => False
  end.
Proof.
  unfold getOrInsert, Get_Reputation_By_Id, loadedRow, insertReputation,
    Update_Reputation_By_Id.
  destruct (db !! nodeID) as [row|] eqn:Hrow; cbv zeta.
  - rewrite Hrow. reflexivity.
  - rewrite lookup_insert_eq. cbn [fst]. apply insert_insert_eq.
Qed.

Lemma DisqualifyNode_table (db : gmap N Reputation.t)
    (nodeID : N) (wall : Time) :
  DisqualifyNode db nodeID wall
  = (<[nodeID := withDisqualified (Some wall) (loadedRow db nodeID)]> db,
     None).
Proof.
  unfold DisqualifyNode.
  pose proof (direct_transition db nodeID
                (assignDisqualified (Some (Some wall))
                   Reputation_Update_Fields.empty)) as Hd.
  destruct (getOrInsert db nodeID) as [tx|err]; [|contradiction].
  cbv zeta.
  destruct (Update_Reputation_By_Id tx nodeID _) as [tx' r]. cbn [fst] in Hd.
  rewrite Hd. reflexivity.
Qed.

(** X14.  When [DisqualifyNode] returns no error it has stamped the record
    of the node with the wall clock, inserting one first when there was
    none, and changed no other column and no other row. *)
Theorem DisqualifyNode_stamps_the_record (db : gmap N Reputation.t)
    (nodeID : N) (wall : Time) :
  snd (DisqualifyNode db nodeID wall) = None ->
  fst (DisqualifyNode db nodeID wall)
  = <[nodeID := withDisqualified (Some wall) (loadedRow db nodeID)]> db.
Proof. intros _. rewrite DisqualifyNode_table. reflexivity. Qed.

Lemma DisqualifyNode_stamps_the_record_witness :
  snd (DisqualifyNode Fixture.freshTable 7%N 100) = None
  /\ fst (DisqualifyNode Fixture.freshTable 7%N 100)
     = <[7%N := withDisqualified (Some 100)
                  (loadedRow Fixture.freshTable 7%N)]> Fixture.freshTable.
Proof.
  split; [reflexivity|].
  apply (DisqualifyNode_stamps_the_record Fixture.freshTable 7%N 100).
  reflexivity.
Defined.

(** X15.  After [DisqualifyNode], no sequence of [Update] calls changes the
    record of the node: it stays disqualified with the same timestamp. *)
Theorem Update_after_DisqualifyNode
    (auditHistoryTracker :
       list Byte.byte -> Time -> bool -> AuditHistoryConfig.t ->
       option (list Byte.byte * UpdateAuditHistoryResponse.t))
    (db : gmap N Reputation.t) (nodeID : N) (wall : Time)
    (calls : list UpdateCall) :
  runUpdates auditHistoryTracker (fst (DisqualifyNode db nodeID wall)) calls
  !! nodeID
  = Some (withDisqualified (Some wall) (loadedRow db nodeID)).
Proof.
  rewrite DisqualifyNode_table. cbn [fst].
  apply (runUpdates_disqualified_row auditHistoryTracker calls _ nodeID _
           wall).
  - apply lookup_insert_eq.
  - reflexivity.
Qed.

(** X16.  A second [DisqualifyNode] overwrites the timestamp of the first:
    disqualifying at [wall1] and then at [wall2] leaves the table that
    disqualifying at [wall2] alone leaves. *)
Theorem DisqualifyNode_twice (db : gmap N Reputation.t) (nodeID : N)
    (wall1 wall2 : Time) :
  fst (DisqualifyNode (fst (DisqualifyNode db nodeID wall1)) nodeID wall2)
  = fst (DisqualifyNode db nodeID wall2).
Proof.
  rewrite !DisqualifyNode_table. cbn [fst].
  rewrite insert_insert_eq. f_equal.
  unfold loadedRow at 1. rewrite lookup_insert_eq. reflexivity.
Qed.

Lemma SuspendNodeUnknownAudit_table (db : gmap N Reputation.t) (nodeID : N)
    (suspendedAt : Time) :
  SuspendNodeUnknownAudit db nodeID suspendedAt
  = (<[nodeID := withUnknownAuditSuspended (Some suspendedAt)
                   (loadedRow db nodeID)]> db, None).
Proof.
  unfold SuspendNodeUnknownAudit.
  pose proof (direct_transition db nodeID
                (Reputation_Update_Fields.set_UnknownAuditSuspended
                   (Some (Some suspendedAt)) Reputation_Update_Fields.empty))
    as Hd.
  destruct (getOrInsert db nodeID) as [tx|err]; [|contradiction].
  cbv zeta.
  destruct (Update_Reputation_By_Id tx nodeID _) as [tx' r]. cbn [fst] in Hd.
  rewrite Hd. reflexivity.
Qed.

Lemma UnsuspendNodeUnknownAudit_table (db : gmap N Reputation.t)
    (nodeID : N) :
  UnsuspendNodeUnknownAudit db nodeID
  = (<[nodeID := withUnknownAuditSuspended None (loadedRow db nodeID)]> db,
     None).
Proof.
  unfold UnsuspendNodeUnknownAudit.
  pose proof (direct_transition db nodeID
                (Reputation_Update_Fields.set_UnknownAuditSuspended
                   (Some None) Reputation_Update_Fields.empty)) as Hd.
  destruct (getOrInsert db nodeID) as [tx|err]; [|contradiction].
  cbv zeta.
  destruct (Update_Reputation_By_Id tx nodeID _) as [tx' r]. cbn [fst] in Hd.
  rewrite Hd. reflexivity.
Qed.

(** X17.  Suspending a node for unknown audits and unsuspending it is a round
    trip: on a node that has a record and is not suspended, the two calls
    succeed and leave the table exactly as it was. *)
Theorem Suspend_then_Unsuspend (db : gmap N Reputation.t) (nodeID : N)
    (suspendedAt : Time) (row : Reputation.t) :
  db !! nodeID = Some row ->
  Reputation.UnknownAuditSuspended row = None ->
  snd (SuspendNodeUnknownAudit db nodeID suspendedAt) = None
  /\ UnsuspendNodeUnknownAudit
       (fst (SuspendNodeUnknownAudit db nodeID suspendedAt)) nodeID
     = (db, None).
Proof.
  intros Hrow Hnone.
  rewrite SuspendNodeUnknownAudit_table. cbn [fst snd].
  split; [reflexivity|].
  rewrite UnsuspendNodeUnknownAudit_table. f_equal.
  rewrite insert_insert_eq.
  unfold loadedRow at 1. rewrite lookup_insert_eq.
  apply insert_id. rewrite Hrow. f_equal.
  unfold loadedRow. rewrite Hrow.
  destruct row. cbn in Hnone. subst. reflexivity.
Qed.

Lemma SetNodeStatus_table (db : gmap N Reputation.t) (id : N)
    (status : ReputationStatus.t) :
  SetNodeStatus db id status
  = (match db !! id with
     | Some row => <[id := withStatus status row]> db
     | None => db
     end, None).
Proof.
  unfold SetNodeStatus, Update_Reputation_By_Id. cbv zeta.
  destruct (db !! id) as [row|]; reflexivity.
Qed.

(** X18.  [SetNodeStatus] and [getNodeStatus] are a round trip: on a node
    with a record the call succeeds, the status of the row is then the
    status given, and the parameters, the counters, the history, the online
    score and the review are as before. *)
Theorem SetNodeStatus_then_getNodeStatus (db : gmap N Reputation.t) (id : N)
    (status : ReputationStatus.t) (row : Reputation.t) :
  db !! id = Some row ->
  snd (SetNodeStatus db id status) = None
  /\ exists row',
       fst (SetNodeStatus db id status) !! id = Some row'
       /\ getNodeStatus row' = status
       /\ withStatus (getNodeStatus row) row' = row.
Proof.
  intros Hrow. rewrite SetNodeStatus_table, Hrow. cbn [fst snd].
  split; [reflexivity|].
  eexists. split; [apply lookup_insert_eq|]. split.
  - destruct status. reflexivity.
  - destruct row. reflexivity.
Qed.

(** X19.  [SetNodeStatus] does not create a record: on a node without one
    it reports no error and leaves the table as it was. *)
Theorem SetNodeStatus_missing_record (db : gmap N Reputation.t) (id : N)
    (status : ReputationStatus.t) :
  db !! id = None ->
  SetNodeStatus db id status = (db, None).
Proof.
  intros Hnone. rewrite SetNodeStatus_table, Hnone. reflexivity.
Qed.

(** X20.  Disqualification is terminal for [Update] but not for
    [SetNodeStatus]: once [SetNodeStatus] has written a status that is not
    disqualified over a disqualified record, the next [Update] evaluates the
    audit again - it counts the audit and clears [contained]. *)
Theorem SetNodeStatus_lifts_disqualification
    (auditHistoryTracker :
       list Byte.byte -> Time -> bool -> AuditHistoryConfig.t ->
       option (list Byte.byte * UpdateAuditHistoryResponse.t))
    (db : gmap N Reputation.t) (updateReq : UpdateRequest.t)
    (now wall : Time) (status : ReputationStatus.t) (row : Reputation.t)
    (h : list Byte.byte) (response : UpdateAuditHistoryResponse.t) :
  let id := UpdateRequest.NodeID updateReq in
  db !! id = Some row ->
  ReputationStatus.Disqualified status = None ->
  auditHistoryTracker (Reputation.AuditHistory row) now (isUp updateReq)
    (UpdateRequest.AuditHistory updateReq) = Some (h, response) ->
  exists db' status' changed row',
    Update auditHistoryTracker (fst (SetNodeStatus db id status)) updateReq
      now wall
    = (db', UpdateOk status' changed)
    /\ db' !! id = Some row'
    /\ Reputation.TotalAuditCount row'
       = Int64.add (Reputation.TotalAuditCount row) 1
    /\ Reputation.Contained row' = false.
Proof.
  intros id Hrow Hdq Htr.
  rewrite SetNodeStatus_table, Hrow. cbn [fst].
  set (db1 := <[id := withStatus status row]> db).
  assert (Hload : loadedRow db1 id = withStatus status row).
  { unfold loadedRow, db1. rewrite lookup_insert_eq. reflexivity. }
  pose proof (Update_active_row auditHistoryTracker db1 updateReq now wall)
    as Hact.
  cbv zeta in Hact. fold id in Hact. rewrite Hload in Hact.
  specialize (Hact Hdq).
  change (Reputation.AuditHistory (withStatus status row))
    with (Reputation.AuditHistory row) in Hact.
  rewrite Htr in Hact.
  destruct Hact as (db' & Hupd & Hrow' & _).
  eexists _, _, _, _. split; [exact Hupd|]. split; [exact Hrow'|].
  split; [|apply writtenRow_Contained].
  pose proof (writtenRow_parameters (withStatus status row) updateReq h
                response now wall) as Hp.
  unfold stepOne in Hp.
  destruct (UpdateRequest.AuditOutcome updateReq);
    cbn [auditOutcomeSwitch updateReputation] in Hp;
    destruct Hp as (_ & _ & _ & _ & ->); reflexivity.
Qed.

Lemma SetNodeStatus_lifts_disqualification_witness :
  exists db' status' changed row',
    Update Fixture.onlineTracker
      (fst (SetNodeStatus Fixture.disqualifiedTable 1%N
              (ReputationStatus.mk true None None None None)))
      (Fixture.request AuditOffline) 100 100
    = (db', UpdateOk status' changed)
    /\ db' !! 1%N = Some row'
    /\ Reputation.TotalAuditCount row' = Int64.add 0 1
    /\ Reputation.Contained row' = false.
Proof.
  apply (SetNodeStatus_lifts_disqualification Fixture.onlineTracker
           Fixture.disqualifiedTable (Fixture.request AuditOffline) 100 100
           (ReputationStatus.mk true None None None None)
           Fixture.disqualifiedRow []
           (UpdateAuditHistoryResponse.mk 1%float false)); reflexivity.
Defined.

Lemma Suspend_then_Unsuspend_witness :
  Fixture.freshTable !! 1%N = Some Fixture.freshRow
  /\ Reputation.UnknownAuditSuspended Fixture.freshRow = None
  /\ snd (SuspendNodeUnknownAudit Fixture.freshTable 1%N 77) = None
  /\ UnsuspendNodeUnknownAudit
       (fst (SuspendNodeUnknownAudit Fixture.freshTable 1%N 77)) 1%N
     = (Fixture.freshTable, None).
Proof.
  split; [reflexivity|]. split; [reflexivity|].
  apply (Suspend_then_Unsuspend Fixture.freshTable 1%N 77 Fixture.freshRow);
    reflexivity.
Defined.

Lemma SetNodeStatus_then_getNodeStatus_witness :
  Fixture.freshTable !! 1%N = Some Fixture.freshRow
  /\ snd (SetNodeStatus Fixture.freshTable 1%N
            (ReputationStatus.mk true (Some 5) None (Some 6) (Some 7))) = None
  /\ exists row',
       fst (SetNodeStatus Fixture.freshTable 1%N
              (ReputationStatus.mk true (Some 5) None (Some 6) (Some 7)))
       !! 1%N = Some row'
       /\ getNodeStatus row'
          = ReputationStatus.mk true (Some 5) None (Some 6) (Some 7)
       /\ withStatus (getNodeStatus Fixture.freshRow) row' = Fixture.freshRow.
Proof.
  split; [reflexivity|].
  apply (SetNodeStatus_then_getNodeStatus Fixture.freshTable 1%N
           (ReputationStatus.mk true (Some 5) None (Some 6) (Some 7))
           Fixture.freshRow).
  reflexivity.
Defined.

Lemma SetNodeStatus_missing_record_witness :
  Fixture.freshTable !! 9%N = None
  /\ SetNodeStatus Fixture.freshTable 9%N
       (ReputationStatus.mk true (Some 5) None None None)
     = (Fixture.freshTable, None).
Proof.
  split; [reflexivity|].
  apply (SetNodeStatus_missing_record Fixture.freshTable 9%N
           (ReputationStatus.mk true (Some 5) None None None)).
  reflexivity.
Defined.

(** ** [Get] *)

Section GetFacts.

Variable H : Type.
Variable auditHistoryFromPB : list Byte.byte -> option H.

(** X21.  [Get] reports [ErrNodeNotFound] exactly for the nodes without a
    record. *)
Theorem Get_not_found_iff (db : gmap N Reputation.t) (nodeID : N) :
  Get H auditHistoryFromPB db nodeID = inr ErrNodeNotFound
  <-> db !! nodeID = None.
Proof.
  unfold Get, Get_Reputation_By_Id.
  destruct (db !! nodeID) as [row|].
  - destruct (auditHistoryFromPB _); split; discriminate.
  - split; reflexivity.
Qed.

(** X22.  [Get] after a successful [Update] reads back the status the
    [Update] returned, whenever the history the row then holds decodes. *)
Theorem Get_after_Update
    (auditHistoryTracker :
       list Byte.byte -> Time -> bool -> AuditHistoryConfig.t ->
       option (list Byte.byte * UpdateAuditHistoryResponse.t))
    (db db' : gmap N Reputation.t) (updateReq : UpdateRequest.t)
    (now wall : Time) (status : ReputationStatus.t) (changed : bool) :
  Update auditHistoryTracker db updateReq now wall
  = (db', UpdateOk status changed) ->
  (forall row',
     db' !! UpdateRequest.NodeID updateReq = Some row' ->
     is_Some (auditHistoryFromPB (Reputation.AuditHistory row'))) ->
  exists info,
    Get H auditHistoryFromPB db' (UpdateRequest.NodeID updateReq) = inl info
    /\ ReputationStatus.mk (Info.Contained info) (Info.Disqualified info)
         (Info.UnknownAuditSuspended info) (Info.OfflineSuspended info)
         (Info.VettedAt info)
       = status.
Proof.
  intros Hupd Hdec.
  assert (exists row',
             db' !! UpdateRequest.NodeID updateReq = Some row'
             /\ status = getNodeStatus row') as (row' & Hrow & ->).
  { destruct (Update_ok_cases auditHistoryTracker db db' updateReq now wall
                status changed Hupd)
      as [(t & _ & -> & Hrow & ->) | (_ & h & response & _ & Hrow & ->)];
      eexists; split; try eassumption; reflexivity. }
  destruct (Hdec row' Hrow) as [history Hh].
  unfold Get, Get_Reputation_By_Id. rewrite Hrow, Hh.
  eexists. split; reflexivity.
Qed.

End GetFacts.

Lemma Get_after_Update_witness :
  exists info,
    Get (list Byte.byte) Sample.decodeAll
      (fst (Update Fixture.onlineTracker Fixture.suspendedTable
              (Fixture.request AuditSuccess) (1100 * Hour) (1100 * Hour)))
      1%N = inl info
    /\ ReputationStatus.mk (Info.Contained info) (Info.Disqualified info)
         (Info.UnknownAuditSuspended info) (Info.OfflineSuspended info)
         (Info.VettedAt info)
       = snd (false, ReputationStatus.mk false None (Some (1000 * Hour)) None
                       None).
Proof.
  apply (Get_after_Update (list Byte.byte) Sample.decodeAll
           Fixture.onlineTracker Fixture.suspendedTable
           (fst (Update Fixture.onlineTracker Fixture.suspendedTable
                   (Fixture.request AuditSuccess) (1100 * Hour)
                   (1100 * Hour)))
           (Fixture.request AuditSuccess) (1100 * Hour) (1100 * Hour)
           (ReputationStatus.mk false None (Some (1000 * Hour)) None None)
           false).
  - vm_compute. reflexivity.
  - intros row' _. eexists. reflexivity.
Defined.

(** * Properties of the SQL runtime support *)

(** ** Flattening *)

Lemma isWhitespace_space : isWhitespace Char.space = true.
Proof. reflexivity. Qed.

Lemma eqb_space_whitespace (c : Byte.byte) :
  Byte.eqb c Char.space = true -> isWhitespace c = true.
Proof. unfold isWhitespace. intros ->. reflexivity. Qed.

Lemma eqb_tab_whitespace (c : Byte.byte) :
  Byte.eqb c Char.tab = true -> isWhitespace c = true.
Proof. unfold isWhitespace. intros ->. rewrite orb_true_r. reflexivity. Qed.

Lemma eqb_newline_whitespace (c : Byte.byte) :
  Byte.eqb c Char.newline = true -> isWhitespace c = true.
Proof. unfold isWhitespace. intros ->. apply orb_true_r. Qed.

Lemma eqb_space_eq (c : Byte.byte) :
  Byte.eqb c Char.space = true -> c = Char.space.
Proof. apply Byte.byte_dec_bl. Qed.

Lemma words_cons_cons (c c' : Byte.byte) (x : list Byte.byte) :
  words (c :: c' :: x)
  = if isWhitespace c then words (c' :: x)
    else if isWhitespace c' then [c] :: words (c' :: x)
         else consHead c (words (c' :: x)).
Proof. reflexivity. Qed.

Lemma words_cons_word (c : Byte.byte) (x : list Byte.byte) :
  isWhitespace c = false ->
  words (c :: x) = (c :: readWord x) :: words (skipWord x).
Proof.
  revert c. induction x as [|c' x IH]; intros c Hc.
  - cbn. rewrite Hc. reflexivity.
  - rewrite words_cons_cons, Hc.
    destruct (isWhitespace c') eqn:Hc'.
    + cbn [readWord skipWord]. rewrite Hc'. reflexivity.
    + rewrite (IH c' Hc'). cbn [consHead readWord skipWord].
      rewrite Hc'. reflexivity.
Qed.

Lemma words_cons_whitespace (c : Byte.byte) (x : list Byte.byte) :
  isWhitespace c = true -> words (c :: x) = words x.
Proof. intros Hc. cbn [words]. rewrite Hc. reflexivity. Qed.

Lemma spaced_cons_whitespace (c : Byte.byte) (x : list Byte.byte) :
  isWhitespace c = true -> spaced (c :: x) = spaced x.
Proof. intros Hc. unfold spaced. rewrite words_cons_whitespace; auto. Qed.

Lemma spaced_cons_word (c : Byte.byte) (x : list Byte.byte) :
  isWhitespace c = false ->
  spaced (c :: x) = Char.space :: c :: readWord x ++ spaced (skipWord x).
Proof.
  intros Hc. unfold spaced. rewrite words_cons_word by exact Hc. reflexivity.
Qed.

Lemma joinWords_cons_word (c : Byte.byte) (x : list Byte.byte) :
  isWhitespace c = false ->
  joinWords (words (c :: x)) = c :: readWord x ++ spaced (skipWord x).
Proof.
  intros Hc. rewrite words_cons_word by exact Hc. reflexivity.
Qed.

Lemma words_skipWhitespace (x : list Byte.byte) :
  words (skipWhitespace x) = words x.
Proof.
  induction x as [|c x IH]; [reflexivity|].
  cbn [skipWhitespace]. destruct (isWhitespace c) eqn:Hc.
  - rewrite IH, words_cons_whitespace; auto.
  - reflexivity.
Qed.

Lemma spaced_skipWhitespace (x : list Byte.byte) :
  spaced (skipWhitespace x) = spaced x.
Proof. unfold spaced. rewrite words_skipWhitespace. reflexivity. Qed.

Lemma atGap_skipWord (x : list Byte.byte) : atGap (skipWord x).
Proof.
  induction x as [|c x IH]; [exact I|].
  cbn [skipWord]. destruct (isWhitespace c) eqn:Hc; cbn [negb]; auto.
Qed.

Lemma spaced_atGap_tl (x : list Byte.byte) :
  atGap x -> spaced (tl x) = spaced x.
Proof.
  destruct x as [|c x]; [reflexivity|]. cbn [atGap tl]. intros Hc.
  rewrite spaced_cons_whitespace; auto.
Qed.

Lemma readWord_atGap (x : list Byte.byte) : atGap x -> readWord x = [].
Proof.
  destruct x as [|c x]; [reflexivity|]. cbn. intros ->. reflexivity.
Qed.

Lemma skipWord_atGap (x : list Byte.byte) : atGap x -> skipWord x = x.
Proof.
  destruct x as [|c x]; [reflexivity|]. cbn. intros ->. reflexivity.
Qed.

Lemma words_snoc_whitespace (x : list Byte.byte) (c : Byte.byte) :
  isWhitespace c = true -> words (x ++ [c]) = words x.
Proof.
  intros Hc. induction x as [|a x IH].
  - cbn. rewrite Hc. reflexivity.
  - cbn [app words]. rewrite IH.
    destruct (isWhitespace a); [reflexivity|].
    destruct x as [|c' x]; cbn [app]; [rewrite Hc|]; reflexivity.
Qed.

Lemma words_trimRight (l : list Byte.byte) :
  words (rev (skipWhitespace l)) = words (rev l).
Proof.
  induction l as [|c l IH]; [reflexivity|].
  cbn [skipWhitespace]. destruct (isWhitespace c) eqn:Hc; [|reflexivity].
  rewrite IH. cbn [rev]. rewrite words_snoc_whitespace; auto.
Qed.

(** *** Suffixes *)

Lemma endsClean_cons (c : Byte.byte) (x : list Byte.byte) :
  endsClean (c :: x) -> x <> [] -> endsClean x.
Proof.
  intros H Hx d Hd. apply H. rewrite last_cons, Hd. reflexivity.
Qed.

Lemma endsClean_app (y x : list Byte.byte) :
  endsClean (y ++ x) -> x <> [] -> endsClean x.
Proof.
  induction y as [|c y IH]; intros H Hx; [exact H|].
  apply IH; [|exact Hx]. apply (endsClean_cons c); [exact H|].
  destruct y; [exact Hx | discriminate].
Qed.

Lemma endsClean_tl (x : list Byte.byte) : endsClean x -> endsClean (tl x).
Proof.
  destruct x as [|c x]; [auto|]. cbn [tl]. intros H.
  destruct x as [|d x]; [intros ? [=]|].
  apply (endsClean_cons c); [exact H | discriminate].
Qed.

Lemma endsClean_single (c : Byte.byte) :
  endsClean [c] -> isWhitespace c = false.
Proof. intros H. apply H. reflexivity. Qed.

Lemma endsClean_skipWhitespace (x : list Byte.byte) :
  endsClean x -> endsClean (skipWhitespace x).
Proof.
  induction x as [|c x IH]; [auto|]. intros H.
  cbn [skipWhitespace]. destruct (isWhitespace c) eqn:Hc; [|exact H].
  destruct x as [|d x].
  - apply endsClean_single in H. congruence.
  - apply IH. apply (endsClean_cons c); [exact H | discriminate].
Qed.

Lemma endsClean_skipWord (x : list Byte.byte) :
  endsClean x -> endsClean (skipWord x).
Proof.
  induction x as [|c x IH]; [auto|]. intros H.
  cbn [skipWord]. destruct (isWhitespace c) eqn:Hc; cbn [negb]; [exact H|].
  destruct x as [|d x]; [intros ? [=]|].
  apply IH. apply (endsClean_cons c); [exact H | discriminate].
Qed.

Lemma skipWhitespace_nonempty (x : list Byte.byte) :
  endsClean x -> x <> [] ->
  exists c x', skipWhitespace x = c :: x' /\ isWhitespace c = false.
Proof.
  induction x as [|c x IH]; [congruence|]. intros H _.
  cbn [skipWhitespace]. destruct (isWhitespace c) eqn:Hc; [|eauto].
  destruct x as [|d x].
  - apply endsClean_single in H. congruence.
  - apply IH; [|discriminate].
    apply (endsClean_cons c); [exact H | discriminate].
Qed.

Lemma skipWhitespace_length (x : list Byte.byte) :
  (length (skipWhitespace x) <= length x)%nat.
Proof.
  induction x as [|c x IH]; [reflexivity|].
  cbn [skipWhitespace]. destruct (isWhitespace c); cbn [length]; lia.
Qed.

Lemma skipWord_length (x : list Byte.byte) :
  (length (skipWord x) <= length x)%nat.
Proof.
  induction x as [|c x IH]; [reflexivity|].
  cbn [skipWord]. destruct (isWhitespace c); cbn [negb length]; lia.
Qed.

Lemma readWord_skipWord_length (x : list Byte.byte) :
  (length (readWord x) + length (skipWord x) = length x)%nat.
Proof.
  induction x as [|c x IH]; [reflexivity|].
  cbn [readWord skipWord].
  destruct (isWhitespace c); cbn [negb length]; lia.
Qed.

(** *** The two loops *)

Lemma writeWords_spaced (fuel : nat) :
  forall (x result : list Byte.byte),
    endsClean x -> (length x <= fuel)%nat ->
    writeWords fuel x result = result ++ spaced x.
Proof.
  induction fuel as [|fuel IH]; intros x result Hclean Hlen.
  - destruct x; [|cbn in Hlen; lia]. cbn. rewrite app_nil_r. reflexivity.
  - destruct x as [|a x]; [cbn; rewrite app_nil_r; reflexivity|].
    cbn [writeWords].
    destruct (skipWhitespace_nonempty (a :: x) Hclean ltac:(discriminate))
      as (c & x1 & Hskip & Hc).
    pose proof (skipWhitespace_length (a :: x)) as Hl1.
    pose proof (endsClean_skipWhitespace _ Hclean) as Hclean1.
    rewrite <- (spaced_skipWhitespace (a :: x)).
    rewrite Hskip in *.
    rewrite spaced_cons_word by exact Hc.
    pose proof (skipWord_length (c :: x1)) as Hl2.
    pose proof (endsClean_skipWord _ Hclean1) as Hclean2.
    pose proof (atGap_skipWord (c :: x1)) as Hgap.
    assert (Hw : readWord (c :: x1) = c :: readWord x1)
      by (cbn; rewrite Hc; reflexivity).
    assert (Hs : skipWord (c :: x1) = skipWord x1)
      by (cbn; rewrite Hc; reflexivity).
    rewrite Hw. rewrite Hs in *.
    rewrite IH.
    + rewrite spaced_atGap_tl by exact Hgap.
      rewrite <- !app_assoc. reflexivity.
    + apply endsClean_tl, Hclean2.
    + cbn [length] in *. destruct (skipWord x1); cbn [tl length] in *; lia.
Qed.

Lemma fixWhitespace_joinWords (rest : list Byte.byte) :
  forall (x done : list Byte.byte) (wasSpace : bool),
    x = done ++ rest ->
    endsClean x ->
    scanned done wasSpace ->
    fixWhitespace x (length done) rest wasSpace = joinWords (words x).
Proof.
  induction rest as [|r rest IH]; intros x done wasSpace Hx Hclean Hdone.
  - cbn [fixWhitespace]. rewrite app_nil_r in Hx. subst x.
    destruct wasSpace; cbn [scanned] in Hdone.
    + destruct Hdone as (core & -> & _).
      specialize (Hclean Char.space). rewrite last_snoc in Hclean.
      specialize (Hclean eq_refl). discriminate.
    + specialize (Hdone []).
      change (readWord [] ++ spaced (skipWord [])) with (@nil Byte.byte)
        in Hdone.
      rewrite !app_nil_r in Hdone. congruence.
  - cbn [fixWhitespace].
    assert (Hrest : endsClean (r :: rest)).
    { subst x. apply (endsClean_app done); [exact Hclean | discriminate]. }
    destruct ((wasSpace && Byte.eqb r Char.space) || Byte.eqb r Char.tab
              || Byte.eqb r Char.newline) eqn:Htrigger.
    + assert (Hr : isWhitespace r = true).
      { apply orb_true_iff in Htrigger as [Htrigger|Htrigger];
          [|apply eqb_newline_whitespace, Htrigger].
        apply orb_true_iff in Htrigger as [Htrigger|Htrigger];
          [|apply eqb_tab_whitespace, Htrigger].
        apply andb_true_iff in Htrigger as [_ Htrigger].
        apply eqb_space_whitespace, Htrigger. }
      rewrite writeWords_spaced by (auto; reflexivity).
      destruct wasSpace; cbn [scanned] in Hdone.
      * destruct Hdone as (core & Hcore & Hdone).
        rewrite Hx, Hdone. f_equal.
        rewrite Hcore, length_app. cbn [length].
        replace (length core + 1 - 1)%nat with (length core) by lia.
        rewrite <- !app_assoc. apply take_app_length.
      * rewrite Hx, Hdone.
        rewrite readWord_atGap, skipWord_atGap by exact Hr.
        cbn [app]. f_equal. apply take_app_length.
    + apply orb_false_iff in Htrigger as [Htrigger Hnl].
      apply orb_false_iff in Htrigger as [Htrigger Htab].
      replace (S (length done)) with (length (done ++ [r]))
        by (rewrite length_app; cbn; lia).
      apply IH; [rewrite <- app_assoc; exact Hx | exact Hclean |].
      destruct (Byte.eqb r Char.space) eqn:Hsp.
      * (* a first space *)
        rewrite andb_true_r in Htrigger. subst wasSpace.
        cbn [scanned] in Hdone |- *.
        apply eqb_space_eq in Hsp. subst r.
        exists done. split; [reflexivity|]. intros rest'.
        rewrite <- app_assoc. cbn [app]. rewrite Hdone.
        rewrite readWord_atGap, skipWord_atGap by reflexivity.
        cbn [app]. rewrite spaced_cons_whitespace; reflexivity.
      * (* a byte of a word *)
        assert (Hr : isWhitespace r = false).
        { unfold isWhitespace. rewrite Hsp, Htab, Hnl. reflexivity. }
        cbn [scanned]. intros rest'.
        rewrite <- !app_assoc. cbn [app].
        destruct wasSpace; cbn [scanned] in Hdone.
        -- destruct Hdone as (core & Hcore & Hdone).
           rewrite Hdone, spaced_cons_word by exact Hr.
           rewrite Hcore, <- app_assoc. reflexivity.
        -- rewrite Hdone. cbn [readWord skipWord]. rewrite Hr. reflexivity.
Qed.

Lemma skipWhitespace_snoc_word (l : list Byte.byte) (c : Byte.byte) :
  isWhitespace c = false ->
  skipWhitespace (l ++ [c]) = skipWhitespace l ++ [c].
Proof.
  intros Hc. induction l as [|a l IH].
  - cbn. rewrite Hc. reflexivity.
  - cbn [app skipWhitespace]. destruct (isWhitespace a); auto.
Qed.

Lemma skipWhitespace_head (x : list Byte.byte) (c : Byte.byte) :
  head (skipWhitespace x) = Some c -> isWhitespace c = false.
Proof.
  induction x as [|a x IH]; [discriminate|].
  cbn [skipWhitespace]. destruct (isWhitespace a) eqn:Ha; [exact IH|].
  cbn. congruence.
Qed.

Lemma last_rev (l : list Byte.byte) : last (rev l) = head l.
Proof.
  destruct l as [|c l]; [reflexivity|]. cbn [rev]. apply last_snoc.
Qed.

Lemma trimmed_endsClean (x : list Byte.byte) : endsClean (trimmed x).
Proof.
  intros c. unfold trimmed. rewrite last_rev. apply skipWhitespace_head.
Qed.

Lemma trimmed_head (x : list Byte.byte) (c : Byte.byte) :
  head (trimmed x) = Some c -> isWhitespace c = false.
Proof.
  unfold trimmed.
  destruct (skipWhitespace x) as [|a y] eqn:Hskip; [discriminate|].
  assert (Ha : isWhitespace a = false)
    by (apply (skipWhitespace_head x); rewrite Hskip; reflexivity).
  cbn [rev]. rewrite skipWhitespace_snoc_word by exact Ha.
  rewrite rev_unit. cbn. congruence.
Qed.

Lemma words_trimmed (x : list Byte.byte) : words (trimmed x) = words x.
Proof.
  unfold trimmed.
  rewrite words_trimRight, rev_involutive. apply words_skipWhitespace.
Qed.

Lemma flattenSQL_joinWords (x : list Byte.byte) :
  __sqlbundle_flattenSQL x = joinWords (words x).
Proof.
  unfold __sqlbundle_flattenSQL. fold (trimmed x).
  rewrite <- (words_trimmed x).
  pose proof (trimmed_endsClean x) as Hclean.
  pose proof (trimmed_head x) as Hhead.
  destruct (trimmed x) as [|c y]; [reflexivity|].
  specialize (Hhead c eq_refl).
  assert (Hc : Byte.eqb c Char.space = false
               /\ Byte.eqb c Char.tab = false
               /\ Byte.eqb c Char.newline = false).
  { unfold isWhitespace in Hhead.
    apply orb_false_iff in Hhead as [Hhead ?].
    apply orb_false_iff in Hhead as [? ?]. auto. }
  destruct Hc as (Hsp & Htab & Hnl).
  cbn [fixWhitespace]. rewrite Hsp, Htab, Hnl. cbn [andb orb].
  apply (fixWhitespace_joinWords y (c :: y) [c] false);
    [reflexivity | exact Hclean |].
  cbn [scanned]. intros rest. cbn [app].
  apply joinWords_cons_word, Hhead.
Qed.

(** X23.  [__sqlbundle_flattenSQL] returns the words of its argument - the
    maximal runs of bytes other than space, tab and newline - with one space
    between them. *)
Theorem flattenSQL_joins_the_words (x : list Byte.byte) :
  __sqlbundle_flattenSQL x = joinWords (words x).
Proof. apply flattenSQL_joinWords. Qed.

(** *** Words *)

Lemma readWord_no_whitespace (x : list Byte.byte) :
  Forall (fun c => isWhitespace c = false) (readWord x).
Proof.
  induction x as [|c x IH]; [constructor|].
  cbn [readWord]. destruct (isWhitespace c) eqn:Hc; cbn [negb];
    constructor; auto.
Qed.

Lemma words_are_words_upto (n : nat) :
  forall x : list Byte.byte,
    (length x <= n)%nat -> Forall isWord (words x).
Proof.
  induction n as [|n IH]; intros x Hlen.
  - destruct x; [constructor | cbn in Hlen; lia].
  - destruct x as [|c x]; [constructor|]. cbn [length] in Hlen.
    destruct (isWhitespace c) eqn:Hc.
    + rewrite words_cons_whitespace by exact Hc. apply IH. lia.
    + rewrite words_cons_word by exact Hc. constructor.
      * split; [discriminate|]. constructor; [exact Hc|].
        apply readWord_no_whitespace.
      * apply IH. pose proof (skipWord_length x). lia.
Qed.

Lemma words_are_words (x : list Byte.byte) : Forall isWord (words x).
Proof. apply (words_are_words_upto (length x)). reflexivity. Qed.

Lemma readWord_app_word (w rest : list Byte.byte) :
  Forall (fun c => isWhitespace c = false) w -> atGap rest ->
  readWord (w ++ rest) = w /\ skipWord (w ++ rest) = rest.
Proof.
  intros Hw Hrest. induction Hw as [|c w Hc Hw IH].
  - cbn [app]. split; [apply readWord_atGap | apply skipWord_atGap]; auto.
  - cbn [app readWord skipWord]. rewrite Hc. cbn [negb].
    destruct IH as [-> ->]. auto.
Qed.

Lemma words_app_word (w rest : list Byte.byte) :
  isWord w -> atGap rest -> words (w ++ rest) = w :: words rest.
Proof.
  intros [Hne Hw] Hrest. destruct w as [|c w]; [congruence|].
  inversion Hw as [|? ? Hc Hw']; subst.
  cbn [app]. rewrite words_cons_word by exact Hc.
  destruct (readWord_app_word w rest Hw' Hrest) as [-> ->]. reflexivity.
Qed.

Lemma atGap_spacedWords (ws : list (list Byte.byte)) :
  atGap (concat (map (cons Char.space) ws)).
Proof. destruct ws; cbn; auto. Qed.

Lemma words_spacedWords (ws : list (list Byte.byte)) :
  Forall isWord ws -> words (concat (map (cons Char.space) ws)) = ws.
Proof.
  induction 1 as [|w ws Hw Hws IH]; [reflexivity|].
  cbn [map concat app].
  rewrite words_cons_whitespace by reflexivity.
  rewrite words_app_word, IH; auto using atGap_spacedWords.
Qed.

Lemma words_joinWords (ws : list (list Byte.byte)) :
  Forall isWord ws -> words (joinWords ws) = ws.
Proof.
  destruct 1 as [|w ws Hw Hws]; [reflexivity|]. cbn [joinWords].
  rewrite words_app_word, words_spacedWords; auto using atGap_spacedWords.
Qed.

(** X24.  Flattening a flattened string changes nothing. *)
Theorem flattenSQL_idempotent (x : list Byte.byte) :
  __sqlbundle_flattenSQL (__sqlbundle_flattenSQL x)
  = __sqlbundle_flattenSQL x.
Proof.
  rewrite !flattenSQL_joinWords.
  rewrite words_joinWords by apply words_are_words. reflexivity.
Qed.

Lemma spaced_length_upto (n : nat) :
  forall x : list Byte.byte,
    (length x <= n)%nat ->
    (length (spaced x) <= length x + 1)%nat
    /\ (atGap x -> (length (spaced x) <= length x)%nat).
Proof.
  induction n as [|n IH]; intros x Hlen.
  - destruct x; [cbn; lia | cbn in Hlen; lia].
  - destruct x as [|c x]; [cbn; lia|]. cbn [length] in Hlen.
    destruct (isWhitespace c) eqn:Hc.
    + rewrite spaced_cons_whitespace by exact Hc.
      destruct (IH x ltac:(lia)) as [Hx _]. cbn [length]. lia.
    + rewrite spaced_cons_word by exact Hc.
      pose proof (readWord_skipWord_length x) as Hsplit.
      destruct (IH (skipWord x) ltac:(lia)) as [_ Hgap].
      specialize (Hgap (atGap_skipWord x)).
      cbn [length atGap]. rewrite length_app.
      split; [lia | congruence].
Qed.

Lemma joinWords_length (x : list Byte.byte) :
  (length (joinWords (words x)) <= length x)%nat.
Proof.
  destruct x as [|c x]; [reflexivity|].
  destruct (isWhitespace c) eqn:Hc.
  - destruct (spaced_length_upto (length (c :: x)) (c :: x) ltac:(lia))
      as [_ Hgap].
    specialize (Hgap Hc). unfold spaced in Hgap.
    destruct (words (c :: x)) as [|w ws]; [cbn; lia|].
    cbn [joinWords map concat length app] in Hgap |- *. lia.
  - rewrite joinWords_cons_word by exact Hc.
    pose proof (readWord_skipWord_length x) as Hsplit.
    destruct (spaced_length_upto (length (skipWord x)) (skipWord x)
                ltac:(lia)) as [_ Hgap].
    specialize (Hgap (atGap_skipWord x)).
    cbn [length]. rewrite length_app. lia.
Qed.

Lemma trimmed_length (x : list Byte.byte) :
  (length (trimmed x) <= length x)%nat.
Proof.
  unfold trimmed. rewrite length_rev.
  pose proof (skipWhitespace_length (rev (skipWhitespace x))) as H1.
  rewrite length_rev in H1.
  pose proof (skipWhitespace_length x). lia.
Qed.

(** X25.  The flattened string is never longer than the trimmed string
    [x[s:e+1]], whose length is what the builder is grown to (line 626), and
    the trimmed string is never longer than the argument. *)
Theorem flattenSQL_not_longer (x : list Byte.byte) :
  (length (__sqlbundle_flattenSQL x) <= length (trimmed x))%nat
  /\ (length (trimmed x) <= length x)%nat.
Proof.
  split; [|apply trimmed_length].
  rewrite flattenSQL_joinWords, <- (words_trimmed x). apply joinWords_length.
Qed.

(** ** Rebinding *)

Lemma eqb_false_of_neq (c d : Byte.byte) : c <> d -> Byte.eqb c d = false.
Proof.
  intros Hne. destruct (Byte.eqb c d) eqn:E; [|reflexivity].
  apply Byte.byte_dec_bl in E. contradiction.
Qed.

Lemma rebindLoop_copies (sql : list Byte.byte) :
  forall (state : sqlParseState) (j : Z) (out : list Byte.byte),
    ~ In Char.question sql ->
    rebindLoop sql state j out = out ++ sql.
Proof.
  induction sql as [|ch sql IH]; intros state j out Hno.
  - cbn. rewrite app_nil_r. reflexivity.
  - assert (Hch : Byte.eqb ch Char.question = false).
    { apply eqb_false_of_neq. intros ->. apply Hno. left. reflexivity. }
    assert (Hrest : ~ In Char.question sql).
    { intros Hin. apply Hno. right. exact Hin. }
    cbn [rebindLoop]. rewrite Hch.
    destruct state; rewrite IH by exact Hrest;
      rewrite <- app_assoc; reflexivity.
Qed.

(** X26.  A statement without [?] is returned unchanged by every
    dialect. *)
Theorem Rebind_without_placeholders (dialect : __sqlbundle_Dialect)
    (sql : list Byte.byte) :
  ~ In Char.question sql -> Rebind dialect sql = sql.
Proof.
  intros Hno. destruct dialect; cbn [Rebind]; try reflexivity;
    apply (rebindLoop_copies sql sqlParseStart 1 [] Hno).
Qed.

Lemma Rebind_without_placeholders_witness :
  ~ In Char.question SqlSample.plain
  /\ Rebind __sqlbundle_postgres SqlSample.plain = SqlSample.plain.
Proof.
  assert (H : ~ In Char.question SqlSample.plain).
  { intros Hin. vm_compute in Hin.
    repeat (destruct Hin as [Hin|Hin]; [discriminate Hin|]). exact Hin. }
  split; [exact H|].
  apply (Rebind_without_placeholders __sqlbundle_postgres SqlSample.plain H).
Defined.

Lemma rebindLoop_plain (s : list Byte.byte) :
  forall (rest : list Byte.byte) (j : Z) (out : list Byte.byte),
    forallb plainByte s = true ->
    rebindLoop (s ++ rest) sqlParseStart j out
    = rebindLoop rest sqlParseStart j (out ++ s).
Proof.
  induction s as [|ch s IH]; intros rest j out Hplain.
  - cbn [app]. rewrite app_nil_r. reflexivity.
  - cbn [forallb] in Hplain. apply andb_true_iff in Hplain as [Hch Hs].
    unfold plainByte in Hch. apply negb_true_iff in Hch.
    apply orb_false_iff in Hch as [Hch Hsq].
    apply orb_false_iff in Hch as [Hch Hdq].
    apply orb_false_iff in Hch as [Hq Hdash].
    cbn [app rebindLoop]. rewrite Hq, Hdash, Hdq, Hsq.
    rewrite IH by exact Hs. rewrite <- app_assoc. reflexivity.
Qed.

Lemma rebindLoop_numbered (segments : list (list Byte.byte)) :
  forall (j : Z) (out : list Byte.byte),
    forallb (forallb plainByte) segments = true ->
    rebindLoop (concat (map (cons Char.question) segments)) sqlParseStart j
      out
    = out ++ numbered j segments.
Proof.
  induction segments as [|s segments IH]; intros j out Hplain.
  - cbn. rewrite app_nil_r. reflexivity.
  - cbn [forallb] in Hplain. apply andb_true_iff in Hplain as [Hs Hrest].
    cbn [map concat app rebindLoop numbered].
    change (Byte.eqb Char.question Char.question) with true. cbv iota.
    rewrite rebindLoop_plain by exact Hs.
    rewrite IH by exact Hrest.
    rewrite <- !app_assoc. reflexivity.
Qed.

(** X27.  In a statement without quotes and dashes the dialects other than
    [sqlite3] replace the placeholders, from left to right, by [$1], [$2],
    ... and copy the text between them. *)
Theorem Rebind_numbers_placeholders (dialect : __sqlbundle_Dialect)
    (first : list Byte.byte) (segments : list (list Byte.byte)) :
  numbersPlaceholders dialect = true ->
  forallb (forallb plainByte) (first :: segments) = true ->
  Rebind dialect (first ++ concat (map (cons Char.question) segments))
  = first ++ numbered 1 segments.
Proof.
  intros Hdialect Hplain.
  cbn [forallb] in Hplain. apply andb_true_iff in Hplain as [Hfirst Hrest].
  destruct dialect; try discriminate Hdialect; cbn [Rebind];
    rewrite rebindLoop_plain by exact Hfirst;
    rewrite rebindLoop_numbered by exact Hrest; reflexivity.
Qed.

Lemma Rebind_numbers_placeholders_witness :
  Rebind __sqlbundle_pgx
    (SqlSample.plain
     ++ concat (map (cons Char.question) SqlSample.segments))
  = SqlSample.plain ++ numbered 1 SqlSample.segments.
Proof.
  apply (Rebind_numbers_placeholders __sqlbundle_pgx SqlSample.plain
           SqlSample.segments); reflexivity.
Defined.

(** ** Rendering *)

Lemma joinWords_no_newline (ws : list (list Byte.byte)) :
  Forall isWord ws -> ~ In Char.newline (joinWords ws).
Proof.
  intros Hws.
  assert (Hrest : forall ws : list (list Byte.byte),
             Forall isWord ws ->
             ~ In Char.newline (concat (map (cons Char.space) ws))).
  { induction 1 as [|w ws' [_ Hw] _ IH]; [intros []|].
    cbn [map concat]. intros Hin. apply in_app_or in Hin as [Hin|Hin]; auto.
    destruct Hin as [Hin|Hin]; [discriminate|].
    rewrite List.Forall_forall in Hw. apply Hw in Hin. discriminate. }
  destruct Hws as [|w ws [_ Hw] Hws]; [intros []|].
  cbn [joinWords]. intros Hin. apply in_app_or in Hin as [Hin|Hin].
  - rewrite List.Forall_forall in Hw. apply Hw in Hin. discriminate.
  - apply (Hrest ws Hws Hin).
Qed.

Lemma rebindLoop_in_comment (sql : list Byte.byte) :
  forall (j : Z) (out : list Byte.byte),
    ~ In Char.newline sql ->
    rebindLoop sql sqlParseInComment j out = out ++ sql.
Proof.
  induction sql as [|ch sql IH]; intros j out Hno.
  - cbn. rewrite app_nil_r. reflexivity.
  - assert (Hch : Byte.eqb ch Char.newline = false).
    { apply eqb_false_of_neq. intros ->. apply Hno. left. reflexivity. }
    cbn [rebindLoop]. rewrite Hch, IH, <- app_assoc; [reflexivity|].
    intros Hin. apply Hno. right. exact Hin.
Qed.

(** X28.  Rendered with the default options, a statement that starts with
    [--] is flattened and terminated, and no placeholder in it is numbered,
    whatever follows: flattening leaves no newline to end the comment. *)
Theorem Render_comment_swallows_the_statement
    (dialect : __sqlbundle_Dialect) (sql : __sqlbundle_SQL)
    (x : list Byte.byte) :
  Render sql = Char.dash :: Char.dash :: x ->
  __sqlbundle_Render dialect sql []
  = __sqlbundle_flattenSQL (Render sql) ++ [Char.semicolon].
Proof.
  intros Hsql. unfold __sqlbundle_Render. cbn [fold_left].
  rewrite Hsql, flattenSQL_joinWords.
  pose proof (joinWords_no_newline _ (words_are_words
                                        (Char.dash :: Char.dash :: x)))
    as Hno.
  rewrite joinWords_cons_word in Hno |- * by reflexivity.
  change (readWord (Char.dash :: x)) with (Char.dash :: readWord x)
    in Hno |- *.
  change (skipWord (Char.dash :: x)) with (skipWord x) in Hno |- *.
  set (tail := readWord x ++ spaced (skipWord x)) in *.
  assert (Hrest : ~ In Char.newline
                    ((Char.dash :: tail) ++ [Char.semicolon])).
  { intros Hin. apply in_app_or in Hin as [Hin|Hin].
    - apply Hno. right. exact Hin.
    - destruct Hin as [Hin|[]]. discriminate. }
  destruct dialect; cbn [Rebind]; try reflexivity;
    cbn [app rebindLoop];
    change (Byte.eqb Char.dash Char.question) with false;
    change (Byte.eqb Char.dash Char.dash) with true; cbv iota;
    apply (rebindLoop_in_comment _ 1 [Char.dash] Hrest).
Qed.

Lemma Render_comment_swallows_the_statement_witness :
  __sqlbundle_Render __sqlbundle_postgres
    (__sqlbundle_Literal SqlSample.commented) []
  = __sqlbundle_flattenSQL
      (Render (__sqlbundle_Literal SqlSample.commented))
    ++ [Char.semicolon].
Proof.
  apply (Render_comment_swallows_the_statement __sqlbundle_postgres
           (__sqlbundle_Literal SqlSample.commented)
           (tl (tl SqlSample.commented))).
  reflexivity.
Defined.

Lemma literalsLoop_rest (Join : list Byte.byte)
    (SQLs : list (option __sqlbundle_SQL)) :
  forall out : list Byte.byte,
    literalsLoop Render Join SQLs false out
    = out ++ concat (map (app Join) (map Render (present SQLs))).
Proof.
  induction SQLs as [|[sql|] SQLs IH]; intros out.
  - cbn. rewrite app_nil_r. reflexivity.
  - cbn [literalsLoop negb]. rewrite IH.
    cbn [present map concat].
    rewrite <- !app_assoc. reflexivity.
  - cbn [literalsLoop]. rewrite IH. reflexivity.
Qed.

(** X29.  [__sqlbundle_Literals.Render] gives the renderings of the entries
    that are not nil, with [Join] between them: nothing is written for a
    nil entry, and no [Join] before the first or after the last part. *)
Theorem Literals_Render_joins (Join : list Byte.byte)
    (SQLs : list (option __sqlbundle_SQL)) :
  Render (__sqlbundle_Literals Join SQLs)
  = joined Join (map Render (present SQLs)).
Proof.
  cbn [Render].
  induction SQLs as [|[sql|] SQLs IH].
  - reflexivity.
  - cbn [literalsLoop negb]. rewrite literalsLoop_rest. reflexivity.
  - cbn [literalsLoop]. exact IH.
Qed.
